(** * multi-agent-system: message bus, agent runtime, manager and coordinator

    A shallow embedding of the Python sources

      - [communication/message.py]       (Message, MessageType)
      - [communication/message_bus.py]   (MessageBus)
      - [communication/protocol.py]      (Task, TaskStatus, AgentStatus)
      - [communication/coordination.py]  (Coordinator)
      - [agents/base_agent.py]           (BaseAgent)
      - [agents/manager/coordinator.py]  (ManagerAgent)
      - [agents/research/gatherer.py]    (ResearchAgent)
      - [agents/writer/creator.py]       (WriterAgent: the requests to other agents)
      - [agents/analyzer/insights.py]    (AnalyzerAgent: the count of data items)

    Python objects that are shared and mutated (the [asyncio.Queue] inboxes,
    the [Task] objects) live in stores indexed by reference; Python dicts
    are insertion-ordered association lists; exceptions are an explicit
    outcome; floats are the kernel's binary64 numbers.

    What the embedding covers:

    - Exceptions are those that derive from [Exception], the ones an
      [except Exception] clause catches.  [asyncio.CancelledError] and the
      other exceptions that derive from [BaseException] only, which pass
      such a clause, are not modelled: no coroutine is cancelled here.
    - A method is followed as one coroutine.  While it is suspended the
      other coroutines send messages through the bus; they do not take
      messages off the inbox of the agent whose method is followed.  This is
      the case when the method runs inside the message loop of its agent
      (the loop awaits the handler) and when the agent has not been started;
      it is not the case for a method called from outside on a started
      agent, whose own message loop then reads the same inbox.
    - Time is counted in ticks of 0.1 s. *)

From Stdlib Require Import List String Ascii ZArith Lia Bool PeanoNat.
From Stdlib Require Import PrimFloat Uint63 SpecFloat FloatOps.
Import ListNotations.

Set Warnings "-inexact-float,-register-all".
Set Implicit Arguments.

Local Open Scope string_scope.
Local Open Scope list_scope.

(** ** Python values *)

(** The dynamically typed values the modelled code passes around as
    [Any]: message payloads, task mappings, results.  Values are immutable
    here; dict keys are strings, the only keys the sources use. *)
Inductive PyVal : Type :=
| PNone
| PBool (b : bool)
| PInt (n : Z)
| PFloat (x : float)
| PStr (s : string)
| PList (items : list PyVal)
| PDict (items : list (string * PyVal)).

(** [type(v).__name__] *)
Definition type_name (v : PyVal) : string :=
  match v with
  | PNone => "NoneType"
  | PBool _ => "bool"
  | PInt _ => "int"
  | PFloat _ => "float"
  | PStr _ => "str"
  | PList _ => "list"
  | PDict _ => "dict"
  end.

(** [bool(v)] *)
Definition truthy (v : PyVal) : bool :=
  match v with
  | PNone => false
  | PBool b => b
  | PInt n => negb (n =? 0)%Z
  | PFloat x => negb (PrimFloat.eqb x 0%float)
  | PStr s => negb (s =? "")
  | PList l => match l with [] => false | _ => true end
  | PDict d => match d with [] => false | _ => true end
  end.

(** ** Outcomes: a returned value or a raised [Exception]

    [Raised e] stands for an exception that derives from [Exception] and
    carries [str(e)], the only part of an exception the sources look at. *)
Inductive Outcome (A : Type) : Type :=
| Returned (a : A)
| Raised (e : string).
Arguments Returned {A} a.
Arguments Raised {A} e.

(** ** Insertion-ordered dicts with string keys *)
Module Dict.
Section Ops.
Context {V : Type}.

Definition t := list (string * V).

(** [d.get(k)] *)
Fixpoint get (k : string) (d : list (string * V)) : option V :=
  match d with
  | [] => None
  | (k', v) :: d' => if k =? k' then Some v else get k d'
  end.

(** [k in d] *)
Definition mem (k : string) (d : list (string * V)) : bool :=
  match get k d with Some _ => true | None => false end.

(** [d[k] = v]: an existing key keeps its position, a new one goes last *)
Fixpoint set (k : string) (v : V) (d : list (string * V)) : list (string * V) :=
  match d with
  | [] => [(k, v)]
  | (k', v') :: d' => if k =? k' then (k, v) :: d' else (k', v') :: set k v d'
  end.

(** [del d[k]] *)
Fixpoint del (k : string) (d : list (string * V)) : list (string * V) :=
  match d with
  | [] => []
  | (k', v') :: d' => if k =? k' then d' else (k', v') :: del k d'
  end.

(** [list(d.keys())] *)
Definition keys (d : list (string * V)) : list string := map fst d.

(** [list(d.values())] *)
Definition values (d : list (string * V)) : list V := map snd d.

(** The representation invariant of a dict: no key twice. *)
Definition wf (d : list (string * V)) : Prop := NoDup (keys d).
End Ops.
End Dict.

(** [v.get(k, default)] on an arbitrary value: a dict answers, anything
    else has no attribute [get]. *)
Definition attribute_error (v : PyVal) (attr : string) : string :=
  ("'" ++ type_name v ++ "' object has no attribute '" ++ attr ++ "'")%string.

Definition py_get_default (v : PyVal) (k : string) (default : PyVal) : Outcome PyVal :=
  match v with
  | PDict d => Returned (match Dict.get k d with Some x => x | None => default end)
  | _ => Raised (attribute_error v "get")
  end.

(** [v.get(k)] *)
Definition py_get (v : PyVal) (k : string) : Outcome PyVal :=
  py_get_default v k PNone.

(** [s in xs] for a set (or list) of strings *)
Definition str_in (s : string) (xs : list string) : bool :=
  existsb (String.eqb s) xs.

(** ** communication/message.py *)

Inductive MessageType : Type :=
| TASK | RESULT | REQUEST | RESPONSE | BROADCAST | STATUS | ERROR.

Definition MessageType_eqb (a b : MessageType) : bool :=
  match a, b with
  | TASK, TASK | RESULT, RESULT | REQUEST, REQUEST | RESPONSE, RESPONSE
  | BROADCAST, BROADCAST | STATUS, STATUS | ERROR, ERROR => true
  | _, _ => false
  end.

Record Message : Type := mkMessage {
  to : string;
  from_ : string;
  message_type : MessageType;
  content : PyVal;
  message_id : string;
  correlation_id : option string;
  timestamp : Z;
  metadata : list (string * PyVal)
}.

(** ** communication/message_bus.py: state *)

(** [MessageBus.agents] maps an agent id to its inbox, a reference to an
    [asyncio.Queue]; [message_history] is the list of delivered messages. *)
Record MessageBus : Type := mkBus {
  agents : list (string * nat);
  message_history : list Message
}.

(** The part of the process state the modelled code reads and writes.

    - [uuid4] and [datetime_now] are the process's sources of identifiers
      and wall-clock time: the [n]-th draw of each; [draws] counts the draws
      made so far (a [Message(...)] construction draws both).
    - [clock] is the event loop's time in ticks of 0.1 s, and [others n]
      lists the messages the other coroutines send through the bus while
      this one is suspended in the [n]-th tick ([await asyncio.sleep(0.1)]).
    - [queues] holds the contents of every [asyncio.Queue] by reference,
      oldest message first; the queues are unbounded, as [asyncio.Queue()]
      creates them.
    - [bus] is the one [MessageBus] all agents share. *)
Record World : Type := mkWorld {
  uuid4 : nat -> string;
  datetime_now : nat -> Z;
  others : nat -> list Message;
  draws : nat;
  clock : nat;
  queues : nat -> list Message;
  bus : MessageBus
}.

Definition set_draws (n : nat) (w : World) : World :=
  mkWorld (uuid4 w) (datetime_now w) (others w) n (clock w) (queues w) (bus w).
Definition set_clock (n : nat) (w : World) : World :=
  mkWorld (uuid4 w) (datetime_now w) (others w) (draws w) n (queues w) (bus w).
Definition set_queues (q : nat -> list Message) (w : World) : World :=
  mkWorld (uuid4 w) (datetime_now w) (others w) (draws w) (clock w) q (bus w).
Definition set_bus (b : MessageBus) (w : World) : World :=
  mkWorld (uuid4 w) (datetime_now w) (others w) (draws w) (clock w) (queues w) b.

(** [str(uuid4())] *)
Definition fresh_uuid (w : World) : string * World :=
  (uuid4 w (draws w), set_draws (S (draws w)) w).

(** [await inbox.put(message)] *)
Definition queue_put (inbox : nat) (message : Message) (w : World) : World :=
  set_queues (fun q => if (q =? inbox)%nat then queues w q ++ [message] else queues w q) w.

(** [self.message_history.append(message)] *)
Definition history_append (message : Message) (w : World) : World :=
  set_bus (mkBus (agents (bus w)) (message_history (bus w) ++ [message])) w.

(** [Message(to=..., from_=..., message_type=..., content=...,
    correlation_id=..., metadata=...)]: the dataclass constructor;
    [message_id] and [timestamp] come from their default factories. *)
Definition new_Message (to0 from0 : string) (mt : MessageType) (content0 : PyVal)
    (correlation : option string) (metadata0 : list (string * PyVal))
    (w : World) : Message * World :=
  (mkMessage to0 from0 mt content0 (uuid4 w (draws w)) correlation
             (datetime_now w (draws w)) metadata0,
   set_draws (S (draws w)) w).

(** [Message.reply(content, message_type=MessageType.RESPONSE)] *)
Definition reply (self : Message) (content0 : PyVal) (mt : option MessageType)
    (w : World) : Message * World :=
  new_Message (from_ self) (to self)
    (match mt with Some t => t | None => RESPONSE end)
    content0 (Some (message_id self)) [] w.

(** ** communication/message_bus.py: operations *)

(** [MessageBus.register_agent] *)
Definition register_agent (agent_id : string) (inbox : nat) (w : World) : World :=
  set_bus (mkBus (Dict.set agent_id inbox (agents (bus w))) (message_history (bus w))) w.

(** [MessageBus.unregister_agent] *)
Definition unregister_agent (agent_id : string) (w : World) : World :=
  if Dict.mem agent_id (agents (bus w))
  then set_bus (mkBus (Dict.del agent_id (agents (bus w))) (message_history (bus w))) w
  else w.

(** [MessageBus.send_message] *)
Definition send_message (message : Message) (w : World) : bool * World :=
  match Dict.get (to message) (agents (bus w)) with
  | None => (false, w)
  | Some inbox => (true, history_append message (queue_put inbox message w))
  end.

(** The test in the loop of [MessageBus.broadcast]:
    [agent_id not in exclude and agent_id != message.from_] *)
Definition broadcast_target (message : Message) (exclude : list string)
    (agent_id : string) : bool :=
  negb (str_in agent_id exclude) && negb (agent_id =? from_ message).

(** The loop [for agent_id, inbox in self.agents.items()] of
    [MessageBus.broadcast] *)
Fixpoint broadcast_loop (items : list (string * nat)) (message : Message)
    (exclude : list string) (count : nat) (w : World) : nat * World :=
  match items with
  | [] => (count, w)
  | (agent_id, inbox) :: rest =>
      if broadcast_target message exclude agent_id then
        let (broadcast_msg, w1) :=
          new_Message agent_id (from_ message) BROADCAST (content message)
                      None (metadata message) w in
        broadcast_loop rest message exclude (S count) (queue_put inbox broadcast_msg w1)
      else broadcast_loop rest message exclude count w
  end.

(** [MessageBus.broadcast(message, exclude=None)] *)
Definition broadcast (message : Message) (exclude : option (list string))
    (w : World) : nat * World :=
  let exclude := match exclude with
                 | Some (x :: e) => x :: e
                 | _ => []                      (* exclude or set() *)
                 end in
  let (count, w1) := broadcast_loop (agents (bus w)) message exclude 0 w in
  (count, history_append message w1).

(** Python's [xs[start:]] *)
Definition slice_from {A : Type} (start : Z) (xs : list A) : list A :=
  let n := Z.of_nat (List.length xs) in
  let s := if (start <? 0)%Z then Z.max 0 (start + n) else Z.min start n in
  skipn (Z.to_nat s) xs.

(** [MessageBus.get_history(agent_id=None, limit=None)] *)
Definition get_history (agent_id : option string) (limit : option Z)
    (b : MessageBus) : list Message :=
  let history := message_history b in
  let history :=
    match agent_id with
    | Some a =>
        if negb (a =? "")                         (* if agent_id: *)
        then filter (fun msg => (from_ msg =? a) || (to msg =? a)) history
        else history
    | None => history
    end in
  let history :=
    match limit with
    | Some l =>
        if negb (l =? 0)%Z                        (* if limit: *)
        then slice_from (- l) history
        else history
    | None => history
    end in
  history.

(** [MessageBus.get_registered_agents] *)
Definition get_registered_agents (b : MessageBus) : list string :=
  Dict.keys (agents b).

(** [MessageBus.clear_history] *)
Definition clear_history (w : World) : World :=
  set_bus (mkBus (agents (bus w)) []) w.

(** [await asyncio.sleep(0.1)]: the coroutine is suspended for one tick;
    meanwhile the other coroutines run and send their messages.  They do
    not read the inbox of the suspended coroutine's agent. *)
Definition sleep_tick (w : World) : World :=
  set_clock (S (clock w))
    (fold_left (fun w0 m => snd (send_message m w0)) (others w (clock w)) w).

(** [await asyncio.sleep(n * 0.1)] *)
Fixpoint sleep_ticks (n : nat) (w : World) : World :=
  match n with
  | O => w
  | S n' => sleep_ticks n' (sleep_tick w)
  end.

(** [await asyncio.wait_for(inbox.get(), timeout)], the timeout in ticks:
    the first message of the queue is taken off as soon as there is one;
    [None] stands for the [asyncio.TimeoutError] raised when the queue has
    stayed empty for the whole time. *)
Fixpoint wait_inbox (inbox : nat) (left : nat) (w : World) : option Message * World :=
  match queues w inbox with
  | message :: rest =>
      (Some message,
       set_queues (fun q => if (q =? inbox)%nat then rest else queues w q) w)
  | [] =>
      match left with
      | O => (None, w)
      | S left' => wait_inbox inbox left' (sleep_tick w)
      end
  end.

(** The scan of one poll of [wait_for_message]:
    [for msg in reversed(self.message_history)] *)
Definition scan_history (agent_id : string) (correlation : option string)
    (history : list Message) : option Message :=
  find (fun msg =>
          (from_ msg =? agent_id) &&
          match correlation with
          | None => true
          | Some c => match correlation_id msg with
                      | Some c' => c' =? c
                      | None => false
                      end
          end)
       (rev history).

(** [MessageBus.wait_for_message(agent_id, correlation_id, timeout)], the
    timeout in ticks: while less than [timeout] ticks have passed, scan the
    history and sleep one tick.  [left] is the time left; every sleep takes
    a tick of it. *)
Fixpoint wait_for_message (agent_id : string) (correlation : option string)
    (left : nat) (w : World) : option Message * World :=
  match left with
  | O => (None, w)
  | S left' =>
      match scan_history agent_id correlation (message_history (bus w)) with
      | Some msg => (Some msg, w)
      | None => wait_for_message agent_id correlation left' (sleep_tick w)
      end
  end.

(** ** communication/protocol.py *)

Inductive TaskStatus : Type :=
| PENDING | IN_PROGRESS | COMPLETED | FAILED | CANCELLED.

Record Task : Type := mkTask {
  task_id : string;
  description : string;
  task_type : string;
  parameters : PyVal;
  priority : Z;
  required_capabilities : list string;
  status : TaskStatus;
  result : PyVal
}.

Module AgentStatus.
Record t : Type := mk {
  agent_id : string;
  state : PyVal;
  current_task : PyVal;
  capabilities : PyVal;
  workload : PyVal
}.
End AgentStatus.

(** The payload builders of [Protocol] *)
Module Protocol.

(** [Protocol.task_request] *)
Definition task_request (task : Task) : PyVal :=
  PDict [("action", PStr "task_request");
         ("task", PDict [("task_id", PStr (task_id task));
                         ("description", PStr (description task));
                         ("task_type", PStr (task_type task));
                         ("parameters", parameters task);
                         ("priority", PInt (priority task));
                         ("required_capabilities",
                          PList (map PStr (required_capabilities task)))])].

(** [Protocol.status_request] *)
Definition status_request : PyVal := PDict [("action", PStr "status_request")].

(** [Protocol.status_response] *)
Definition status_response (agent_status0 : AgentStatus.t) : PyVal :=
  PDict [("action", PStr "status_response");
         ("agent_id", PStr (AgentStatus.agent_id agent_status0));
         ("state", AgentStatus.state agent_status0);
         ("current_task", AgentStatus.current_task agent_status0);
         ("capabilities", AgentStatus.capabilities agent_status0);
         ("workload", AgentStatus.workload agent_status0)].

End Protocol.

(** ** A state and exception monad for the methods of stateful objects *)

Definition M (S A : Type) : Type := S -> Outcome A * S.

Definition ret {S A : Type} (a : A) : M S A := fun s => (Returned a, s).

Definition raise {S A : Type} (e : string) : M S A := fun s => (Raised e, s).

Definition bind {S A B : Type} (m : M S A) (k : A -> M S B) : M S B :=
  fun s => match m s with
           | (Returned a, s') => k a s'
           | (Raised e, s') => (Raised e, s')
           end.

Notation "x <- m ;; k" := (bind m (fun x => k))
  (at level 61, m at next level, right associativity).
Notation "m ;;; k" := (bind m (fun _ => k))
  (at level 61, right associativity).

(** [try: body except Exception as e: handler(str(e))]; every [Raised]
    is an [Exception] *)
Definition try_except {S A : Type} (body : M S A) (handler : string -> M S A) : M S A :=
  fun s => match body s with
           | (Returned a, s') => (Returned a, s')
           | (Raised e, s') => handler e s'
           end.

(** [try: body finally: final] *)
Definition try_finally {S A : Type} (body : M S A) (final : M S unit) : M S A :=
  fun s => match body s with
           | (r, s') => match final s' with
                        | (Returned _, s'') => (r, s'')
                        | (Raised e, s'') => (Raised e, s'')
                        end
           end.

(** An operation that cannot raise *)
Definition lift {S A : Type} (f : S -> A * S) : M S A :=
  fun s => let (a, s') := f s in (Returned a, s').

(** The outcome of a pure operation *)
Definition of_outcome {S A : Type} (o : Outcome A) : M S A := fun s => (o, s).

Definition get_state {S : Type} : M S S := fun s => (Returned s, s).
Definition modify {S : Type} (f : S -> S) : M S unit := fun s => (Returned tt, f s).

(** ** agents/base_agent.py *)

(** The attributes of a [BaseAgent].  [inbox] is the reference of the
    agent's queue; [received] keeps what the debug log line at the head of
    [_handle_message] records, the messages given to the dispatcher, oldest
    first; [ext] holds the attributes a subclass adds. *)
Record Agent (X : Type) : Type := mkAgent {
  agent_id : string;
  capabilities : list string;
  inbox : nat;
  state : string;
  current_task : PyVal;
  running : bool;
  received : list Message;
  ext : X
}.
Arguments mkAgent {X}.

Definition set_state {X} (s : string) (a : Agent X) : Agent X :=
  mkAgent (agent_id a) (capabilities a) (inbox a) s (current_task a) (running a)
          (received a) (ext a).
Definition set_current_task {X} (t : PyVal) (a : Agent X) : Agent X :=
  mkAgent (agent_id a) (capabilities a) (inbox a) (state a) t (running a)
          (received a) (ext a).
Definition set_running {X} (r : bool) (a : Agent X) : Agent X :=
  mkAgent (agent_id a) (capabilities a) (inbox a) (state a) (current_task a) r
          (received a) (ext a).
Definition set_received {X} (l : list Message) (a : Agent X) : Agent X :=
  mkAgent (agent_id a) (capabilities a) (inbox a) (state a) (current_task a) (running a)
          l (ext a).
Definition set_ext {X} (x : X) (a : Agent X) : Agent X :=
  mkAgent (agent_id a) (capabilities a) (inbox a) (state a) (current_task a) (running a)
          (received a) x.

(** A method of an agent runs on the agent and the world. *)
Definition AgentM (X A : Type) : Type := M (Agent X * World) A.

Definition on_self {X} (f : Agent X -> Agent X) : AgentM X unit :=
  modify (fun s => (f (fst s), snd s)).
Definition on_world {X A} (f : World -> A * World) : AgentM X A :=
  lift (fun s => let (a, w') := f (snd s) in (a, (fst s, w'))).
Definition self {X} : AgentM X (Agent X) :=
  fun s => (Returned (fst s), s).

(** What a subclass supplies: the abstract [process_task] and the
    overridable [handle_message]. *)
Class AgentClass (X : Type) : Type := {
  process_task : PyVal -> AgentM X PyVal;
  handle_message : Message -> AgentM X unit
}.

Module BaseAgent.

Section Methods.

Context {X : Type} {cls : AgentClass X}.

(** [BaseAgent.__init__]; the fresh queue is [inbox0] *)
Definition init (agent_id0 : string) (capabilities0 : option (list string))
    (inbox0 : nat) (x : X) : Agent X :=
  mkAgent agent_id0
          (match capabilities0 with Some (c :: l) => c :: l | _ => [] end)
          inbox0 "idle" PNone false [] x.

(** [BaseAgent.handle_message], the default of the hook: the message
    is ignored *)
Definition default_handle_message (message : Message) : AgentM X unit :=
  ret tt.

(** [BaseAgent.get_status] *)
Definition get_status (a : Agent X) : AgentStatus.t :=
  AgentStatus.mk (agent_id a) (PStr (state a)) (current_task a)
    (PList (map PStr (capabilities a)))
    (PFloat (if state a =? "busy" then 0.5%float else 0.0%float)).

(** [BaseAgent._send_error] *)
Definition _send_error (original_message : Message) (error : string)
    : AgentM X unit :=
  me <- self ;;
  error_message <- on_world (new_Message (from_ original_message) (agent_id me) ERROR
                     (PDict [("error", PStr error);
                             ("original_message_id",
                              PStr (message_id original_message))])
                     (Some (message_id original_message)) []) ;;
  on_world (send_message error_message) ;;;
  ret tt.

(** [BaseAgent._handle_task_message] *)
Definition _handle_task_message (message : Message) : AgentM X unit :=
  on_self (set_state "busy") ;;;
  let task_data := content message in
  tid <- of_outcome (py_get task_data "task_id") ;;
  on_self (set_current_task tid) ;;;
  try_finally
    (try_except
       (result0 <- process_task task_data ;;
        tid' <- of_outcome (py_get task_data "task_id") ;;
        me <- self ;;
        response <- on_world (new_Message (from_ message) (agent_id me) RESULT
                      (PDict [("task_id", tid');
                              ("result", result0);
                              ("status", PStr "completed")])
                      (Some (message_id message)) []) ;;
        on_world (send_message response) ;;;
        ret tt)
       (fun e => _send_error message e))
    (on_self (set_state "idle") ;;;
     on_self (set_current_task PNone)).

(** [action == "status"] *)
Definition is_str (v : PyVal) (s : string) : bool :=
  match v with PStr s' => s' =? s | _ => false end.

(** [BaseAgent._handle_request_message] *)
Definition _handle_request_message (message : Message) : AgentM X unit :=
  let content0 := content message in
  action <- of_outcome (py_get content0 "action") ;;
  if is_str action "status" then
    me <- self ;;
    let st := get_status me in
    response <- on_world (new_Message (from_ message) (agent_id me) STATUS
                  (PDict [("state", AgentStatus.state st);
                          ("current_task", AgentStatus.current_task st);
                          ("capabilities", AgentStatus.capabilities st);
                          ("workload", AgentStatus.workload st)])
                  (Some (message_id message)) []) ;;
    on_world (send_message response) ;;;
    ret tt
  else handle_message message.

(** [BaseAgent._handle_status_message] *)
Definition _handle_status_message (message : Message) : AgentM X unit :=
  handle_message message.

(** [BaseAgent._handle_broadcast_message] *)
Definition _handle_broadcast_message (message : Message) : AgentM X unit :=
  handle_message message.

(** [BaseAgent._handle_message] *)
Definition _handle_message (message : Message) : AgentM X unit :=
  on_self (fun a => set_received (received a ++ [message]) a) ;;;
  try_except
    (match message_type message with
     | TASK => _handle_task_message message
     | REQUEST => _handle_request_message message
     | STATUS => _handle_status_message message
     | BROADCAST => _handle_broadcast_message message
     | _ => handle_message message
     end)
    (fun e => _send_error message e).

(** One round of the loop [while self.running] of
    [BaseAgent._process_messages]: the loop waits up to 0.5 s for the next
    message, takes it off the inbox and handles it; an exception is logged
    and the loop goes on.  When the wait times out the round is over, and
    nothing happens when the agent is not running. *)
Definition _process_messages_step : AgentM X unit :=
  fun s =>
    let (a, w) := s in
    if running a then
      match wait_inbox (inbox a) 5 w with
      | (None, w') => (Returned tt, (a, w'))
      | (Some message, w') =>
          try_except (_handle_message message) (fun _ => ret tt) (a, w')
      end
    else (Returned tt, s).

(** [BaseAgent.start] *)
Definition start : AgentM X unit :=
  me <- self ;;
  on_world (fun w => (tt, register_agent (agent_id me) (inbox me) w)) ;;;
  on_self (set_running true).

(** [BaseAgent.stop] *)
Definition stop : AgentM X unit :=
  on_self (set_running false) ;;;
  me <- self ;;
  on_world (fun w => (tt, unregister_agent (agent_id me) w)).

(** [BaseAgent.send_message(to, content, message_type=REQUEST)] *)
Definition send_message (to0 : string) (content0 : PyVal)
    (mt : option MessageType) : AgentM X bool :=
  me <- self ;;
  message <- on_world (new_Message to0 (agent_id me)
                         (match mt with Some t => t | None => REQUEST end)
                         content0 None []) ;;
  on_world (send_message message).

End Methods.

End BaseAgent.

(** ** Strings: [str.lower()] and [sub in s]

    A character is a code point below 256; on these [str.lower()] maps
    [A-Z] and the Latin-1 capitals U+00C0-U+00DE (but the sign U+00D7)
    32 places up and leaves the rest. *)
Definition lower_char (c : ascii) : ascii :=
  let n := nat_of_ascii c in
  if ((65 <=? n) && (n <=? 90))%nat
     || ((192 <=? n) && (n <=? 222) && negb (n =? 215))%nat
  then ascii_of_nat (n + 32)
  else c.

Fixpoint lower (s : string) : string :=
  match s with
  | EmptyString => EmptyString
  | String c s' => String (lower_char c) (lower s')
  end.

(** [sub in s] *)
Fixpoint str_contains (sub s : string) : bool :=
  if String.prefix sub s then true
  else match s with
       | EmptyString => false
       | String _ s' => str_contains sub s'
       end.

(** [v[k]] on an arbitrary value, for a key [k] that is a [str]; the texts
    of the [TypeError]s are those of Python 3.11 and later *)
Definition py_item (v : PyVal) (k : string) : Outcome PyVal :=
  match v with
  | PDict d => match Dict.get k d with
               | Some x => Returned x
               | None => Raised ("'" ++ k ++ "'")%string         (* KeyError *)
               end
  | PStr _ => Raised "string indices must be integers, not 'str'"
  | PList _ => Raised "list indices must be integers or slices, not str"
  | _ => Raised ("'" ++ type_name v ++ "' object is not subscriptable")%string
  end.

(** [v in xs] for a set [xs] of strings: the member found, if any; a list
    or a dict cannot be hashed. *)
Definition py_in_strs (v : PyVal) (xs : list string) : Outcome (option string) :=
  match v with
  | PStr s => Returned (if str_in s xs then Some s else None)
  | PList _ | PDict _ => Raised ("unhashable type: '" ++ type_name v ++ "'")%string
  | _ => Returned None
  end.

(** [set(xs)] as the list of its members, each once (Python fixes no
    order of iteration for a set), and [s.remove(x)] *)
Definition set_of (xs : list string) : list string := nodup string_dec xs.
Definition set_remove (x : string) (s : list string) : list string :=
  filter (fun y => negb (y =? x)) s.

(** ** agents/manager/coordinator.py *)

(** The attributes [ManagerAgent] adds to [BaseAgent]. *)
Record ManagerState : Type := mkManagerState {
  pending_results : list (string * list Message);
  subtask_mapping : list (string * PyVal)
}.

Module ManagerAgent.

(** [any(keyword in description.lower() for keyword in keywords)] *)
Definition any_keyword (keywords : list string) (description0 : string) : bool :=
  existsb (fun keyword => str_contains keyword (lower description0)) keywords.

Definition research_keywords : list string := ["research"; "gather"; "find"; "investigate"].
Definition analysis_keywords : list string := ["analyze"; "insights"; "trends"; "patterns"].
Definition writing_keywords : list string := ["write"; "create"; "report"; "document"].

(** The dict literal [{"type": ..., "description": ..., "parameters": ...}] *)
Definition subtask (type0 description0 : string) (parameters0 : PyVal) : PyVal :=
  PDict [("type", PStr type0); ("description", PStr description0);
         ("parameters", parameters0)].

(** [ManagerAgent._decompose] *)
Definition _decompose (description0 : string) (parameters0 : PyVal) : list PyVal :=
  let subtasks := [] in
  let subtasks :=
    if any_keyword research_keywords description0
    then subtasks ++ [subtask "research" ("Research: " ++ description0) parameters0]
    else subtasks in
  let subtasks :=
    if any_keyword analysis_keywords description0
    then subtasks ++ [subtask "analysis" ("Analyze data for: " ++ description0) parameters0]
    else subtasks in
  let subtasks :=
    if any_keyword writing_keywords description0
    then subtasks ++ [subtask "writing" ("Write content for: " ++ description0) parameters0]
    else subtasks in
  match subtasks with
  | [] => [subtask "general" description0 parameters0]       (* if not subtasks: *)
  | _ => subtasks
  end.

(** [ManagerAgent._select_agent] *)
Definition _select_agent (subtask0 : PyVal) : Outcome string :=
  match py_item subtask0 "type" with
  | Raised e => Raised e
  | Returned task_type0 =>
      let agent_mapping := [("research", "research_agent");
                            ("analysis", "analyzer_agent");
                            ("writing", "writer_agent");
                            ("general", "research_agent")] in
      match task_type0 with
      | PStr t => Returned (match Dict.get t agent_mapping with
                            | Some a => a
                            | None => "research_agent"
                            end)
      | PList _ | PDict _ =>
          Raised ("unhashable type: '" ++ type_name task_type0 ++ "'")%string
      | _ => Returned "research_agent"
      end
  end.

(** The body of the loop of [ManagerAgent._gather_results], run while ids
    remain and time is left: if the inbox is not empty its first message is
    taken off; a RESULT whose task id is among the remaining ones is
    recorded and its id removed; then [await asyncio.sleep(0.1)].  The
    [except asyncio.TimeoutError] never fires: the [get] of a queue that is
    not empty returns at once. *)
Definition gather_step (remaining : list string) (results : list (string * PyVal))
    : AgentM ManagerState (list string * list (string * PyVal)) :=
  me <- self ;;
  s <- get_state ;;
  let w := snd s in
  r <- match queues w (inbox me) with
       | [] => ret (remaining, results)
       | message :: rest =>
           on_world (fun w0 => (tt, set_queues (fun q => if (q =? inbox me)%nat then rest
                                                         else queues w0 q) w0)) ;;;
           match message_type message with
           | RESULT =>
               task_id0 <- of_outcome (py_get (content message) "task_id") ;;
               found <- of_outcome (py_in_strs task_id0 remaining) ;;
               match found with
               | Some id =>
                   result0 <- of_outcome (py_get (content message) "result") ;;
                   ret (set_remove id remaining, Dict.set id result0 results)
               | None => ret (remaining, results)
               end
           | _ => ret (remaining, results)
           end
       end ;;
  on_world (fun w0 => (tt, sleep_tick w0)) ;;;
  ret r.

(** The loop of [_gather_results]: [left] is the time left in ticks; every
    round sleeps one tick, so [loop.time() - start_time < timeout] holds
    exactly while [left] is not zero. *)
Fixpoint gather_loop (left : nat) (remaining : list string)
    (results : list (string * PyVal)) : AgentM ManagerState (list (string * PyVal)) :=
  match left with
  | O => ret results
  | S left' =>
      match remaining with
      | [] => ret results
      | _ => r <- gather_step remaining results ;;
             gather_loop left' (fst r) (snd r)
      end
  end.

(** [ManagerAgent._gather_results(subtask_ids, timeout)], the timeout in
    ticks (the default 60.0 is 600) *)
Definition _gather_results (subtask_ids : list string) (timeout : nat)
    : AgentM ManagerState (list (string * PyVal)) :=
  gather_loop timeout (set_of subtask_ids) [].

Section Synthesis.

(** [str(v)], Python's printing of a value, is left open. *)
Variable py_str : PyVal -> string.

(** [ManagerAgent._synthesize] *)
Definition _synthesize (results : list (string * PyVal)) : PyVal :=
  let is_dict (r : PyVal) := match r with PDict _ => true | _ => false end in
  let mentions (word : string) (r : PyVal) := str_contains word (lower (py_str r)) in
  let dicts := filter is_dict (Dict.values results) in
  let research_data := filter (mentions "research") dicts in
  let rest1 := filter (fun r => negb (mentions "research" r)) dicts in
  let analysis_data :=
    filter (fun r => mentions "analysis" r || mentions "insights" r) rest1 in
  let rest2 :=
    filter (fun r => negb (mentions "analysis" r || mentions "insights" r)) rest1 in
  let written_content := filter (mentions "content") rest2 in
  PDict ([("summary", PStr "Task completed with multiple subtask results");
          ("subtask_count", PInt (Z.of_nat (List.length results)));
          ("subtask_results", PDict results);
          ("status", PStr "completed")]
         ++ (match research_data with [] => [] | _ => [("research", PList research_data)] end)
         ++ (match analysis_data with [] => [] | _ => [("analysis", PList analysis_data)] end)
         ++ (match written_content with [] => [] | _ => [("content", PList written_content)] end)).

(** The loop [for subtask in subtasks] of [ManagerAgent.process_task] *)
Fixpoint dispatch_subtasks (task_id0 : PyVal) (subtasks : list PyVal)
    (subtask_ids : list string) : AgentM ManagerState (list string) :=
  match subtasks with
  | [] => ret subtask_ids
  | subtask0 :: rest =>
      agent <- of_outcome (_select_agent subtask0) ;;
      subtask_id <- on_world fresh_uuid ;;
      d <- of_outcome (py_item subtask0 "description") ;;
      t <- of_outcome (py_item subtask0 "type") ;;
      p <- of_outcome (py_get_default subtask0 "parameters" (PDict [])) ;;
      let subtask_message := PDict [("task_id", PStr subtask_id); ("description", d);
                                    ("task_type", t); ("parameters", p)] in
      BaseAgent.send_message agent subtask_message (Some TASK) ;;;
      on_self (fun a => set_ext (mkManagerState (pending_results (ext a))
                                   (Dict.set subtask_id task_id0 (subtask_mapping (ext a)))) a) ;;;
      dispatch_subtasks task_id0 rest (subtask_ids ++ [subtask_id])
  end.

(** [ManagerAgent.process_task] *)
Definition process_task (task_data : PyVal) : AgentM ManagerState PyVal :=
  task_id0 <- match task_data with
              | PDict _ =>
                  default_id <- on_world fresh_uuid ;;
                  of_outcome (py_get_default task_data "task_id" (PStr default_id))
              | _ => raise (attribute_error task_data "get")
              end ;;
  description0 <- of_outcome (py_get_default task_data "description" (PStr "")) ;;
  parameters0 <- of_outcome (py_get_default task_data "parameters" (PDict [])) ;;
  match description0 with
  | PStr d =>
      let subtasks := _decompose d parameters0 in
      subtask_ids <- dispatch_subtasks task_id0 subtasks [] ;;
      results <- _gather_results subtask_ids 600 ;;
      ret (_synthesize results)
  | _ => raise (attribute_error description0 "lower")
  end.


End Synthesis.

End ManagerAgent.

(** ** Python's float arithmetic

    A Python [float] is a binary64 number and [+], [*], [/] round to
    nearest, as the kernel's primitive operations do. *)

(** The float nearest to the integer [z], ties to even; it is infinite
    when [z] is too large for a float. *)
Definition float_of_Z (z : Z) : float :=
  SF2Prim (binary_normalize 53 1024 z 0 false).

(** The number a value stands for in float arithmetic ([bool] is an
    [int]): an [int] is converted to the nearest float, with an
    [OverflowError] when it is too large; [error] is the text of the
    [TypeError] of the operation for a value that is no number. *)
Definition as_float (v : PyVal) (error : string) : Outcome float :=
  match v with
  | PFloat x => Returned x
  | PInt n =>
      let x := float_of_Z n in
      if PrimFloat.is_infinity x then Raised "int too large to convert to float"
      else Returned x
  | PBool b => Returned (if b then 1%float else 0%float)
  | _ => Raised error
  end.


(** The texts of the [TypeError]s of [x += v], [v / x] and [v * x] for a
    float [x] *)
Definition iadd_error (v : PyVal) : string :=
  ("unsupported operand type(s) for +=: 'float' and '" ++ type_name v ++ "'")%string.
Definition div_error (v : PyVal) : string :=
  ("unsupported operand type(s) for /: '" ++ type_name v ++ "' and 'float'")%string.
Definition mul_error (v : PyVal) : string :=
  match v with
  | PStr _ | PList _ => "can't multiply sequence by non-int of type 'float'"
  | _ => ("unsupported operand type(s) for *: '" ++ type_name v ++ "' and 'float'")%string
  end.

(** [min(a, b)] of two floats: [b] if [b < a], else [a] *)
Definition py_min (a b : float) : float :=
  if PrimFloat.ltb b a then b else a.

(** The integer nearest to [n / d], ties to the even one ([n >= 0], [d > 0]) *)
Definition div_half_even (n d : Z) : Z :=
  let q := (n / d)%Z in
  let r := (n mod d)%Z in
  if (2 * r <? d)%Z then q
  else if (d <? 2 * r)%Z then (q + 1)%Z
  else if Z.even q then q else (q + 1)%Z.

(** A finite float [x >= 0] as [m * 2^e] with integers [m] and [e]:
    [frshiftexp] gives the fraction in [0.5, 1) and the exponent shifted by
    2101, [normfr_mantissa] the 53 bits of the fraction. *)
Definition float_decompose (x : float) : Z * Z :=
  let (f, e) := PrimFloat.frshiftexp x in
  (Uint63.to_Z (PrimFloat.normfr_mantissa f), (Uint63.to_Z e - 2101 - 53)%Z).

(** [round(x, 2)] for [x >= 0]: the decimal with two places nearest to the
    exact value of [x] (ties to even), then the float nearest to that
    decimal: what [float.__round__] computes with [dtoa] and [strtod]. *)
Definition round2_nonneg (x : float) : float :=
  if PrimFloat.leb 4503599627370496%float x then x        (* x >= 2**52: integral *)
  else
    let (m, e) := float_decompose x in
    let q := if (0 <=? e)%Z then (100 * m * 2 ^ e)%Z
             else div_half_even (100 * m) (2 ^ (- e)) in   (* hundredths *)
    if (q <? 2 ^ 53)%Z then (float_of_Z q / 100)%float
    else
      (* q / 100 lies in [2**46, 2**52]: its neighbours are multiples of
         2**(k - 52) with k = floor(log2(q / 100)) *)
      let k := Z.log2 (q / 100) in
      let s := (2 ^ (52 - k))%Z in
      (float_of_Z (div_half_even (q * s) 100) / float_of_Z s)%float.

(** [round(x, 2)] *)
Definition py_round2 (x : float) : float :=
  if PrimFloat.is_nan x || PrimFloat.is_infinity x then x
  else if PrimFloat.get_sign x then PrimFloat.opp (round2_nonneg (PrimFloat.abs x))
  else round2_nonneg x.

(** ** agents/research/gatherer.py *)

Module ResearchAgent.

(** [ResearchAgent] adds the attribute [knowledge_base]. *)
Definition KnowledgeBase : Type := list (string * PyVal).

(** [ResearchAgent._search_knowledge_base] *)
Definition _search_knowledge_base (knowledge_base : KnowledgeBase) (query : PyVal)
    : Outcome PyVal :=
  match query with
  | PStr q =>
      let query_lower := lower q in
      Returned
        (match find (fun kv => str_contains (lower (fst kv)) query_lower
                               || str_contains query_lower (lower (fst kv)))
                    knowledge_base with
         | Some kv => snd kv
         | None => PNone
         end)
  | _ => Raised (attribute_error query "lower")
  end.

(** [ResearchAgent._simulate_web_search]; [query] is a [str] here, the
    knowledge base search has lowered it before *)
Definition _simulate_web_search (query : string) (w : World) : PyVal * World :=
  (PDict [("summary", PStr ("Web search results for: " ++ query));
          ("snippets",
           PList [PStr ("Information about " ++ query ++ " from source 1");
                  PStr ("Additional details on " ++ query ++ " from source 2");
                  PStr ("Expert opinion on " ++ query ++ " from source 3")]);
          ("url_count", PInt 3)],
   sleep_tick w)%string.

(** [ResearchAgent._simulate_academic_search].  Its sleep of 0.15 s ends
    within the second tick; it is counted as two ticks, so the time the
    searches take is rounded up here (0.3 s for 0.25 s). *)
Definition _simulate_academic_search (query : string) (w : World) : PyVal * World :=
  (PDict [("papers_found", PInt 5);
          ("key_findings",
           PList [PStr ("Academic finding 1 related to " ++ query);
                  PStr ("Academic finding 2 related to " ++ query)]);
          ("citations", PInt 15)],
   sleep_ticks 2 w)%string.

(** The dict literal [{"source": ..., "data": ..., "reliability": ...}] *)
Definition source_result (source : PyVal) (data : PyVal) (reliability : PyVal) : PyVal :=
  PDict [("source", source); ("data", data); ("reliability", reliability)].

(** [ResearchAgent._multi_source_search] *)
Definition _multi_source_search (query : PyVal)
    : AgentM KnowledgeBase (list PyVal) :=
  me <- self ;;
  kb_results <- of_outcome (_search_knowledge_base (ext me) query) ;;
  let results :=
    if truthy kb_results
    then [source_result (PStr "knowledge_base") kb_results (PFloat 0.9)]
    else [] in
  match query with
  | PStr q =>
      web_results <- on_world (_simulate_web_search q) ;;
      let results := results ++ [source_result (PStr "web_search") web_results (PFloat 0.7)] in
      academic_results <- on_world (_simulate_academic_search q) ;;
      let results := results ++ [source_result (PStr "academic") academic_results (PFloat 0.95)] in
      ret results
  | _ => raise (attribute_error query "lower")
  end.

(** The loop [for result in results] of [ResearchAgent._cross_check] *)
Fixpoint cross_check_loop (results : list PyVal) (total_reliability : float)
    (all_data : list PyVal) : Outcome (float * list PyVal) :=
  match results with
  | [] => Returned (total_reliability, all_data)
  | result0 :: rest =>
      match py_get result0 "source" with
      | Raised e => Raised e
      | Returned source =>
      match py_get_default result0 "data" (PDict []) with
      | Raised e => Raised e
      | Returned data =>
      match py_get_default result0 "reliability" (PFloat 0.5) with
      | Raised e => Raised e
      | Returned reliability =>
      match as_float reliability (iadd_error reliability) with
      | Raised e => Raised e
      | Returned r =>
          cross_check_loop rest (total_reliability + r)%float
            (all_data ++ [source_result source data reliability])
      end end end end
  end.

(** [ResearchAgent._cross_check] *)
Definition _cross_check (results : list PyVal) : Outcome PyVal :=
  match cross_check_loop results 0.0%float [] with
  | Raised e => Raised e
  | Returned (total_reliability, all_data) =>
      Returned
        (PDict [("sources_checked", PInt (Z.of_nat (List.length results)));
                ("consolidated_data", PList all_data);
                ("reliability_score",
                 PFloat (match results with
                         | [] => 0.0%float
                         | _ => (total_reliability
                                 / float_of_Z (Z.of_nat (List.length results)))%float
                         end))])
  end.

(** [ResearchAgent._calculate_confidence] *)
Definition _calculate_confidence (verified_results : PyVal) : Outcome PyVal :=
  match py_get_default verified_results "sources_checked" (PInt 0) with
  | Raised e => Raised e
  | Returned sources_count =>
  match py_get_default verified_results "reliability_score" (PFloat 0.0) with
  | Raised e => Raised e
  | Returned reliability =>
  match as_float sources_count (div_error sources_count) with
  | Raised e => Raised e
  | Returned n =>
  match as_float reliability (mul_error reliability) with
  | Raised e => Raised e
  | Returned r =>
      let source_factor := py_min (n / 5.0)%float 1.0%float in
      let confidence := ((source_factor * 0.4) + (r * 0.6))%float in
      Returned (PFloat (py_round2 confidence))
  end end end end.

(** [ResearchAgent.process_task] *)
Definition process_task (task_data : PyVal) : AgentM KnowledgeBase PyVal :=
  description0 <- of_outcome (py_get_default task_data "description" (PStr "")) ;;
  parameters0 <- of_outcome (py_get_default task_data "parameters" (PDict [])) ;;
  query <- of_outcome (py_get_default parameters0 "query" description0) ;;
  results <- _multi_source_search query ;;
  verified_results <- of_outcome (_cross_check results) ;;
  confidence <- of_outcome (_calculate_confidence verified_results) ;;
  me <- self ;;
  ret (PDict [("query", query);
              ("results", verified_results);
              ("confidence", confidence);
              ("sources", PInt (Z.of_nat (List.length results)));
              ("agent", PStr (agent_id me))]).

(** [ResearchAgent.add_to_knowledge_base] *)
Definition add_to_knowledge_base (key : string) (data : PyVal)
    : AgentM KnowledgeBase unit :=
  on_self (fun a => set_ext (Dict.set key data (ext a)) a).



End ResearchAgent.

(** ** agents/writer/creator.py: the requests to other agents *)

Module WriterAgent.

(** The attribute [content_cache] that [WriterAgent] adds to [BaseAgent] *)
Definition ContentCache : Type := list (string * PyVal).

(** The body of the loop of [WriterAgent._wait_for_response]: if the inbox
    is not empty its first message is taken off; a RESULT with the awaited
    task id is returned, another RESULT is dropped, any other message is put
    back, at the end of the queue; unless the message is returned, the loop
    sleeps 0.1 s.  The [get] of a queue that is not empty returns at once,
    and so does the [put] on a queue without bound. *)
Definition wait_step (request_id : string) : AgentM ContentCache (option Message) :=
  me <- self ;;
  s <- get_state ;;
  let w := snd s in
  found <- match queues w (inbox me) with
           | [] => ret None
           | message :: rest =>
               on_world (fun w0 => (tt, set_queues (fun q => if (q =? inbox me)%nat then rest
                                                             else queues w0 q) w0)) ;;;
               match message_type message with
               | RESULT =>
                   task_id0 <- of_outcome (py_get (content message) "task_id") ;;
                   if BaseAgent.is_str task_id0 request_id then ret (Some message)
                   else ret None
               | _ =>
                   on_world (fun w0 => (tt, queue_put (inbox me) message w0)) ;;;
                   ret None
               end
           end ;;
  match found with
  | Some message => ret (Some message)
  | None => on_world (fun w0 => (tt, sleep_tick w0)) ;;; ret None
  end.

(** The loop of [_wait_for_response]: [left] is the time left in ticks;
    every round that does not return sleeps one tick. *)
Fixpoint wait_loop (left : nat) (request_id : string)
    : AgentM ContentCache (option Message) :=
  match left with
  | O => ret None
  | S left' =>
      found <- wait_step request_id ;;
      match found with
      | Some message => ret (Some message)
      | None => wait_loop left' request_id
      end
  end.

(** [WriterAgent._wait_for_response(request_id, timeout)], the timeout in
    ticks *)
Definition _wait_for_response (request_id : string) (timeout : nat)
    : AgentM ContentCache (option Message) :=
  wait_loop timeout request_id.

(** [WriterAgent._request_research(topic)], for a topic that is a [str] *)
Definition _request_research (topic : string) : AgentM ContentCache PyVal :=
  request_id <- on_world fresh_uuid ;;
  let message_content :=
    PDict [("task_id", PStr request_id);
           ("description", PStr ("Research: " ++ topic)%string);
           ("parameters", PDict [("query", PStr topic)])] in
  BaseAgent.send_message "research_agent" message_content (Some TASK) ;;;
  response <- _wait_for_response request_id 100 ;;
  match response with
  | Some m => of_outcome (py_get (content m) "result")
  | None => ret PNone
  end.

(** [WriterAgent._request_analysis(data)] *)
Definition _request_analysis (data : PyVal) : AgentM ContentCache PyVal :=
  request_id <- on_world fresh_uuid ;;
  let message_content :=
    PDict [("task_id", PStr request_id);
           ("description", PStr "Analyze research data");
           ("parameters", PDict [("data", data)])] in
  BaseAgent.send_message "analyzer_agent" message_content (Some TASK) ;;;
  response <- _wait_for_response request_id 100 ;;
  match response with
  | Some m => of_outcome (py_get (content m) "result")
  | None => ret PNone
  end.

End WriterAgent.

Arguments WriterAgent._wait_for_response : simpl never.

(** ** agents/analyzer/insights.py: the count of data items *)

Module AnalyzerAgent.

(** [AnalyzerAgent._count_data_items(data, depth=0, max_depth=3)]: a dict
    or list counts with its length and what its values or items count for,
    one level deeper; beyond [max_depth] nothing counts. *)
Fixpoint _count_data_items (data : PyVal) (depth max_depth : nat) {struct data} : Z :=
  if (max_depth <? depth)%nat then 0%Z
  else
    match data with
    | PDict d =>
        (Z.of_nat (List.length d)
         + (fix values (l : list (string * PyVal)) : Z :=
              match l with
              | [] => 0
              | (_, value) :: rest =>
                  _count_data_items value (S depth) max_depth + values rest
              end) d)%Z
    | PList l =>
        (Z.of_nat (List.length l)
         + (fix items (l : list PyVal) : Z :=
              match l with
              | [] => 0
              | item :: rest =>
                  _count_data_items item (S depth) max_depth + items rest
              end) l)%Z
    | _ => 0%Z
    end.

End AnalyzerAgent.

(** ** communication/coordination.py *)

(** The attributes of a [Coordinator]: [active_tasks] maps a task id to a
    [Task] object, by reference; [task_assignments] a task id to an agent
    id. *)
Record Coordinator : Type := mkCoordinator {
  active_tasks : list (string * nat);
  task_assignments : list (string * string);
  agent_status : list (string * AgentStatus.t)
}.

(** A coordinator in its surroundings: [task_store] holds the [Task]
    objects of the process by reference; the callers of the coordinator
    keep references to them too. *)
Record CoordState : Type := mkCoordState {
  coordinator : Coordinator;
  task_store : nat -> Task;
  world : World
}.

Definition set_status (s : TaskStatus) (t : Task) : Task :=
  mkTask (task_id t) (description t) (task_type t) (parameters t) (priority t)
         (required_capabilities t) s (result t).
Definition set_result (r : PyVal) (t : Task) : Task :=
  mkTask (task_id t) (description t) (task_type t) (parameters t) (priority t)
         (required_capabilities t) (status t) r.

(** An assignment to an attribute of the task object [ref] *)
Definition update_task (ref : nat) (f : Task -> Task) (cs : CoordState) : CoordState :=
  mkCoordState (coordinator cs)
               (fun r => if (r =? ref)%nat then f (task_store cs r) else task_store cs r)
               (world cs).

Definition set_coordinator (c : Coordinator) (cs : CoordState) : CoordState :=
  mkCoordState c (task_store cs) (world cs).

Definition in_world {A} (f : World -> A * World) : M CoordState A :=
  lift (fun cs => let (a, w') := f (world cs) in
                  (a, mkCoordState (coordinator cs) (task_store cs) w')).

Module Coordinator.

(** [Coordinator.__init__] *)
Definition init : Coordinator := mkCoordinator [] [] [].

(** [Coordinator.assign_task(task, agent_id, from_agent="coordinator")] *)
Definition assign_task (task : nat) (agent_id0 : string) (from_agent : option string)
    : M CoordState bool :=
  cs <- get_state ;;
  let t := task_store cs task in
  message <- in_world (new_Message agent_id0
                         (match from_agent with Some f => f | None => "coordinator" end)
                         TASK
                         (PDict [("task_id", PStr (task_id t));
                                 ("description", PStr (description t));
                                 ("task_type", PStr (task_type t));
                                 ("parameters", parameters t)])
                         None []) ;;
  success <- in_world (send_message message) ;;
  (if success : bool then
     modify (fun cs0 =>
       let c := coordinator cs0 in
       update_task task (set_status IN_PROGRESS)
         (set_coordinator
            (mkCoordinator (Dict.set (task_id t) task (active_tasks c))
                           (Dict.set (task_id t) agent_id0 (task_assignments c))
                           (agent_status c))
            cs0))
   else ret tt) ;;;
  ret success.

(** The body of the loop [for task_id in list(remaining_tasks)] of
    [Coordinator.wait_for_results] *)
Definition check_task (task_id0 : string)
    (acc : list string * list (string * PyVal))
    : M CoordState (list string * list (string * PyVal)) :=
  cs <- get_state ;;
  let c := coordinator cs in
  match Dict.get task_id0 (active_tasks c) with
  | None => ret acc
  | Some task =>
      match Dict.get task_id0 (task_assignments c) with
      | None => ret acc
      | Some agent_id0 =>
          if agent_id0 =? "" then ret acc                    (* if agent_id: *)
          else
            msg <- in_world (wait_for_message agent_id0 None 5) ;;
            match msg with
            | None => ret acc
            | Some m =>
                match message_type m with
                | RESULT =>
                    let content0 := content m in
                    id <- of_outcome (py_get content0 "task_id") ;;
                    if BaseAgent.is_str id task_id0 then
                      r <- of_outcome (py_get content0 "result") ;;
                      modify (update_task task (fun t => set_status COMPLETED (set_result r t))) ;;;
                      ret (set_remove task_id0 (fst acc), Dict.set task_id0 r (snd acc))
                    else ret acc
                | _ => ret acc
                end
            end
      end
  end.

(** [for task_id in ids: acc = check_task(task_id, acc)] *)
Fixpoint check_tasks (ids : list string) (acc : list string * list (string * PyVal))
    : M CoordState (list string * list (string * PyVal)) :=
  match ids with
  | [] => ret acc
  | task_id0 :: rest => acc' <- check_task task_id0 acc ;; check_tasks rest acc'
  end.

(** The [while] loop of [wait_for_results].  Every round sleeps a tick, so
    after [timeout] rounds the time test fails: [rounds] only bounds the
    recursion. *)
Fixpoint wait_loop (rounds : nat) (start_time timeout : nat)
    (acc : list string * list (string * PyVal))
    : M CoordState (list string * list (string * PyVal)) :=
  match rounds with
  | O => ret acc
  | S rounds' =>
      cs <- get_state ;;
      match fst acc with
      | [] => ret acc
      | _ =>
          if (clock (world cs) - start_time <? timeout)%nat then
            acc' <- check_tasks (fst acc) acc ;;
            in_world (fun w => (tt, sleep_tick w)) ;;;
            wait_loop rounds' start_time timeout acc'
          else ret acc
      end
  end.

(** The loop that marks timed out tasks as failed *)
Fixpoint mark_failed (ids : list string) (cs : CoordState) : CoordState :=
  match ids with
  | [] => cs
  | task_id0 :: rest =>
      mark_failed rest
        (match Dict.get task_id0 (active_tasks (coordinator cs)) with
         | Some task => update_task task (set_status FAILED) cs
         | None => cs
         end)
  end.

(** [Coordinator.wait_for_results(task_ids, timeout)], the timeout in ticks *)
Definition wait_for_results (task_ids : list string) (timeout : nat)
    : M CoordState (list (string * PyVal)) :=
  cs <- get_state ;;
  acc <- wait_loop timeout (clock (world cs)) timeout (set_of task_ids, []) ;;
  modify (mark_failed (fst acc)) ;;;
  ret (snd acc).

(** The loop of [gather_agent_status] that sends the status requests *)
Fixpoint request_status (agent_ids : list string) : M CoordState unit :=
  match agent_ids with
  | [] => ret tt
  | agent_id0 :: rest =>
      message <- in_world (new_Message agent_id0 "coordinator" REQUEST
                             (PDict [("action", PStr "status")]) None []) ;;
      in_world (send_message message) ;;;
      request_status rest
  end.

(** The loop of [gather_agent_status] that collects the responses *)
Fixpoint collect_status (agent_ids : list string)
    (status_dict : list (string * AgentStatus.t))
    : M CoordState (list (string * AgentStatus.t)) :=
  match agent_ids with
  | [] => ret status_dict
  | agent_id0 :: rest =>
      msg <- in_world (wait_for_message agent_id0 None 10) ;;
      match msg with
      | Some m =>
          match message_type m with
          | STATUS =>
              st <- of_outcome (py_get_default (content m) "state" (PStr "unknown")) ;;
              ct <- of_outcome (py_get (content m) "current_task") ;;
              cp <- of_outcome (py_get_default (content m) "capabilities" (PList [])) ;;
              wl <- of_outcome (py_get_default (content m) "workload" (PFloat 0.0)) ;;
              let status0 :=
                AgentStatus.mk agent_id0 st ct
                  (match cp with PNone => PList [] | _ => cp end)   (* __post_init__ *)
                  wl in
              modify (fun cs =>
                let c := coordinator cs in
                set_coordinator
                  (mkCoordinator (active_tasks c) (task_assignments c)
                                 (Dict.set agent_id0 status0 (agent_status c))) cs) ;;;
              collect_status rest (Dict.set agent_id0 status0 status_dict)
          | _ => collect_status rest status_dict
          end
      | None => collect_status rest status_dict
      end
  end.

(** [Coordinator.gather_agent_status(agent_ids=None)] *)
Definition gather_agent_status (agent_ids : option (list string))
    : M CoordState (list (string * AgentStatus.t)) :=
  cs <- get_state ;;
  let agent_ids := match agent_ids with
                   | Some l => l
                   | None => get_registered_agents (bus (world cs))
                   end in
  request_status agent_ids ;;;
  in_world (fun w => (tt, sleep_ticks 5 w)) ;;;
  collect_status agent_ids [].

(** [Coordinator.get_task_status] *)
Definition get_task_status (task_id0 : string) (cs : CoordState) : option TaskStatus :=
  match Dict.get task_id0 (active_tasks (coordinator cs)) with
  | Some task => Some (status (task_store cs task))
  | None => None
  end.

(** [Coordinator.get_active_tasks] *)
Definition get_active_tasks (cs : CoordState) : list nat :=
  filter (fun task => match status (task_store cs task) with
                      | PENDING | IN_PROGRESS => true
                      | _ => false
                      end)
         (Dict.values (active_tasks (coordinator cs))).

(** [Coordinator.cancel_task] *)
Definition cancel_task (task_id0 : string) (cs : CoordState) : bool * CoordState :=
  match Dict.get task_id0 (active_tasks (coordinator cs)) with
  | Some task => (true, update_task task (set_status CANCELLED) cs)
  | None => (false, cs)
  end.

End Coordinator.

(** ** Sample data

    A small concrete system on which the properties below are exercised:
    two inboxes, the research agent registered with inbox 0 and the writer
    with inbox 1. *)

Definition sample_uuid4 (n : nat) : string :=
  ("uuid-" ++ String (ascii_of_nat (48 + n)) "")%string.

Definition sample_bus : MessageBus :=
  mkBus [("research_agent", 0%nat); ("writer_agent", 1%nat)] [].

Definition sample_world : World :=
  mkWorld sample_uuid4 (fun n => Z.of_nat n) (fun _ => []) 0 0 (fun _ => []) sample_bus.

Definition sample_message (to0 from0 : string) (mt : MessageType) (content0 : PyVal)
    (id : string) : Message :=
  mkMessage to0 from0 mt content0 id None 0%Z [].

(** The last [n] elements of a list *)
Definition last_n {A : Type} (n : nat) (xs : list A) : list A :=
  skipn (List.length xs - n) xs.

Definition sample_m1 : Message :=
  sample_message "research_agent" "manager" TASK (PDict []) "m1".
Definition sample_m2 : Message :=
  sample_message "writer_agent" "manager" TASK (PDict []) "m2".

(** What makes a delivered message a broadcast copy of [message]: kind
    BROADCAST, and the sender, payload and metadata of [message]. *)
Definition broadcast_copy (message c : Message) : Prop :=
  message_type c = BROADCAST
  /\ from_ c = from_ message
  /\ content c = content message
  /\ metadata c = metadata message.

(** *** The decomposition policy, as the specification words it

    Three keyword categories in the fixed order research, analysis,
    writing; a category matches a description when one of its keywords
    occurs in it, case ignored; one subtask per matching category, with the
    prefixed description, the category as type tag and the parameters; if no
    category matches, one subtask of type "general" with the description
    itself. *)
Record Category : Type := mkCategory {
  category_type : string;
  category_keywords : list string;
  category_prefix : string
}.

Definition categories : list Category :=
  [mkCategory "research" ["research"; "gather"; "find"; "investigate"] "Research: ";
   mkCategory "analysis" ["analyze"; "insights"; "trends"; "patterns"] "Analyze data for: ";
   mkCategory "writing" ["write"; "create"; "report"; "document"] "Write content for: "].

Definition occurs_ignoring_case (keyword text : string) : bool :=
  str_contains (lower keyword) (lower text).

Definition category_matches (text : string) (c : Category) : bool :=
  existsb (fun keyword => occurs_ignoring_case keyword text) (category_keywords c).

(** What a subtask carries: a mapping with the type tag under "type", the
    description under "description", the parameters under "parameters", and
    nothing else. *)
Definition carries (subtask0 : PyVal) (type0 description0 : string) (parameters0 : PyVal)
    : Prop :=
  py_item subtask0 "type" = Returned (PStr type0)
  /\ py_item subtask0 "description" = Returned (PStr description0)
  /\ py_item subtask0 "parameters" = Returned parameters0
  /\ exists d, subtask0 = PDict d /\ List.length d = 3%nat.

(** The categories that match a description, in their fixed order *)
Definition matching_categories (description0 : string) : list Category :=
  filter (category_matches description0) categories.

Definition decomposition_policy (description0 : string) (parameters0 : PyVal) : list PyVal :=
  match matching_categories description0 with
  | [] => [PDict [("type", PStr "general"); ("description", PStr description0);
                  ("parameters", parameters0)]]
  | matching =>
      map (fun c => PDict [("type", PStr (category_type c));
                           ("description",
                            PStr (category_prefix c ++ description0)%string);
                           ("parameters", parameters0)])
          matching
  end.

(** [subtask["type"]] *)
Definition subtask_type (subtask0 : PyVal) : Outcome PyVal := py_item subtask0 "type".

(** A coordinator that knows no task yet, and two task objects: number 0
    is pending, every other one is completed. *)
Definition sample_task (n : nat) : Task :=
  mkTask (if (n =? 0)%nat then "t0" else "t1") "Research the topic" "research" (PDict [])
         5 [] (if (n =? 0)%nat then PENDING else COMPLETED) PNone.

Definition sample_coord_state : CoordState :=
  mkCoordState Coordinator.init sample_task sample_world.

(** The same with task 1 recorded under its id, assigned to the writer. *)
Definition sample_coord_state_done : CoordState :=
  mkCoordState (mkCoordinator [("t1", 1%nat)] [("t1", "writer_agent")] [])
               sample_task sample_world.

(** *** The operations of the coordinator, as a transition system *)

Inductive CoordOp : Type :=
| OpAssignTask (task : nat) (agent : string) (from_agent : option string)
| OpWaitForResults (task_ids : list string) (timeout : nat)
| OpGatherAgentStatus (agent_ids : option (list string))
| OpGetTaskStatus (id : string)
| OpGetActiveTasks
| OpCancelTask (id : string).

(** The state after an operation; an exception keeps the changes made
    before it was raised. *)
Definition run_op (op : CoordOp) (cs : CoordState) : CoordState :=
  match op with
  | OpAssignTask task agent from_agent =>
      snd (Coordinator.assign_task task agent from_agent cs)
  | OpWaitForResults task_ids timeout =>
      snd (Coordinator.wait_for_results task_ids timeout cs)
  | OpGatherAgentStatus agent_ids =>
      snd (Coordinator.gather_agent_status agent_ids cs)
  | OpGetTaskStatus _ => cs
  | OpGetActiveTasks => cs
  | OpCancelTask id => snd (Coordinator.cancel_task id cs)
  end.




(** *** The replies of [_handle_task_message] *)

(** The RESULT message sent for the task message [m] by the agent
    [sender], with the task id [tid] and the result [r], when the next draw
    is taken in [w]. *)
Definition result_message (m : Message) (sender : string) (tid r : PyVal) (w : World)
    : Message :=
  mkMessage (from_ m) sender RESULT
            (PDict [("task_id", tid); ("result", r); ("status", PStr "completed")])
            (uuid4 w (draws w)) (Some (message_id m)) (datetime_now w (draws w)) [].

(** The ERROR message sent for the message [m] with the error text [e] *)
Definition error_message (m : Message) (sender : string) (e : string) (w : World)
    : Message :=
  mkMessage (from_ m) sender ERROR
            (PDict [("error", PStr e); ("original_message_id", PStr (message_id m))])
            (uuid4 w (draws w)) (Some (message_id m)) (datetime_now w (draws w)) [].

(** The world after a message built in [w] has been sent *)
Definition after_send (message : Message) (w : World) : World :=
  snd (send_message message (set_draws (S (draws w)) w)).

(** [d.get("task_id")] for the items [d] of a dict *)
Definition task_id_of (d : list (string * PyVal)) : PyVal :=
  match Dict.get "task_id" d with Some x => x | None => PNone end.

(** A TASK message whose payload is [None], from the manager *)
Definition sample_bad_task : Message :=
  sample_message "research_agent" "manager" TASK PNone "m0".

(** *** The gather loop of the manager *)

(** The inbox of the agent [me] without its first message *)
Definition inbox_popped {X} (me : Agent X) (w : World) : World :=
  set_queues (fun q => if (q =? inbox me)%nat then tl (queues w (inbox me))
                       else queues w q) w.

(** A message the gather loop drops: one that is not a RESULT, or a RESULT
    whose payload is a mapping and whose task id can be looked up in the
    set of remaining ids and is not there. *)
Definition dropped (remaining : list string) (m : Message) : Prop :=
  message_type m <> RESULT
  \/ exists d, content m = PDict d
               /\ py_in_strs (task_id_of d) remaining = Returned None.


(** Only messages with the property [P] reach the inbox [q]: those in it
    have it, and so have the messages the other coroutines send to an agent
    registered with [q]. *)
Definition only_arrive (P : Message -> Prop) (q : nat) (w : World) : Prop :=
  Forall P (queues w q)
  /\ forall n, Forall (fun m => Dict.get (to m) (agents (bus w)) = Some q -> P m)
                      (others w n).

(** Only messages that the gather loop drops reach the inbox [q], when the
    loop waits for [subtask_ids]. *)
Definition only_dropped_arrive (subtask_ids : list string) (q : nat) (w : World) : Prop :=
  only_arrive (dropped subtask_ids) q w.

(** A manager with inbox 2, waiting for the subtask "s1", and a world in
    which its inbox holds one message. *)
Definition sample_manager : Agent ManagerState :=
  BaseAgent.init "manager" (Some ["coordination"; "task_decomposition"; "synthesis"])
                 2 (mkManagerState [] []).

Definition sample_manager_world (m : Message) : World :=
  mkWorld sample_uuid4 (fun n => Z.of_nat n) (fun _ => []) 0 0
          (fun q => if (q =? 2)%nat then [m] else [])
          (mkBus [("research_agent", 0%nat); ("writer_agent", 1%nat); ("manager", 2%nat)] []).

(** A RESULT message whose payload is [None] *)
Definition sample_bad_result : Message :=
  sample_message "manager" "research_agent" RESULT PNone "r0".

(** The ERROR reply of the research agent to the subtask message "m7" *)
Definition sample_error_reply : Message :=
  mkMessage "manager" "research_agent" ERROR
            (PDict [("error", PStr "boom"); ("original_message_id", PStr "m7")])
            "e0" (Some "m7") 0%Z [].

(** An agent class whose [process_task] returns the task mapping it was
    given and which keeps the default [handle_message], and a research
    agent of that class with inbox 0. *)
Definition echo_class : AgentClass unit :=
  {| process_task := fun task_data => ret task_data;
     handle_message := BaseAgent.default_handle_message |}.

Definition sample_agent : Agent unit :=
  set_running true (BaseAgent.init "research_agent" None 0 tt).

(** The sample world with one message in inbox 0 and the manager
    registered with inbox 2 *)
Definition sample_inbox_world (m : Message) : World :=
  mkWorld sample_uuid4 (fun n => Z.of_nat n) (fun _ => []) 0 0
          (fun q => if (q =? 0)%nat then [m] else [])
          (mkBus [("research_agent", 0%nat); ("writer_agent", 1%nat); ("manager", 2%nat)] []).

(** *** The research agent *)

(** The query of a task mapping, as the first three statements of
    [ResearchAgent.process_task] find it *)
Definition query_of (task_data : PyVal) : Outcome PyVal :=
  match py_get_default task_data "description" (PStr "") with
  | Raised e => Raised e
  | Returned description0 =>
      match py_get_default task_data "parameters" (PDict []) with
      | Raised e => Raised e
      | Returned parameters0 => py_get_default parameters0 "query" description0
      end
  end.

(** [0.0 <= c <= 1.0] *)
Definition in_unit_interval (c : float) : bool :=
  PrimFloat.leb 0%float c && PrimFloat.leb c 1%float.

(** A research agent that knows about "climate" *)
Definition sample_researcher : Agent ResearchAgent.KnowledgeBase :=
  BaseAgent.init "research_agent"
                 (Some ["research"; "information_gathering"; "verification"])
                 0 [("climate", PDict [("fact", PStr "it changes")])].

(** The class of the manager: its [process_task], and the inherited
    [handle_message]. *)
Definition manager_class (py_str : PyVal -> string) : AgentClass ManagerState :=
  {| process_task := ManagerAgent.process_task py_str;
     handle_message := BaseAgent.default_handle_message |}.

(** *** Notions for the further properties *)

(** The history of [w'] is that of [w] with messages added at its end. *)
Definition history_extends (w w' : World) : Prop :=
  exists added, message_history (bus w') = message_history (bus w) ++ added.


(** What [wait_for_message(agent_id, correlation_id)] looks for: a message
    sent by the agent, with the correlation id if one is given. *)
Definition awaited (agent : string) (correlation : option string) (msg : Message) : bool :=
  (from_ msg =? agent)
  && match correlation with
     | None => true
     | Some c => match correlation_id msg with
                 | Some c' => c' =? c
                 | None => false
                 end
     end.

(** A world in which the research agent has sent two results, the second
    one correlated to "m2", and a third message comes from the writer. *)
Definition sample_history_world : World :=
  mkWorld sample_uuid4 (fun n => Z.of_nat n) (fun _ => []) 0 0 (fun _ => [])
          (mkBus [("research_agent", 0%nat); ("writer_agent", 1%nat)]
                 [mkMessage "manager" "research_agent" RESULT (PInt 1) "r1" (Some "m1") 0%Z [];
                  mkMessage "manager" "research_agent" RESULT (PInt 2) "r2" (Some "m2") 0%Z [];
                  mkMessage "manager" "writer_agent" RESULT (PInt 3) "r3" (Some "m3") 0%Z []]).

(** The agent after the dispatcher has noted the message [m] *)
Definition noted {X} (m : Message) (me : Agent X) : Agent X :=
  set_received (received me ++ [m]) me.

(** The STATUS message the agent [me] sends in answer to the request [m],
    when the next draw is taken in [w] *)
Definition status_message {X} (m : Message) (me : Agent X) (w : World) : Message :=
  mkMessage (from_ m) (agent_id me) STATUS
            (PDict [("state", PStr (state me));
                    ("current_task", current_task me);
                    ("capabilities", PList (map PStr (capabilities me)));
                    ("workload", PFloat (if state me =? "busy" then 0.5%float
                                         else 0.0%float))])
            (uuid4 w (draws w)) (Some (message_id m)) (datetime_now w (draws w)) [].

(** The way of a message through the dispatcher to the hook
    [handle_message]: the message is noted, the hook runs, and an exception
    of the hook is answered with an ERROR message. *)
Definition hook_dispatch {X} {cls : AgentClass X} (m : Message) : AgentM X unit :=
  fun s =>
    match handle_message m (noted m (fst s), snd s) with
    | (Returned u, s') => (Returned u, s')
    | (Raised e, (a1, w1)) =>
        (Returned tt, (a1, after_send (error_message m (agent_id a1) e w1) w1))
    end.

(** A status request as the coordinator sends it, and one whose payload
    is built by [Protocol.status_request] *)
Definition sample_status_request : Message :=
  sample_message "research_agent" "manager" REQUEST (PDict [("action", PStr "status")]) "q1".
Definition sample_protocol_request : Message :=
  sample_message "research_agent" "manager" REQUEST Protocol.status_request "q2".

(** *** Notions for the manager *)

(** The agents the manager knows *)
Definition specialists : list string :=
  ["research_agent"; "analyzer_agent"; "writer_agent"].

(** A subtask as [_decompose] builds it *)
Definition is_subtask (v : PyVal) : Prop :=
  exists type0 description0 parameters0,
    v = ManagerAgent.subtask type0 description0 parameters0.

(** The ids [dispatch_subtasks] gives to [n] subtasks when the next draw
    is the [d]-th: a subtask takes two draws, one for its id and one for its
    message. *)
Definition subtask_ids_from (w : World) (d n : nat) : list string :=
  map (fun k => uuid4 w (d + 2 * k)%nat) (seq 0 n).

(** The TASK message the manager [sender] builds for the subtask
    [subtask0] when the next draw is the [d]-th: addressed to the agent
    [_select_agent] chooses, with the id of the subtask (the [d]-th draw)
    and its description, type and parameters as payload; the message takes
    the next draw for its own id and time. *)
Definition subtask_message (sender : string) (w : World) (d : nat) (subtask0 : PyVal)
    : Message :=
  let value (o : Outcome PyVal) := match o with Returned v => v | Raised _ => PNone end in
  mkMessage (match ManagerAgent._select_agent subtask0 with
             | Returned agent => agent
             | Raised _ => ""
             end)
            sender TASK
            (PDict [("task_id", PStr (uuid4 w d));
                    ("description", value (py_item subtask0 "description"));
                    ("task_type", value (py_item subtask0 "type"));
                    ("parameters", value (py_get_default subtask0 "parameters" (PDict [])))])
            (uuid4 w (S d)) None (datetime_now w (S d)) [].

Fixpoint subtask_messages (sender : string) (w : World) (d : nat) (subtasks : list PyVal)
    : list Message :=
  match subtasks with
  | [] => []
  | subtask0 :: rest =>
      subtask_message sender w d subtask0 :: subtask_messages sender w (d + 2) rest
  end.

(** The recipient of [m] is registered in [A]; it is registered with the
    inbox [q] *)
Definition to_registered (A : list (string * nat)) (m : Message) : bool :=
  match Dict.get (to m) A with Some _ => true | None => false end.
Definition to_inbox (A : list (string * nat)) (q : nat) (m : Message) : bool :=
  match Dict.get (to m) A with Some q' => (q' =? q)%nat | None => false end.

(** The bucket [_synthesize] puts a result in: the first of "research",
    "analysis" (also for "insights") and "content" whose word occurs in the
    printed result, case ignored; only dicts are looked at. *)
Definition bucket (py_str : PyVal -> string) (r : PyVal) : option string :=
  match r with
  | PDict _ =>
      let text := lower (py_str r) in
      if str_contains "research" text then Some "research"
      else if str_contains "analysis" text || str_contains "insights" text
           then Some "analysis"
      else if str_contains "content" text then Some "content"
      else None
  | _ => None
  end.

(** The results of the bucket [key], in the order of the results *)
Definition bucket_members (py_str : PyVal -> string) (key : string)
    (results : list (string * PyVal)) : list PyVal :=
  filter (fun r => match bucket py_str r with
                   | Some k => k =? key
                   | None => false
                   end)
         (Dict.values results).

(** A RESULT message for the subtask "s1" and one for a subtask nobody
    waits for *)
Definition sample_result (id : string) (v : PyVal) : Message :=
  sample_message "manager" "research_agent" RESULT
    (PDict [("task_id", PStr id); ("result", v); ("status", PStr "completed")]) "r1".

(** *** The bookkeeping of [wait_for_results] *)


(** Task 0 recorded under its id and assigned to the research agent, task 1
    under two ids. *)
Definition sample_coord_state_shared : CoordState :=
  mkCoordState (mkCoordinator [("t0", 0%nat); ("t1", 1%nat); ("t1-again", 1%nat)]
                              [("t0", "research_agent"); ("t1", "writer_agent")] [])
               sample_task sample_world.

(** *** Replies to a coordinator that has no inbox *)

(** [unheard ids w]: no agent is registered as "coordinator", the agents
    [ids] send to "coordinator" only, and the history holds no message from
    one of them. *)
Definition unheard (ids : list string) (w : World) : Prop :=
  Dict.get "coordinator" (agents (bus w)) = None
  /\ (forall t m, In m (others w t) -> In (from_ m) ids -> to m = "coordinator")
  /\ (forall m, In m (message_history (bus w)) -> ~ In (from_ m) ids).

(** The sample world in which, at tick 1, the research agent answers the
    coordinator and the writer sends the research agent a request. *)
Definition sample_reply_world : World :=
  mkWorld sample_uuid4 (fun n => Z.of_nat n)
          (fun t => if (t =? 1)%nat
                    then [sample_message "coordinator" "research_agent" STATUS
                            (PDict [("state", PStr "idle")]) "reply-1";
                          sample_message "research_agent" "writer_agent" REQUEST
                            (PDict [("action", PStr "status")]) "ask-1"]
                    else [])
          0 0 (fun _ => []) sample_bus.

(** *** The writer and its request *)

(** A writer with inbox 1, its request for research on "Climate" when the
    draws start at 0, the answer of the research agent to it, and a world
    in which this answer is delivered at tick 2. *)
Definition sample_writer : Agent WriterAgent.ContentCache :=
  BaseAgent.init "writer_agent"
                 (Some ["writing"; "content_creation"; "summarization"; "structuring"])
                 1 [].

Definition sample_research_request : Message :=
  mkMessage "research_agent" "writer_agent" TASK
            (PDict [("task_id", PStr "uuid-0");
                    ("description", PStr "Research: Climate");
                    ("parameters", PDict [("query", PStr "Climate")])])
            "uuid-1" None 1%Z [].

Definition sample_research_reply : Message :=
  result_message sample_research_request "research_agent" (PStr "uuid-0") (PStr "facts")
                 sample_world.

Definition sample_writer_world : World :=
  mkWorld sample_uuid4 (fun n => Z.of_nat n)
          (fun t => if (t =? 2)%nat then [sample_research_reply] else [])
          0 0 (fun _ => []) sample_bus.

(** * Properties *)

Arguments py_round2 : simpl never.
Arguments ResearchAgent._cross_check : simpl never.
Arguments ResearchAgent._calculate_confidence : simpl never.
Arguments ResearchAgent._simulate_web_search : simpl never.
Arguments ResearchAgent._simulate_academic_search : simpl never.

(** The loops over time are not to be unrolled by [simpl]. *)
Arguments wait_for_message : simpl never.
Arguments sleep_tick : simpl never.
Arguments sleep_ticks : simpl never.

(** ** Dicts *)

Lemma dict_mem_get {V} (k : string) (d : list (string * V)) :
  Dict.mem k d = false <-> Dict.get k d = None.
Proof.
  unfold Dict.mem. destruct (Dict.get k d); split; congruence.
Qed.

Lemma dict_get_in_keys {V} (k : string) (d : list (string * V)) (v : V) :
  Dict.get k d = Some v -> In k (Dict.keys d).
Proof.
  induction d as [|[k' v'] d IH]; simpl; [discriminate|].
  destruct (String.eqb_spec k k') as [->|Hne]; intros H.
  - now left.
  - right. now apply IH.
Qed.

Lemma dict_get_not_in_keys {V} (k : string) (d : list (string * V)) :
  ~ In k (Dict.keys d) -> Dict.get k d = None.
Proof.
  intros Hn. destruct (Dict.get k d) eqn:E; [|reflexivity].
  exfalso. apply Hn. eapply dict_get_in_keys; eauto.
Qed.

Lemma dict_keys_set {V} (k : string) (v : V) (d : list (string * V)) :
  Dict.keys (Dict.set k v d)
  = if Dict.mem k d then Dict.keys d else Dict.keys d ++ [k].
Proof.
  unfold Dict.mem.
  induction d as [|[k' v'] d IH]; simpl; [reflexivity|].
  destruct (String.eqb_spec k k') as [->|Hne]; simpl; [reflexivity|].
  rewrite IH. destruct (Dict.get k d); reflexivity.
Qed.

Lemma dict_get_none_not_in {V} (k : string) (d : list (string * V)) :
  Dict.get k d = None -> ~ In k (Dict.keys d).
Proof.
  induction d as [|[k' v'] d IH]; simpl; [tauto|].
  destruct (String.eqb_spec k k') as [->|Hne]; [discriminate|].
  intros H [Heq|Hin]; [congruence|]. now apply IH.
Qed.

Lemma dict_get_set_same {V} (k : string) (v : V) (d : list (string * V)) :
  Dict.get k (Dict.set k v d) = Some v.
Proof.
  induction d as [|[k' v'] d IH]; simpl.
  - now rewrite String.eqb_refl.
  - destruct (String.eqb_spec k k') as [->|Hne]; simpl.
    + now rewrite String.eqb_refl.
    + apply String.eqb_neq in Hne. now rewrite Hne.
Qed.

Lemma dict_get_set_other {V} (k k0 : string) (v : V) (d : list (string * V)) :
  k0 <> k -> Dict.get k0 (Dict.set k v d) = Dict.get k0 d.
Proof.
  intros Hne. induction d as [|[k' v'] d IH]; simpl.
  - apply String.eqb_neq in Hne. now rewrite Hne.
  - destruct (String.eqb_spec k k') as [->|Hne']; simpl.
    + apply String.eqb_neq in Hne. now rewrite Hne.
    + destruct (k0 =? k'); [reflexivity | exact IH].
Qed.

(** Registration keeps the registry a dict: one entry per agent id. *)
Lemma register_agent_wf (agent_id0 : string) (inbox0 : nat) (w : World) :
  Dict.wf (agents (bus w)) ->
  Dict.wf (agents (bus (register_agent agent_id0 inbox0 w))).
Proof.
  unfold Dict.wf, register_agent; simpl. intros Hwf.
  rewrite dict_keys_set. destruct (Dict.mem agent_id0 (agents (bus w))) eqn:E; [exact Hwf|].
  apply dict_mem_get in E. apply dict_get_none_not_in in E.
  apply NoDup_app; [exact Hwf | repeat constructor; simpl; tauto |].
  intros x Hx [Heq|[]]. subst. contradiction.
Qed.

(** ** Messages *)

(** C6: [original.reply(content)] returns a new message (its id is the
    next identifier drawn) whose recipient is the sender of [original],
    whose sender is the recipient of [original], and whose correlation id
    is the message id of [original]; it carries [content]. *)
Theorem reply_swaps_and_correlates :
  forall (original : Message) (content0 : PyVal) (mt : option MessageType) (w : World),
    let r := fst (reply original content0 mt w) in
    to r = from_ original
    /\ from_ r = to original
    /\ correlation_id r = Some (message_id original)
    /\ content r = content0
    /\ message_id r = uuid4 w (draws w).
Proof.
  intros original content0 mt w. unfold reply, new_Message. simpl.
  repeat split.
Qed.

(** ** The message bus: point-to-point delivery *)

(** C2: a message whose recipient is not registered is not delivered:
    [send_message] returns [False] without raising and the whole state is
    as before, in particular the history and every registered inbox. *)
Theorem send_message_unregistered :
  forall (m : Message) (w : World),
    Dict.mem (to m) (agents (bus w)) = false ->
    let (delivered, w') := send_message m w in
    delivered = false
    /\ w' = w
    /\ message_history (bus w') = message_history (bus w)
    /\ (forall agent inbox0,
          Dict.get agent (agents (bus w')) = Some inbox0 ->
          queues w' inbox0 = queues w inbox0).
Proof.
  intros m w Hmem. apply dict_mem_get in Hmem.
  unfold send_message. rewrite Hmem. repeat split; reflexivity.
Qed.

Lemma send_message_unregistered_witness :
  Dict.mem "analyzer_agent" (agents (bus sample_world)) = false
  /\ send_message (sample_message "analyzer_agent" "manager" TASK PNone "m1") sample_world
     = (false, sample_world).
Proof.
  split; [reflexivity|].
  pose proof (send_message_unregistered
                (sample_message "analyzer_agent" "manager" TASK PNone "m1")
                sample_world eq_refl) as H.
  destruct (send_message _ sample_world) as [d w'].
  destruct H as (-> & -> & _). reflexivity.
Defined.

(** A registered recipient gets the very message at the tail of its inbox
    and of the history. *)
Lemma send_message_registered (m : Message) (w : World) (inbox0 : nat) :
  Dict.get (to m) (agents (bus w)) = Some inbox0 ->
  let (delivered, w') := send_message m w in
  delivered = true
  /\ queues w' inbox0 = queues w inbox0 ++ [m]
  /\ (forall q, q <> inbox0 -> queues w' q = queues w q)
  /\ message_history (bus w') = message_history (bus w) ++ [m]
  /\ agents (bus w') = agents (bus w).
Proof.
  intros Hget. unfold send_message. rewrite Hget. simpl.
  rewrite Nat.eqb_refl. repeat split; try reflexivity.
  intros q Hq. apply Nat.eqb_neq in Hq. now rewrite Hq.
Qed.

(** ** The message bus: history *)

(** With an agent id that is not empty and a positive limit,
    [get_history] gives the last [limit] of the messages sent by or to the
    agent, in arrival order. *)
Lemma get_history_filter_limit (a : string) (l : Z) (b : MessageBus) :
  a <> "" -> (0 < l)%Z ->
  get_history (Some a) (Some l) b
  = last_n (Z.to_nat l)
      (filter (fun msg => (from_ msg =? a) || (to msg =? a)) (message_history b)).
Proof.
  intros Ha Hl. unfold get_history, slice_from, last_n.
  apply String.eqb_neq in Ha. rewrite Ha. simpl.
  destruct (Z.eqb_spec l 0) as [->|_]; [lia|]. simpl.
  set (h := filter _ _).
  destruct (Z.ltb_spec (- l) 0); [|lia].
  f_equal. lia.
Qed.

(** Without a limit and without an agent id the history is returned as it
    is. *)
Lemma get_history_all (b : MessageBus) :
  get_history None None b = message_history b.
Proof. reflexivity. Qed.

(** A limit of 0 is taken for no limit. *)
Lemma get_history_limit_zero (agent_id0 : option string) (b : MessageBus) :
  get_history agent_id0 (Some 0%Z) b = get_history agent_id0 None b.
Proof. reflexivity. Qed.

(** An empty agent id is taken for no agent id. *)
Lemma get_history_empty_agent_id (limit : option Z) (b : MessageBus) :
  get_history (Some "") limit b = get_history None limit b.
Proof. reflexivity. Qed.

(** C7, at [limit=0]: on a history of two messages [get_history(limit=0)]
    returns both messages, not the last 0 of them. *)
Theorem get_history_limit_zero_returns_all :
  get_history None (Some 0%Z) (mkBus [] [sample_m1; sample_m2]) = [sample_m1; sample_m2]
  /\ last_n 0 [sample_m1; sample_m2] = [].
Proof. split; reflexivity. Qed.

(** ** The message bus: broadcast *)

Lemma broadcast_loop_spec (message : Message) (exclude : list string) :
  forall (items : list (string * nat)) (count : nat) (w : World),
    let r := broadcast_loop items message exclude count w in
    fst r = (count + List.length (filter (broadcast_target message exclude)
                                         (Dict.keys items)))%nat
    /\ bus (snd r) = bus w
    /\ forall q, exists delivered,
         queues (snd r) q = queues w q ++ delivered
         /\ Forall (broadcast_copy message) delivered
         /\ map to delivered
            = Dict.keys (filter (fun it => broadcast_target message exclude (fst it)
                                           && (snd it =? q)%nat) items).
Proof.
  induction items as [|[a i] items IH]; intros count w; simpl.
  - split; [lia|]. split; [reflexivity|].
    intros q. exists []. rewrite app_nil_r. repeat split. constructor.
  - destruct (broadcast_target message exclude a) eqn:Ht; simpl.
    + specialize (IH (S count)
                     (queue_put i
                        (mkMessage a (from_ message) BROADCAST (content message)
                                   (uuid4 w (draws w)) None (datetime_now w (draws w))
                                   (metadata message))
                        (set_draws (S (draws w)) w))).
      simpl in IH. destruct IH as (Hc & Hb & Hq).
      split; [rewrite Hc; lia|]. split; [exact Hb|].
      intros q. destruct (Hq q) as (d & Hd & Hall & Hto).
      destruct (Nat.eqb_spec q i) as [->|Hne].
      * rewrite Nat.eqb_refl. simpl.
        eexists (_ :: d). rewrite Hd, <- app_assoc. simpl.
        split; [reflexivity|]. split.
        -- constructor; [repeat split | exact Hall].
        -- simpl. now rewrite Hto.
      * assert (Hne' : (i =? q)%nat = false) by (apply Nat.eqb_neq; congruence).
        rewrite Hne'. simpl. exists d. repeat split; assumption.
    + specialize (IH count w). simpl in IH. exact IH.
Qed.

Lemma count_key_nodup (a : string) (q : nat) (P : string -> bool) :
  forall items : list (string * nat),
    NoDup (Dict.keys items) ->
    List.length (filter (fun k => k =? a)
                   (Dict.keys (filter (fun it => P (fst it) && (snd it =? q)%nat) items)))
    = if P a && match Dict.get a items with
                | Some i => (i =? q)%nat
                | None => false
                end
      then 1%nat else 0%nat.
Proof.
  induction items as [|[k i] items IH]; intros Hnd; simpl.
  - now rewrite andb_false_r.
  - inversion Hnd as [|? ? Hnotin Hnd']; subst.
    specialize (IH Hnd').
    destruct (String.eqb_spec a k) as [->|Hne].
    + (* the entry of [a]: no other entry has this key *)
      assert (Hnone : Dict.get k items = None) by now apply dict_get_not_in_keys.
      rewrite Hnone, andb_false_r in IH.
      destruct (P k && (i =? q)%nat) eqn:E; simpl.
      * rewrite String.eqb_refl. simpl. now rewrite IH.
      * exact IH.
    + destruct (P k && (i =? q)%nat); simpl; [|exact IH].
      assert (Hka : (k =? a) = false) by (apply String.eqb_neq; congruence).
      rewrite Hka. exact IH.
Qed.

Lemma filter_map_to (a : string) (delivered : list Message) :
  List.length (filter (fun c => to c =? a) delivered)
  = List.length (filter (fun k => k =? a) (map to delivered)).
Proof.
  induction delivered as [|c d IH]; simpl; [reflexivity|].
  destruct (to c =? a); simpl; now rewrite IH.
Qed.

(** C3: [broadcast(m, E)] returns the number of registered agents whose id
    is neither the sender of [m] nor in [E]; for every queue, the messages
    put into it are broadcast copies of [m] (kind BROADCAST, sender, payload
    and metadata of [m]), and the number of them addressed to an agent [a]
    is one if [a] is such an agent and the queue is its inbox, and zero
    otherwise; the history grows by one entry, [m] itself, and the registry
    stays as it is. *)
Theorem broadcast_delivers_one_copy_each :
  forall (m : Message) (E : option (list string)) (w : World),
    Dict.wf (agents (bus w)) ->
    let excluded := match E with Some e => e | None => [] end in
    let recipient := fun a => negb (str_in a excluded) && negb (a =? from_ m) in
    let count := fst (broadcast m E w) in
    let w' := snd (broadcast m E w) in
    count = List.length (filter recipient (get_registered_agents (bus w)))
    /\ message_history (bus w') = message_history (bus w) ++ [m]
    /\ agents (bus w') = agents (bus w)
    /\ forall q, exists delivered,
         queues w' q = queues w q ++ delivered
         /\ Forall (broadcast_copy m) delivered
         /\ forall a,
              List.length (filter (fun c => to c =? a) delivered)
              = if recipient a && match Dict.get a (agents (bus w)) with
                                  | Some inbox0 => (inbox0 =? q)%nat
                                  | None => false
                                  end
                then 1%nat else 0%nat.
Proof.
  intros m E w Hwf excluded recipient count w'.
  assert (HE : match E with Some (x :: e) => x :: e | _ => [] end = excluded)
    by (destruct E as [[|x e]|]; reflexivity).
  subst count w'. unfold broadcast. rewrite HE.
  pose proof (broadcast_loop_spec m excluded (agents (bus w)) 0 w) as H.
  destruct (broadcast_loop (agents (bus w)) m excluded 0 w) as [c w1].
  simpl in H. destruct H as (Hc & Hb & Hq). simpl.
  rewrite Hb. repeat split; [exact Hc|].
  intros q. destruct (Hq q) as (d & Hd & Hall & Hto).
  exists d. repeat split; [exact Hd | exact Hall |].
  intros a. rewrite filter_map_to, Hto.
  now apply (count_key_nodup a q (broadcast_target m excluded)).
Qed.

Lemma broadcast_delivers_one_copy_each_witness :
  Dict.wf (agents (bus sample_world))
  /\ fst (broadcast (sample_message "all" "writer_agent" BROADCAST (PStr "hello") "b1")
                    None sample_world) = 1%nat.
Proof.
  assert (Hwf : Dict.wf (agents (bus sample_world))).
  { unfold Dict.wf. simpl. repeat constructor; simpl; intuition discriminate. }
  split; [exact Hwf|].
  exact (proj1 (broadcast_delivers_one_copy_each
                  (sample_message "all" "writer_agent" BROADCAST (PStr "hello") "b1")
                  None sample_world Hwf)).
Defined.

(** ** The manager: decomposition *)

Lemma category_matches_any_keyword (d : string) :
  forall c1 c2 c3, categories = [c1; c2; c3] ->
    category_matches d c1 = ManagerAgent.any_keyword ManagerAgent.research_keywords d
    /\ category_matches d c2 = ManagerAgent.any_keyword ManagerAgent.analysis_keywords d
    /\ category_matches d c3 = ManagerAgent.any_keyword ManagerAgent.writing_keywords d.
Proof.
  intros c1 c2 c3 H. injection H as <- <- <-. repeat split.
Qed.

Lemma any_keyword_lower (keywords : list string) (d d' : string) :
  lower d' = lower d ->
  ManagerAgent.any_keyword keywords d' = ManagerAgent.any_keyword keywords d.
Proof.
  intros H. unfold ManagerAgent.any_keyword. now rewrite H.
Qed.

(** C4: [_decompose] is the decomposition policy.  It gives one subtask
    per keyword category that matches the description, case ignored, in the
    order research, analysis, writing; each of these subtasks carries the
    description with the prefix of its category, the category as its type
    tag and the parameters as they were given.  When no category matches it
    gives a single subtask, which carries the type "general", the
    description itself and the parameters.  Two descriptions that differ
    only in case get subtasks of the same types; and "Research and write a
    report on climate change" gives a research subtask, then a writing
    subtask, and no other. *)
Theorem decompose_follows_policy :
  (forall (d : string) (p : PyVal),
      ManagerAgent._decompose d p = decomposition_policy d p)
  /\ (forall (d : string) (p : PyVal),
         match matching_categories d with
         | [] => exists s, ManagerAgent._decompose d p = [s] /\ carries s "general" d p
         | matching =>
             Forall2 (fun s c => carries s (category_type c)
                                   (category_prefix c ++ d)%string p)
                     (ManagerAgent._decompose d p) matching
         end)
  /\ (forall (d d' : string) (p : PyVal),
         lower d' = lower d ->
         map subtask_type (ManagerAgent._decompose d' p)
         = map subtask_type (ManagerAgent._decompose d p))
  /\ (forall p : PyVal,
         ManagerAgent._decompose "Research and write a report on climate change" p
         = [PDict [("type", PStr "research");
                   ("description",
                    PStr "Research: Research and write a report on climate change");
                   ("parameters", p)];
            PDict [("type", PStr "writing");
                   ("description",
                    PStr "Write content for: Research and write a report on climate change");
                   ("parameters", p)]]).
Proof.
  assert (Hpolicy : forall (d : string) (p : PyVal),
             ManagerAgent._decompose d p = decomposition_policy d p).
  { intros d p. unfold decomposition_policy, matching_categories, ManagerAgent._decompose.
    destruct (@category_matches_any_keyword d _ _ _ eq_refl) as (H1 & H2 & H3).
    unfold categories. cbn [filter]. rewrite H1, H2, H3.
    destruct (ManagerAgent.any_keyword ManagerAgent.research_keywords d),
             (ManagerAgent.any_keyword ManagerAgent.analysis_keywords d),
             (ManagerAgent.any_keyword ManagerAgent.writing_keywords d);
      reflexivity. }
  assert (Hcarries : forall (t desc : string) (p : PyVal),
             carries (PDict [("type", PStr t); ("description", PStr desc);
                             ("parameters", p)]) t desc p).
  { intros t desc p. split; [reflexivity|]. split; [reflexivity|].
    split; [reflexivity|]. eexists. split; reflexivity. }
  split; [exact Hpolicy|]. split; [|split].
  - intros d p. rewrite Hpolicy. unfold decomposition_policy.
    destruct (matching_categories d) as [|c matching].
    + eexists. split; [reflexivity | apply Hcarries].
    + generalize (c :: matching). intros l.
      induction l as [|c0 l IH]; simpl; constructor; [apply Hcarries | exact IH].
  - intros d d' p H. unfold ManagerAgent._decompose.
    rewrite !(any_keyword_lower _ _ _ H).
    destruct (ManagerAgent.any_keyword ManagerAgent.research_keywords d),
             (ManagerAgent.any_keyword ManagerAgent.analysis_keywords d),
             (ManagerAgent.any_keyword ManagerAgent.writing_keywords d);
      reflexivity.
  - intros p. reflexivity.
Qed.

(** No keyword at all: one general subtask. *)
Example decompose_general (p : PyVal) :
  ManagerAgent._decompose "Hello there" p = [ManagerAgent.subtask "general" "Hello there" p].
Proof. reflexivity. Qed.

(** Upper case matches too. *)
Example decompose_upper_case (p : PyVal) :
  map subtask_type (ManagerAgent._decompose "ANALYZE THE TRENDS" p)
  = [Returned (PStr "analysis")].
Proof. reflexivity. Qed.

(** ** The coordinator: assignment *)

(** C9: [assign_task] on a pending task.  If the agent is not registered,
    so that the send returns [False], [assign_task] returns [False], the
    task is still PENDING, no task object has changed, and [active_tasks],
    [task_assignments], the history and the queues are as before.  If the
    agent is registered, [assign_task] returns [True], the task is
    IN_PROGRESS and it is recorded under its id with the agent. *)
Theorem assign_task_atomic :
  forall (task : nat) (agent : string) (from_agent : option string) (cs : CoordState),
    status (task_store cs task) = PENDING ->
    let r := fst (Coordinator.assign_task task agent from_agent cs) in
    let cs' := snd (Coordinator.assign_task task agent from_agent cs) in
    (Dict.mem agent (agents (bus (world cs))) = false ->
       r = Returned false
       /\ status (task_store cs' task) = PENDING
       /\ task_store cs' = task_store cs
       /\ coordinator cs' = coordinator cs
       /\ bus (world cs') = bus (world cs)
       /\ queues (world cs') = queues (world cs))
    /\ (Dict.mem agent (agents (bus (world cs))) = true ->
          r = Returned true
          /\ status (task_store cs' task) = IN_PROGRESS
          /\ Dict.get (task_id (task_store cs task)) (active_tasks (coordinator cs'))
             = Some task
          /\ Dict.get (task_id (task_store cs task)) (task_assignments (coordinator cs'))
             = Some agent).
Proof.
  intros task agent from_agent cs Hst r cs'. subst r cs'.
  unfold Coordinator.assign_task, bind, get_state, in_world, lift, modify, ret,
    new_Message, send_message, Dict.mem.
  simpl.
  destruct (Dict.get agent (agents (bus (world cs)))) as [inbox0|] eqn:Hget; simpl.
  - split; [discriminate|]. intros _.
    rewrite Nat.eqb_refl. simpl.
    repeat split; apply dict_get_set_same.
  - split; [|discriminate]. intros _.
    repeat split. exact Hst.
Qed.

Lemma assign_task_atomic_witness :
  status (task_store sample_coord_state 0) = PENDING
  /\ fst (Coordinator.assign_task 0 "analyzer_agent" None sample_coord_state)
     = Returned false
  /\ status (task_store
               (snd (Coordinator.assign_task 0 "analyzer_agent" None sample_coord_state)) 0)
     = PENDING.
Proof.
  split; [reflexivity|].
  pose proof (proj1 (assign_task_atomic 0 "analyzer_agent" None sample_coord_state eq_refl)
                    eq_refl) as H.
  split; [exact (proj1 H) | exact (proj1 (proj2 H))].
Defined.

(** ** The coordinator: task status *)





Lemma set_remove_incl (x : string) (s : list string) : incl (set_remove x s) s.
Proof.
  intros y Hy. unfold set_remove in Hy. apply filter_In in Hy. tauto.
Qed.






Lemma set_of_In (x : string) (xs : list string) : In x (set_of xs) -> In x xs.
Proof. unfold set_of. apply nodup_In. Qed.








(** ** The agent runtime: task messages *)

Section TaskHandling.

Context {X : Type} {cls : AgentClass X}.

(** A task message whose payload is a mapping: the agent is busy with the
    task id of the payload while [process_task] runs; a returned result is
    sent back as a RESULT message and a raised exception as an ERROR
    message, both to the sender and correlated to the task message; then the
    agent is idle and has no current task. *)
Lemma handle_task_message_protocol (me : Agent X) (m : Message) (w : World)
    (d : list (string * PyVal)) :
  content m = PDict d ->
  let busy := set_current_task (task_id_of d) (set_state "busy" me) in
  BaseAgent._handle_task_message m (me, w)
  = match process_task (PDict d) (busy, w) with
    | (Returned r, (a1, w1)) =>
        (Returned tt,
         (set_current_task PNone (set_state "idle" a1),
          after_send (result_message m (agent_id a1) (task_id_of d) r w1) w1))
    | (Raised e, (a1, w1)) =>
        (Returned tt,
         (set_current_task PNone (set_state "idle" a1),
          after_send (error_message m (agent_id a1) e w1) w1))
    end.
Proof.
  intros Hc busy. subst busy.
  unfold BaseAgent._handle_task_message, BaseAgent._send_error, task_id_of,
    after_send, result_message, error_message.
  unfold bind, try_finally, try_except, on_self, on_world, modify, lift, of_outcome,
    self, ret, new_Message, py_get.
  rewrite Hc. simpl.
  destruct (process_task (PDict d) _) as [[r|e] [a1 w1]]; simpl.
  - destruct (send_message _ _) as [b w2]. reflexivity.
  - destruct (send_message _ _) as [b w2]. reflexivity.
Qed.

(** After the dispatcher has handled such a task message the agent is idle
    with no current task, whatever [process_task] did. *)
Lemma handle_message_task_idle (me : Agent X) (m : Message) (w : World)
    (d : list (string * PyVal)) :
  message_type m = TASK -> content m = PDict d ->
  let '(r, (a', _)) := BaseAgent._handle_message m (me, w) in
  r = Returned tt /\ state a' = "idle" /\ current_task a' = PNone.
Proof.
  intros Ht Hc.
  unfold BaseAgent._handle_message. rewrite Ht.
  unfold bind at 1, on_self, modify, try_except.
  rewrite (handle_task_message_protocol _ m w Hc).
  destruct (process_task (PDict d) _) as [[r|e] [a1 w1]]; simpl; repeat split.
Qed.

(** C1, at a task message whose payload is [None]: the agent marks itself
    busy, [task_data.get] raises before the [try] is entered, the
    dispatcher catches the exception and sends the ERROR reply, and the
    agent is left busy: its state is not "idle" after the message has been
    handled. *)
Theorem task_without_mapping_leaves_agent_busy :
  forall (me : Agent X) (w : World),
    BaseAgent._handle_message sample_bad_task (me, w)
    = (Returned tt,
       (set_received (received me ++ [sample_bad_task]) (set_state "busy" me),
        after_send (error_message sample_bad_task (agent_id me)
                      "'NoneType' object has no attribute 'get'" w) w))
    /\ state (fst (snd (BaseAgent._handle_message sample_bad_task (me, w)))) = "busy"
    /\ "busy" <> "idle".
Proof.
  intros me w.
  assert (H : BaseAgent._handle_message sample_bad_task (me, w)
              = (Returned tt,
                 (set_received (received me ++ [sample_bad_task]) (set_state "busy" me),
                  after_send (error_message sample_bad_task (agent_id me)
                                "'NoneType' object has no attribute 'get'" w) w))).
  { unfold BaseAgent._handle_message, BaseAgent._handle_task_message,
      BaseAgent._send_error, after_send, error_message.
    unfold bind, try_finally, try_except, on_self, on_world, modify, lift, of_outcome,
      self, ret, new_Message. simpl.
    destruct (send_message _ _) as [b w2]. reflexivity. }
  split; [exact H|]. rewrite H. split; [reflexivity | discriminate].
Qed.

End TaskHandling.

(** One round of the loop on the sample agent: the task message with the
    payload [None] is taken off the inbox, the manager gets the ERROR reply,
    and the agent stays busy, so that [get_status] reports a workload of
    0.5 from then on. *)
Example process_messages_step_bad_task :
  let s' := snd (BaseAgent._process_messages_step (cls := echo_class)
                   (sample_agent, sample_inbox_world sample_bad_task)) in
  state (fst s') = "busy"
  /\ AgentStatus.workload (BaseAgent.get_status (fst s')) = PFloat 0.5
  /\ queues (snd s') 0 = []
  /\ map message_type (queues (snd s') 2) = [ERROR].
Proof. repeat split. Qed.

(** The same round on a task message with a mapping: a RESULT reply, and
    the agent is idle again. *)
Example process_messages_step_good_task :
  let s' := snd (BaseAgent._process_messages_step (cls := echo_class)
                   (sample_agent,
                    sample_inbox_world
                      (sample_message "research_agent" "manager" TASK
                         (PDict [("task_id", PStr "t0")]) "m0"))) in
  state (fst s') = "idle"
  /\ current_task (fst s') = PNone
  /\ map message_type (queues (snd s') 2) = [RESULT]
  /\ map correlation_id (queues (snd s') 2) = [Some "m0"].
Proof. repeat split. Qed.

(** ** The manager: gathering results *)

Lemma gather_step_empty (me : Agent ManagerState) (w : World)
    (remaining : list string) (results : list (string * PyVal)) :
  queues w (inbox me) = [] ->
  ManagerAgent.gather_step remaining results (me, w)
  = (Returned (remaining, results), (me, sleep_tick w)).
Proof.
  intros Hq. unfold ManagerAgent.gather_step.
  unfold bind, self, get_state, on_world, lift, ret. simpl.
  rewrite Hq. reflexivity.
Qed.

Lemma gather_step_drops (me : Agent ManagerState) (w : World) (m : Message)
    (rest : list Message) (remaining : list string) (results : list (string * PyVal)) :
  queues w (inbox me) = m :: rest ->
  dropped remaining m ->
  ManagerAgent.gather_step remaining results (me, w)
  = (Returned (remaining, results), (me, sleep_tick (inbox_popped me w))).
Proof.
  intros Hq Hd. unfold ManagerAgent.gather_step, inbox_popped.
  unfold bind, self, get_state, on_world, lift, ret, of_outcome. simpl.
  rewrite Hq. simpl.
  destruct Hd as [Hne | (d & Hc & Hin)].
  - destruct (message_type m); try reflexivity. congruence.
  - destruct (message_type m); try reflexivity.
    rewrite Hc. unfold py_get, py_get_default. fold (task_id_of d).
    rewrite Hin. reflexivity.
Qed.






Lemma send_keeps_only (P : Message -> Prop) (q : nat) (m : Message) (w : World) :
  Forall P (queues w q) ->
  (Dict.get (to m) (agents (bus w)) = Some q -> P m) ->
  let w' := snd (send_message m w) in
  agents (bus w') = agents (bus w)
  /\ others w' = others w
  /\ Forall P (queues w' q).
Proof.
  intros Hq Hm. unfold send_message.
  destruct (Dict.get (to m) (agents (bus w))) as [i|] eqn:Hg; simpl;
    [|repeat split; exact Hq].
  repeat split.
  destruct (Nat.eqb_spec q i) as [->|_]; [|exact Hq].
  apply Forall_app. split; [exact Hq|]. constructor; [|constructor].
  now apply Hm.
Qed.

Lemma deliveries_keep_only (P : Message -> Prop) (q : nat) (A : list (string * nat)) :
  forall (msgs : list Message) (w : World),
    agents (bus w) = A ->
    Forall P (queues w q) ->
    Forall (fun m => Dict.get (to m) A = Some q -> P m) msgs ->
    let w' := fold_left (fun w0 m => snd (send_message m w0)) msgs w in
    agents (bus w') = A
    /\ others w' = others w
    /\ Forall P (queues w' q).
Proof.
  induction msgs as [|m msgs IH]; intros w HA Hq Hm; simpl.
  - repeat split; assumption.
  - inversion Hm as [|? ? Hhead Htail]; subst.
    destruct (@send_keeps_only P q m w Hq Hhead) as (H1 & H2 & H3).
    destruct (IH (snd (send_message m w)) H1 H3 Htail) as (H4 & H5 & H6).
    repeat split; [exact H4 | congruence | exact H6].
Qed.

Lemma sleep_tick_keeps_only (P : Message -> Prop) (q : nat) (w : World) :
  only_arrive P q w -> only_arrive P q (sleep_tick w).
Proof.
  intros [Hq Ho]. unfold sleep_tick.
  destruct (@deliveries_keep_only P q _ (others w (clock w)) w eq_refl Hq (Ho (clock w)))
    as (HA & HO & HQ).
  split; simpl; [exact HQ|]. rewrite HA, HO. exact Ho.
Qed.

Lemma inbox_popped_keeps_only {X} (P : Message -> Prop) (me : Agent X) (w : World) :
  only_arrive P (inbox me) w -> only_arrive P (inbox me) (inbox_popped me w).
Proof.
  intros [Hq Ho]. split; simpl; [|exact Ho].
  rewrite Nat.eqb_refl.
  destruct (queues w (inbox me)) as [|m rest]; simpl; [constructor|].
  now inversion Hq.
Qed.

(** Nothing is recorded while only dropped messages arrive, so the
    remaining ids, and with them what is dropped, stay the same. *)
Lemma gather_loop_only_dropped (me : Agent ManagerState) (remaining : list string)
    (results : list (string * PyVal)) :
  forall (left : nat) (w : World),
    only_arrive (dropped remaining) (inbox me) w ->
    exists w', ManagerAgent.gather_loop left remaining results (me, w)
               = (Returned results, (me, w')).
Proof.
  induction left as [|left IH]; intros w Hn; simpl.
  - now exists w.
  - destruct remaining as [|id remaining0] eqn:Hrem; [now exists w|].
    rewrite <- Hrem in *. unfold bind.
    destruct (queues w (inbox me)) as [|m rest] eqn:Hq.
    + rewrite (@gather_step_empty me w remaining results Hq). simpl.
      apply IH. now apply sleep_tick_keeps_only.
    + assert (Hd : dropped remaining m).
      { destruct Hn as [Hall _]. rewrite Hq in Hall. now inversion Hall. }
      rewrite (@gather_step_drops me w m rest remaining results Hq Hd). simpl.
      apply IH. apply sleep_tick_keeps_only. now apply inbox_popped_keeps_only.
Qed.

Lemma dropped_set_of (subtask_ids : list string) (m : Message) :
  dropped subtask_ids m -> dropped (set_of subtask_ids) m.
Proof.
  intros [Hne | (d & Hc & Hin)]; [now left|].
  right. exists d. split; [exact Hc|].
  destruct (task_id_of d); simpl in *; try assumption.
  destruct (str_in s subtask_ids) eqn:E; [discriminate|].
  destruct (str_in s (set_of subtask_ids)) eqn:E'; [|reflexivity].
  unfold str_in in E, E'. apply existsb_exists in E'. destruct E' as (y & Hy & He).
  apply set_of_In in Hy.
  assert (Ht : existsb (String.eqb s) subtask_ids = true)
    by (apply existsb_exists; now exists y).
  congruence.
Qed.

(** C10, as amended.  A message the gather loop takes off the inbox that
    is not a RESULT (an ERROR reply, say), or that is a RESULT whose payload
    is a mapping with a task id that can be hashed and is not among the
    remaining ones, is dropped: the remaining ids and the results stay as
    they are, the agent is as before (nothing was given to the dispatcher)
    and nothing is sent; the round only takes the message off and sleeps.
    And when only such messages reach the inbox, be they ERROR replies or
    RESULTs for ids that are not waited for, [_gather_results] returns the
    empty dict, which is what it returns when nothing arrives at all: a
    failed subtask looks like one that timed out. *)
Theorem gather_drops_other_messages :
  (forall (me : Agent ManagerState) (w : World) (m : Message) (rest : list Message)
          (remaining : list string) (results : list (string * PyVal)),
      queues w (inbox me) = m :: rest ->
      dropped remaining m ->
      ManagerAgent.gather_step remaining results (me, w)
      = (Returned (remaining, results), (me, sleep_tick (inbox_popped me w))))
  /\ (forall (me : Agent ManagerState) (w : World) (subtask_ids : list string)
             (timeout : nat),
         only_dropped_arrive subtask_ids (inbox me) w ->
         exists w', ManagerAgent._gather_results subtask_ids timeout (me, w)
                    = (Returned [], (me, w')))
  /\ (forall (me : Agent ManagerState) (w : World) (subtask_ids : list string)
             (timeout : nat),
         queues w (inbox me) = [] ->
         (forall n m, In m (others w n) ->
                      Dict.get (to m) (agents (bus w)) <> Some (inbox me)) ->
         exists w', ManagerAgent._gather_results subtask_ids timeout (me, w)
                    = (Returned [], (me, w'))).
Proof.
  assert (Hgather : forall (me : Agent ManagerState) (w : World)
                           (subtask_ids : list string) (timeout : nat),
             only_dropped_arrive subtask_ids (inbox me) w ->
             exists w', ManagerAgent._gather_results subtask_ids timeout (me, w)
                        = (Returned [], (me, w'))).
  { intros me w subtask_ids timeout [Hq Ho]. unfold ManagerAgent._gather_results.
    apply gather_loop_only_dropped. split.
    - eapply Forall_impl; [|exact Hq]. intros m. apply dropped_set_of.
    - intros n. eapply Forall_impl; [|exact (Ho n)].
      intros m Hm Hto. apply dropped_set_of. now apply Hm. }
  split; [|split].
  - intros me w m rest remaining results Hq Hd.
    exact (@gather_step_drops me w m rest remaining results Hq Hd).
  - exact Hgather.
  - intros me w subtask_ids timeout Hq Ho. apply Hgather. split.
    + rewrite Hq. constructor.
    + intros n. apply Forall_forall. intros m Hin Hto.
      now destruct (Ho n m Hin).
Qed.

Lemma gather_drops_other_messages_witness :
  queues (sample_manager_world sample_error_reply) (inbox sample_manager)
  = [sample_error_reply]
  /\ dropped ["s1"] sample_error_reply
  /\ fst (ManagerAgent.gather_step ["s1"] []
            (sample_manager, sample_manager_world sample_error_reply))
     = Returned (["s1"], [])
  /\ only_dropped_arrive ["s1"] (inbox sample_manager)
       (sample_manager_world (sample_result "s9" (PInt 1)))
  /\ fst (ManagerAgent._gather_results ["s1"] 5
            (sample_manager, sample_manager_world (sample_result "s9" (PInt 1))))
     = Returned [].
Proof.
  assert (Hd : dropped ["s1"] sample_error_reply) by (left; discriminate).
  assert (Hs : only_dropped_arrive ["s1"] (inbox sample_manager)
                 (sample_manager_world (sample_result "s9" (PInt 1)))).
  { split.
    - constructor; [|constructor]. right. eexists. split; reflexivity.
    - intros n. constructor. }
  split; [reflexivity|]. split; [exact Hd|]. split; [|split; [exact Hs|]].
  - rewrite (proj1 gather_drops_other_messages sample_manager
                   (sample_manager_world sample_error_reply) sample_error_reply []
                   ["s1"] [] eq_refl Hd).
    reflexivity.
  - destruct (proj1 (proj2 gather_drops_other_messages) sample_manager
                    (sample_manager_world (sample_result "s9" (PInt 1))) ["s1"] 5%nat Hs)
      as [w' Hw'].
    rewrite Hw'. reflexivity.
Defined.

(** C10, as stated, fails on a RESULT message whose payload is [None]: it
    is not a RESULT whose task id is among the remaining ids, and it is not
    dropped silently: [message.content.get] raises and the exception leaves
    [_gather_results]. *)
Lemma gather_raises_on_result_without_mapping :
  message_type sample_bad_result = RESULT
  /\ (forall id, py_get (content sample_bad_result) "task_id" <> Returned (PStr id))
  /\ fst (ManagerAgent._gather_results ["s1"] 600
            (sample_manager, sample_manager_world sample_bad_result))
     = Raised "'NoneType' object has no attribute 'get'".
Proof.
  split; [reflexivity|]. split; [discriminate|]. reflexivity.
Qed.

(** The ERROR reply to a subtask and no reply at all give the same answer. *)
Example gather_error_like_timeout :
  fst (ManagerAgent._gather_results ["s1"] 5
         (sample_manager, sample_manager_world sample_error_reply))
  = Returned []
  /\ fst (ManagerAgent._gather_results ["s1"] 5 (sample_manager, sample_world))
     = Returned [].
Proof. split; reflexivity. Qed.

(** The dispatcher of the manager, given the same ERROR reply, notes it in
    [received]; the gather loop leaves [received] empty. *)
Example dispatch_notes_what_gather_drops (py_str : PyVal -> string) :
  received (fst (snd (BaseAgent._handle_message (cls := manager_class py_str)
                        sample_error_reply (sample_manager, sample_world))))
  = [sample_error_reply]
  /\ received (fst (snd (ManagerAgent._gather_results ["s1"] 5
                           (sample_manager, sample_manager_world sample_error_reply))))
     = [].
Proof. split; reflexivity. Qed.

(** A RESULT for a remaining id is recorded. *)
Example gather_records_result :
  fst (ManagerAgent._gather_results ["s1"] 5
         (sample_manager,
          sample_manager_world
            (sample_message "manager" "research_agent" RESULT
               (PDict [("task_id", PStr "s1"); ("result", PInt 42);
                       ("status", PStr "completed")]) "r1")))
  = Returned [("s1", PInt 42)].
Proof. reflexivity. Qed.

(** ** The research agent: confidence *)

(** The two confidence values [process_task] can compute: with two
    sources the reliability score is (0.7 + 0.95) / 2, with three (the
    knowledge base answered) it is (0.9 + 0.7 + 0.95) / 3. *)
Lemma confidence_two_sources (d1 d2 : PyVal) :
  exists verified c,
    ResearchAgent._cross_check
      [ResearchAgent.source_result (PStr "web_search") d1 (PFloat 0.7);
       ResearchAgent.source_result (PStr "academic") d2 (PFloat 0.95)]
    = Returned verified
    /\ ResearchAgent._calculate_confidence verified = Returned (PFloat c)
    /\ c = 0.66%float.
Proof.
  eexists. eexists. split; [reflexivity|]. split; [reflexivity|].
  vm_compute. reflexivity.
Qed.

Lemma confidence_three_sources (d0 d1 d2 : PyVal) :
  exists verified c,
    ResearchAgent._cross_check
      [ResearchAgent.source_result (PStr "knowledge_base") d0 (PFloat 0.9);
       ResearchAgent.source_result (PStr "web_search") d1 (PFloat 0.7);
       ResearchAgent.source_result (PStr "academic") d2 (PFloat 0.95)]
    = Returned verified
    /\ ResearchAgent._calculate_confidence verified = Returned (PFloat c)
    /\ c = 0.75%float.
Proof.
  eexists. eexists. split; [reflexivity|]. split; [reflexivity|].
  vm_compute. reflexivity.
Qed.

(** C8: whenever [ResearchAgent.process_task] returns, the value under
    "confidence" in its result is a float [c] with [0.0 <= c <= 1.0] (it is
    0.66 or 0.75); and it returns whenever the task data yields a query that
    is a string: it raises only when the task data or its parameters are no
    mapping or the query is no string. *)
Theorem research_confidence_in_unit_interval :
  forall (task_data : PyVal) (me : Agent ResearchAgent.KnowledgeBase) (w : World),
    match ResearchAgent.process_task task_data (me, w) with
    | (Returned r, _) =>
        exists c, py_item r "confidence" = Returned (PFloat c)
                  /\ in_unit_interval c = true
                  /\ (c = 0.66%float \/ c = 0.75%float)
    | (Raised _, _) => forall q, query_of task_data <> Returned (PStr q)
    end.
Proof.
  intros task_data me w.
  unfold ResearchAgent.process_task, query_of.
  unfold bind at 1, of_outcome.
  destruct (py_get_default task_data "description" (PStr "")) as [description0|e];
    [|discriminate].
  unfold bind at 1.
  destruct (py_get_default task_data "parameters" (PDict [])) as [parameters0|e];
    [|discriminate].
  unfold bind at 1.
  destruct (py_get_default parameters0 "query" description0) as [query|e];
    [|discriminate].
  unfold bind at 1, ResearchAgent._multi_source_search.
  unfold bind at 1, self. unfold bind at 1, of_outcome.
  destruct query as [| | | |q| |]; simpl; try discriminate.
  set (kb := match find _ (ext me) with Some kv => snd kv | None => PNone end).
  unfold bind, on_world, lift, of_outcome, ret, self. simpl.
  destruct (ResearchAgent._simulate_web_search q w) as [d1 w1].
  destruct (ResearchAgent._simulate_academic_search q w1) as [d2 w2].
  destruct (truthy kb); simpl.
  - (* three sources *)
    eexists. split; [reflexivity|].
    split; [vm_compute; reflexivity | right; vm_compute; reflexivity].
  - (* two sources *)
    eexists. split; [reflexivity|].
    split; [vm_compute; reflexivity | left; vm_compute; reflexivity].
Qed.

(** A run on the sample agent: the knowledge base answers, three sources,
    confidence 0.75. *)
Example research_climate :
  match fst (ResearchAgent.process_task
               (PDict [("task_id", PStr "test_001");
                       ("description", PStr "Research climate change");
                       ("parameters", PDict [])])
               (sample_researcher, sample_world)) with
  | Returned r => py_item r "confidence" = Returned (PFloat 0.75)
                  /\ py_item r "sources" = Returned (PInt 3)
  | Raised _ => False
  end.
Proof. vm_compute. split; reflexivity. Qed.

(** ** Time

    The loops of the coordinator recurse on a number of rounds; every
    round takes a tick, so the rounds never run out before the time does. *)

Lemma clock_send_message (m : Message) (w : World) :
  clock (snd (send_message m w)) = clock w.
Proof.
  unfold send_message. destruct (Dict.get (to m) (agents (bus w))); reflexivity.
Qed.

Lemma clock_deliveries (msgs : list Message) :
  forall w, clock (fold_left (fun w0 m => snd (send_message m w0)) msgs w) = clock w.
Proof.
  induction msgs as [|m msgs IH]; intros w; simpl; [reflexivity|].
  rewrite IH. apply clock_send_message.
Qed.

Lemma clock_sleep_tick (w : World) : clock (sleep_tick w) = S (clock w).
Proof. unfold sleep_tick. reflexivity. Qed.

Lemma wait_for_message_S (agent : string) (correlation : option string)
    (left : nat) (w : World) :
  wait_for_message agent correlation (S left) w
  = match scan_history agent correlation (message_history (bus w)) with
    | Some msg => (Some msg, w)
    | None => wait_for_message agent correlation left (sleep_tick w)
    end.
Proof. reflexivity. Qed.

Lemma clock_wait_for_message (agent : string) (correlation : option string) :
  forall (left : nat) (w : World),
    (clock w <= clock (snd (wait_for_message agent correlation left w)))%nat.
Proof.
  induction left as [|left IH]; intros w; [apply Nat.le_refl|].
  rewrite wait_for_message_S.
  destruct (scan_history agent correlation (message_history (bus w)));
    [apply Nat.le_refl|].
  specialize (IH (sleep_tick w)). rewrite clock_sleep_tick in IH. lia.
Qed.

Lemma clock_check_task (id : string) (acc : list string * list (string * PyVal))
    (cs : CoordState) :
  (clock (world cs) <= clock (world (snd (Coordinator.check_task id acc cs))))%nat.
Proof.
  unfold Coordinator.check_task, bind, get_state. simpl.
  destruct (Dict.get id (active_tasks (coordinator cs))); [|apply Nat.le_refl].
  destruct (Dict.get id (task_assignments (coordinator cs))) as [agent|];
    [|apply Nat.le_refl].
  destruct (agent =? ""); [apply Nat.le_refl|].
  unfold in_world, lift. simpl.
  pose proof (clock_wait_for_message agent None 5 (world cs)) as Hc.
  destruct (wait_for_message agent None 5 (world cs)) as [[m|] w']; simpl in *;
    [|exact Hc].
  destruct (message_type m); simpl; try exact Hc.
  unfold of_outcome.
  destruct (py_get (content m) "task_id") as [tid|e]; simpl; [|exact Hc].
  destruct (BaseAgent.is_str tid id); simpl; [|exact Hc].
  destruct (py_get (content m) "result"); simpl; exact Hc.
Qed.

Lemma clock_check_tasks :
  forall (ids : list string) (acc : list string * list (string * PyVal)) (cs : CoordState),
    (clock (world cs) <= clock (world (snd (Coordinator.check_tasks ids acc cs))))%nat.
Proof.
  induction ids as [|id ids IH]; intros acc cs; simpl; [apply Nat.le_refl|].
  unfold bind.
  pose proof (clock_check_task id acc cs) as H1.
  destruct (Coordinator.check_task id acc cs) as [[acc1|e] cs1]; simpl in *; [|exact H1].
  specialize (IH acc1 cs1). lia.
Qed.

Lemma wait_loop_S (rounds start_time timeout : nat)
    (acc : list string * list (string * PyVal)) (cs : CoordState) :
  Coordinator.wait_loop (S rounds) start_time timeout acc cs
  = match fst acc with
    | [] => (Returned acc, cs)
    | _ =>
        if (clock (world cs) - start_time <? timeout)%nat then
          match Coordinator.check_tasks (fst acc) acc cs with
          | (Returned acc', cs1) =>
              Coordinator.wait_loop rounds start_time timeout acc'
                (mkCoordState (coordinator cs1) (task_store cs1) (sleep_tick (world cs1)))
          | (Raised e, cs1) => (Raised e, cs1)
          end
        else (Returned acc, cs)
    end.
Proof.
  simpl. unfold bind at 1, get_state. simpl.
  destruct (fst acc) as [|id0 ids0]; [reflexivity|].
  destruct (clock (world cs) - start_time <? timeout)%nat; [|reflexivity].
  unfold bind at 1.
  destruct (Coordinator.check_tasks (id0 :: ids0) acc cs) as [[acc1|e] cs1];
    reflexivity.
Qed.

(** Once the rounds cover the time that is left, more rounds change
    nothing: the loop ends by its own tests. *)
Lemma wait_loop_rounds (start_time timeout : nat) :
  forall (rounds rounds' : nat) (acc : list string * list (string * PyVal))
         (cs : CoordState),
    (start_time <= clock (world cs))%nat ->
    (timeout - (clock (world cs) - start_time) <= rounds)%nat ->
    (timeout - (clock (world cs) - start_time) <= rounds')%nat ->
    Coordinator.wait_loop rounds start_time timeout acc cs
    = Coordinator.wait_loop rounds' start_time timeout acc cs.
Proof.
  assert (Hstop : forall rounds acc cs,
             (timeout - (clock (world cs) - start_time) = 0)%nat ->
             Coordinator.wait_loop rounds start_time timeout acc cs = (Returned acc, cs)).
  { intros [|rounds] acc cs H0; [reflexivity|].
    rewrite wait_loop_S.
    destruct (fst acc); [reflexivity|].
    destruct (Nat.ltb_spec (clock (world cs) - start_time) timeout); [lia | reflexivity]. }
  induction rounds as [|rounds IH]; intros rounds' acc cs H0 H1 H2.
  - rewrite (Hstop 0%nat), (Hstop rounds'); [reflexivity | lia | lia].
  - destruct rounds' as [|rounds'].
    + rewrite (Hstop (S rounds)), (Hstop 0%nat); [reflexivity | lia | lia].
    + rewrite !wait_loop_S.
      destruct (fst acc) as [|id0 ids0]; [reflexivity|].
      destruct (clock (world cs) - start_time <? timeout)%nat eqn:Hlt; [|reflexivity].
      apply Nat.ltb_lt in Hlt.
      pose proof (clock_check_tasks (id0 :: ids0) acc cs) as Hc.
      destruct (Coordinator.check_tasks (id0 :: ids0) acc cs) as [[acc1|e] cs1];
        [|reflexivity].
      simpl in Hc.
      apply IH; cbn [world]; rewrite clock_sleep_tick; lia.
Qed.

(** [wait_for_results] gives its loop as many rounds as the timeout has
    ticks, which is enough. *)
Lemma wait_for_results_rounds (timeout rounds' : nat)
    (acc : list string * list (string * PyVal)) (cs : CoordState) :
  (timeout <= rounds')%nat ->
  Coordinator.wait_loop timeout (clock (world cs)) timeout acc cs
  = Coordinator.wait_loop rounds' (clock (world cs)) timeout acc cs.
Proof.
  intros H. apply wait_loop_rounds; lia.
Qed.

(** ** The coordinator: examples of overwritten statuses *)

(** A completed task that is waited for again and gets no answer in time
    is marked FAILED. *)
Example wait_for_results_overwrites_completed :
  status (task_store sample_coord_state_done 1) = COMPLETED
  /\ status (task_store (run_op (OpWaitForResults ["t1"] 1) sample_coord_state_done) 1)
     = FAILED.
Proof. split; reflexivity. Qed.

(** A completed task that is assigned again is IN_PROGRESS. *)
Example assign_task_overwrites_completed :
  status (task_store (run_op (OpAssignTask 1 "writer_agent" None) sample_coord_state_done) 1)
  = IN_PROGRESS.
Proof. reflexivity. Qed.

(** [cancel_task] on an id that is not recorded returns [False] and
    changes nothing. *)
Lemma cancel_task_unknown (id : string) (cs : CoordState) :
  Dict.get id (active_tasks (coordinator cs)) = None ->
  Coordinator.cancel_task id cs = (false, cs).
Proof.
  intros H. unfold Coordinator.cancel_task. now rewrite H.
Qed.

(** * Further properties *)

(** ** Dicts, continued *)

Lemma dict_get_del_other {V} (k k0 : string) (d : list (string * V)) :
  k0 <> k -> Dict.get k0 (Dict.del k d) = Dict.get k0 d.
Proof.
  intros Hne. induction d as [|[k' v'] d IH]; simpl; [reflexivity|].
  destruct (String.eqb_spec k k') as [->|Hne']; simpl.
  - apply String.eqb_neq in Hne. now rewrite Hne.
  - destruct (k0 =? k'); [reflexivity | exact IH].
Qed.

Lemma dict_keys_del_incl {V} (k : string) (d : list (string * V)) :
  incl (Dict.keys (Dict.del k d)) (Dict.keys d).
Proof.
  induction d as [|[k' v'] d IH]; simpl; [apply incl_refl|].
  destruct (k =? k'); simpl.
  - apply incl_tl, incl_refl.
  - intros x [<-|Hx]; [now left | right; now apply IH].
Qed.

Lemma dict_del_wf {V} (k : string) (d : list (string * V)) :
  Dict.wf d -> Dict.wf (Dict.del k d).
Proof.
  unfold Dict.wf. induction d as [|[k' v'] d IH]; simpl; intros Hwf; [exact Hwf|].
  inversion Hwf as [|? ? Hnotin Hnd]; subst.
  destruct (k =? k'); simpl; [exact Hnd|].
  constructor; [|now apply IH].
  intros Hin. apply Hnotin. now apply (dict_keys_del_incl k d).
Qed.

Lemma dict_get_del_same {V} (k : string) (d : list (string * V)) :
  Dict.wf d -> Dict.get k (Dict.del k d) = None.
Proof.
  unfold Dict.wf. induction d as [|[k' v'] d IH]; simpl; intros Hwf; [reflexivity|].
  inversion Hwf as [|? ? Hnotin Hnd]; subst.
  destruct (String.eqb_spec k k') as [->|Hne]; simpl.
  - now apply dict_get_not_in_keys.
  - apply String.eqb_neq in Hne. rewrite Hne. now apply IH.
Qed.

Lemma dict_set_wf {V} (k : string) (v : V) (d : list (string * V)) :
  Dict.wf d -> Dict.wf (Dict.set k v d).
Proof.
  unfold Dict.wf. intros Hwf. rewrite dict_keys_set.
  destruct (Dict.mem k d) eqn:E; [exact Hwf|].
  apply dict_mem_get in E. apply dict_get_none_not_in in E.
  apply NoDup_app; [exact Hwf | repeat constructor; simpl; tauto |].
  intros x Hx [Heq|[]]. subst. contradiction.
Qed.

Lemma dict_del_set_fresh {V} (k : string) (v : V) (d : list (string * V)) :
  Dict.get k d = None -> Dict.del k (Dict.set k v d) = d.
Proof.
  induction d as [|[k' v'] d IH]; simpl; intros Hg.
  - now rewrite String.eqb_refl.
  - destruct (String.eqb_spec k k') as [->|Hne]; [discriminate|].
    simpl. apply String.eqb_neq in Hne. rewrite Hne. now rewrite IH.
Qed.

(** ** The message bus: the registry *)

(** X1: registering an agent id makes it resolve to the given inbox and
    leaves every other id, the history and the queues as they are; the id
    occurs once among the registered ids, also when it was registered
    before, and a second registration of the id does not change the list of
    registered ids. *)
Theorem register_agent_replaces :
  forall (agent : string) (inbox0 inbox1 : nat) (w : World),
    Dict.wf (agents (bus w)) ->
    let w' := register_agent agent inbox0 w in
    Dict.get agent (agents (bus w')) = Some inbox0
    /\ (forall other, other <> agent ->
          Dict.get other (agents (bus w')) = Dict.get other (agents (bus w)))
    /\ count_occ string_dec (get_registered_agents (bus w')) agent = 1%nat
    /\ get_registered_agents (bus (register_agent agent inbox1 w'))
       = get_registered_agents (bus w')
    /\ Dict.get agent (agents (bus (register_agent agent inbox1 w'))) = Some inbox1
    /\ message_history (bus w') = message_history (bus w)
    /\ queues w' = queues w.
Proof.
  intros agent inbox0 inbox1 w Hwf w'. subst w'. unfold register_agent. simpl.
  split; [apply dict_get_set_same|].
  split; [intros other Hne; now apply dict_get_set_other|].
  split.
  - apply NoDup_count_occ'.
    + apply (dict_set_wf agent inbox0 Hwf).
    + eapply dict_get_in_keys. apply dict_get_set_same.
  - unfold get_registered_agents. simpl.
    split; [|split; [apply dict_get_set_same | split; reflexivity]].
    rewrite (dict_keys_set agent inbox1).
    unfold Dict.mem. now rewrite dict_get_set_same.
Qed.

Lemma sample_world_wf : Dict.wf (agents (bus sample_world)).
Proof.
  unfold Dict.wf. simpl. repeat constructor; simpl; intuition discriminate.
Defined.

Lemma register_agent_replaces_witness :
  Dict.wf (agents (bus sample_world))
  /\ get_registered_agents (bus (register_agent "writer_agent" 7 sample_world))
     = ["research_agent"; "writer_agent"]
  /\ Dict.get "writer_agent" (agents (bus (register_agent "writer_agent" 7 sample_world)))
     = Some 7%nat.
Proof.
  split; [exact sample_world_wf|]. split; [reflexivity|].
  exact (proj1 (register_agent_replaces "writer_agent" 7 8 sample_world sample_world_wf)).
Defined.

(** X2: after [unregister_agent] the agent id is no longer registered, a
    message to it is refused, every other id resolves as before and the
    history and the queues are untouched; unregistering an id that is not
    registered changes nothing. *)
Theorem unregister_agent_removes :
  forall (agent : string) (w : World),
    Dict.wf (agents (bus w)) ->
    let w' := unregister_agent agent w in
    Dict.get agent (agents (bus w')) = None
    /\ (forall m, to m = agent -> send_message m w' = (false, w'))
    /\ (forall other, other <> agent ->
          Dict.get other (agents (bus w')) = Dict.get other (agents (bus w)))
    /\ Dict.wf (agents (bus w'))
    /\ message_history (bus w') = message_history (bus w)
    /\ queues w' = queues w
    /\ (Dict.get agent (agents (bus w)) = None -> w' = w).
Proof.
  intros agent w Hwf w'. subst w'. unfold unregister_agent, Dict.mem.
  destruct (Dict.get agent (agents (bus w))) as [i|] eqn:Hg; simpl.
  - assert (Hnone : Dict.get agent (Dict.del agent (agents (bus w))) = None)
      by now apply dict_get_del_same.
    split; [exact Hnone|].
    split; [intros m Hm; unfold send_message; simpl; now rewrite Hm, Hnone|].
    split; [intros other Hne; now apply dict_get_del_other|].
    split; [now apply dict_del_wf|].
    repeat split. discriminate.
  - split; [exact Hg|].
    split; [intros m Hm; unfold send_message; now rewrite Hm, Hg|].
    repeat split. exact Hwf.
Qed.

Lemma unregister_agent_removes_witness :
  Dict.wf (agents (bus sample_world))
  /\ Dict.get "writer_agent" (agents (bus (unregister_agent "writer_agent" sample_world)))
     = None.
Proof.
  split; [exact sample_world_wf|].
  exact (proj1 (unregister_agent_removes "writer_agent" sample_world sample_world_wf)).
Defined.

(** ** The message bus: order of delivery *)

(** X3: two messages sent one after the other to the same registered
    agent are both delivered, and they stand in that order, as the very
    messages sent, at the end of the agent's inbox and at the end of the
    history; no other queue changes. *)
Theorem send_message_fifo :
  forall (m1 m2 : Message) (w : World) (inbox0 : nat),
    Dict.get (to m1) (agents (bus w)) = Some inbox0 ->
    to m2 = to m1 ->
    let r1 := send_message m1 w in
    let r2 := send_message m2 (snd r1) in
    fst r1 = true /\ fst r2 = true
    /\ queues (snd r2) inbox0 = queues w inbox0 ++ [m1; m2]
    /\ message_history (bus (snd r2)) = message_history (bus w) ++ [m1; m2]
    /\ (forall q, q <> inbox0 -> queues (snd r2) q = queues w q).
Proof.
  intros m1 m2 w inbox0 Hg Hto r1 r2. subst r1 r2.
  pose proof (send_message_registered m1 w Hg) as H1.
  destruct (send_message m1 w) as [d1 w1]. destruct H1 as (-> & Hq1 & Ho1 & Hh1 & Ha1).
  simpl.
  assert (Hg2 : Dict.get (to m2) (agents (bus w1)) = Some inbox0) by (rewrite Hto, Ha1; exact Hg).
  pose proof (send_message_registered m2 w1 Hg2) as H2.
  destruct (send_message m2 w1) as [d2 w2]. destruct H2 as (-> & Hq2 & Ho2 & Hh2 & Ha2).
  simpl. split; [reflexivity|]. split; [reflexivity|].
  split; [rewrite Hq2, Hq1, <- app_assoc; reflexivity|].
  split; [rewrite Hh2, Hh1, <- app_assoc; reflexivity|].
  intros q Hq. rewrite (Ho2 q Hq). now apply Ho1.
Qed.

Lemma send_message_fifo_witness :
  Dict.get (to sample_m1) (agents (bus sample_world)) = Some 0%nat
  /\ queues (snd (send_message sample_m1 (snd (send_message sample_m1 sample_world)))) 0
     = [sample_m1; sample_m1].
Proof.
  split; [reflexivity|].
  exact (proj1 (proj2 (proj2 (send_message_fifo sample_m1 sample_m1 sample_world
                                                eq_refl eq_refl)))).
Defined.

(** ** The message bus: queries of the history *)

Lemma last_n_length {A} (n : nat) (xs : list A) :
  (List.length (last_n n xs) <= n)%nat.
Proof. unfold last_n. rewrite length_skipn. lia. Qed.

Lemma last_n_incl {A} (n : nat) (xs : list A) : incl (last_n n xs) xs.
Proof.
  unfold last_n. intros x Hx.
  rewrite <- (firstn_skipn (List.length xs - n) xs). apply in_or_app. now right.
Qed.

(** X4: with an agent id that is not empty and a positive limit,
    [get_history] returns exactly the last [limit] of the messages sent by
    or to the agent, in the order of the history, and all of them when they
    are fewer: the messages of the agent without the first
    [len - limit] ones.  So the result has [min(limit, len)] messages, each
    of them sent by or to the agent. *)
Theorem get_history_bounded :
  forall (a : string) (l : Z) (b : MessageBus),
    a <> "" -> (0 < l)%Z ->
    let of_agent := filter (fun m => (from_ m =? a) || (to m =? a)) (message_history b) in
    let r := get_history (Some a) (Some l) b in
    r = skipn (List.length of_agent - Z.to_nat l) of_agent
    /\ List.length r = Nat.min (Z.to_nat l) (List.length of_agent)
    /\ (Z.of_nat (List.length r) <= l)%Z
    /\ Forall (fun m => from_ m = a \/ to m = a) r
    /\ exists earlier, of_agent = earlier ++ r.
Proof.
  intros a l b Ha Hl of_agent r. subst r.
  rewrite (get_history_filter_limit b Ha Hl).
  fold of_agent. set (h := of_agent).
  split; [reflexivity|]. split; [|split; [|split]].
  - unfold last_n. rewrite length_skipn. lia.
  - pose proof (last_n_length (Z.to_nat l) h). lia.
  - apply Forall_forall. intros m Hm.
    apply last_n_incl in Hm. unfold h, of_agent in Hm. apply filter_In in Hm.
    destruct Hm as [_ Hm]. apply orb_true_iff in Hm.
    destruct Hm as [Hm|Hm]; apply String.eqb_eq in Hm; tauto.
  - exists (firstn (List.length h - Z.to_nat l) h).
    unfold last_n. symmetry. apply firstn_skipn.
Qed.

(** Of the two messages of the research agent in the sample history, a
    limit of 1 keeps the later one. *)
Lemma get_history_bounded_witness :
  "research_agent" <> "" /\ (0 < 1)%Z
  /\ get_history (Some "research_agent") (Some 1%Z) (bus sample_history_world)
     = skipn 1 (filter (fun m => (from_ m =? "research_agent") || (to m =? "research_agent"))
                       (message_history (bus sample_history_world))).
Proof.
  assert (Ha : "research_agent" <> "") by discriminate.
  assert (Hl : (0 < 1)%Z) by lia.
  split; [exact Ha|]. split; [exact Hl|].
  exact (proj1 (get_history_bounded (bus sample_history_world) Ha Hl)).
Defined.

(** X5: a negative limit does not bound the result: [get_history(limit=l)]
    with [l < 0] returns the history without its first [-l] messages. *)
Theorem get_history_negative_limit :
  forall (l : Z) (b : MessageBus),
    (l < 0)%Z ->
    get_history None (Some l) b = skipn (Z.to_nat (- l)) (message_history b).
Proof.
  intros l b Hl. unfold get_history, slice_from.
  destruct (Z.eqb_spec l 0) as [->|_]; [lia|]. simpl.
  destruct (Z.ltb_spec (- l) 0); [lia|].
  set (h := message_history b).
  destruct (Z.le_gt_cases (- l) (Z.of_nat (List.length h))) as [Hle|Hgt].
  - now rewrite Z.min_l.
  - rewrite Z.min_r by lia. rewrite Nat2Z.id.
    rewrite !skipn_all2; [reflexivity | lia | lia].
Qed.

Lemma get_history_negative_limit_witness :
  (-2 < 0)%Z
  /\ List.length (get_history None (Some (-2)%Z) (bus sample_history_world)) = 1%nat.
Proof.
  assert (Hl : (-2 < 0)%Z) by lia.
  split; [exact Hl|].
  rewrite (get_history_negative_limit (bus sample_history_world) Hl). reflexivity.
Defined.

(** ** The message bus: waiting for a message *)

Lemma find_split {A} (f : A -> bool) :
  forall (l : list A) (x : A),
    find f l = Some x ->
    exists l1 l2, l = l1 ++ x :: l2 /\ f x = true /\ Forall (fun y => f y = false) l1.
Proof.
  induction l as [|y l IH]; intros x H; simpl in H; [discriminate|].
  destruct (f y) eqn:Hy.
  - injection H as <-. exists [], l. repeat split; [exact Hy | constructor].
  - destruct (IH x H) as (l1 & l2 & -> & Hx & Hall).
    exists (y :: l1), l2. repeat split; [exact Hx | now constructor].
Qed.

Lemma scan_history_newest (agent : string) (correlation : option string)
    (history : list Message) (msg : Message) :
  scan_history agent correlation history = Some msg ->
  exists before after,
    history = before ++ msg :: after
    /\ awaited agent correlation msg = true
    /\ Forall (fun m => awaited agent correlation m = false) after.
Proof.
  unfold scan_history. intros H.
  apply (find_split (awaited agent correlation)) in H.
  destruct H as (l1 & l2 & Hrev & Hx & Hall).
  exists (rev l2), (rev l1). split; [|split; [exact Hx|]].
  - rewrite <- (rev_involutive history), Hrev, rev_app_distr. simpl.
    now rewrite <- app_assoc.
  - apply Forall_forall. intros m Hm. apply in_rev in Hm.
    rewrite Forall_forall in Hall. now apply Hall.
Qed.

(** X6: when [wait_for_message] returns a message, it is the newest
    message of the history at that moment that the agent sent (with the
    correlation id, if one was asked for); when it returns [None], exactly
    [timeout] ticks have passed; and a timeout of zero returns [None]
    without looking at the history. *)
Theorem wait_for_message_newest :
  forall (agent : string) (correlation : option string) (timeout : nat) (w : World),
    match wait_for_message agent correlation timeout w with
    | (Some msg, w') =>
        exists before after,
          message_history (bus w') = before ++ msg :: after
          /\ awaited agent correlation msg = true
          /\ Forall (fun m => awaited agent correlation m = false) after
    | (None, w') => clock w' = (clock w + timeout)%nat
    end
    /\ wait_for_message agent correlation 0 w = (None, w).
Proof.
  intros agent correlation timeout w. split; [|reflexivity].
  revert w. induction timeout as [|timeout IH]; intros w.
  - simpl. lia.
  - rewrite wait_for_message_S.
    destruct (scan_history agent correlation (message_history (bus w))) as [msg|] eqn:Hs.
    + now apply scan_history_newest.
    + specialize (IH (sleep_tick w)).
      destruct (wait_for_message agent correlation timeout (sleep_tick w)) as [[msg|] w'];
        [exact IH|].
      rewrite IH, clock_sleep_tick. lia.
Qed.

(** On the sample history the newest message of the research agent is
    found at once, and the older one when its correlation id is asked
    for. *)
Example wait_for_message_sample :
  option_map message_id
    (fst (wait_for_message "research_agent" None 5 sample_history_world)) = Some "r2"
  /\ option_map message_id
       (fst (wait_for_message "research_agent" (Some "m1") 5 sample_history_world))
     = Some "r1"
  /\ fst (wait_for_message "analyzer_agent" None 5 sample_history_world) = None.
Proof. repeat split. Qed.

(** ** The message bus: the history only grows *)

Lemma history_extends_refl (w : World) : history_extends w w.
Proof. exists []. now rewrite app_nil_r. Qed.

Lemma history_extends_trans (w1 w2 w3 : World) :
  history_extends w1 w2 -> history_extends w2 w3 -> history_extends w1 w3.
Proof.
  intros [a1 H1] [a2 H2]. exists (a1 ++ a2). now rewrite H2, H1, app_assoc.
Qed.

Lemma send_message_extends (m : Message) (w : World) :
  history_extends w (snd (send_message m w))
  /\ agents (bus (snd (send_message m w))) = agents (bus w).
Proof.
  unfold send_message. destruct (Dict.get (to m) (agents (bus w))); simpl.
  - split; [now exists [m] | reflexivity].
  - split; [apply history_extends_refl | reflexivity].
Qed.

Lemma deliveries_extend (msgs : list Message) :
  forall w,
    let w' := fold_left (fun w0 m => snd (send_message m w0)) msgs w in
    history_extends w w' /\ agents (bus w') = agents (bus w).
Proof.
  induction msgs as [|m msgs IH]; intros w; simpl.
  - split; [apply history_extends_refl | reflexivity].
  - destruct (send_message_extends m w) as [H1 H2].
    destruct (IH (snd (send_message m w))) as [H3 H4].
    split; [eapply history_extends_trans; eassumption | congruence].
Qed.

Lemma sleep_tick_extends (w : World) :
  history_extends w (sleep_tick w) /\ agents (bus (sleep_tick w)) = agents (bus w).
Proof.
  unfold sleep_tick.
  destruct (deliveries_extend (others w (clock w)) w) as [[a Ha] H2].
  split; [exists a; exact Ha | exact H2].
Qed.

Lemma wait_for_message_extends (agent : string) (correlation : option string) :
  forall (left : nat) (w : World),
    history_extends w (snd (wait_for_message agent correlation left w))
    /\ agents (bus (snd (wait_for_message agent correlation left w))) = agents (bus w).
Proof.
  induction left as [|left IH]; intros w.
  - split; [apply history_extends_refl | reflexivity].
  - rewrite wait_for_message_S.
    destruct (scan_history agent correlation (message_history (bus w))).
    + split; [apply history_extends_refl | reflexivity].
    + destruct (sleep_tick_extends w) as [H1 H2].
      destruct (IH (sleep_tick w)) as [H3 H4].
      split; [eapply history_extends_trans; eassumption | congruence].
Qed.

(** X7: sending, broadcasting, sleeping (while the other coroutines send)
    and waiting for a message never remove or reorder what the history
    holds and never change the registry: the history after the operation
    is the history before it with messages added at the end. *)
Theorem history_only_grows :
  forall (w : World),
    (forall m, history_extends w (snd (send_message m w))
               /\ agents (bus (snd (send_message m w))) = agents (bus w))
    /\ (forall m E, history_extends w (snd (broadcast m E w))
                    /\ agents (bus (snd (broadcast m E w))) = agents (bus w))
    /\ (history_extends w (sleep_tick w)
        /\ agents (bus (sleep_tick w)) = agents (bus w))
    /\ (forall agent correlation timeout,
           history_extends w (snd (wait_for_message agent correlation timeout w))
           /\ agents (bus (snd (wait_for_message agent correlation timeout w)))
              = agents (bus w)).
Proof.
  intros w. split; [|split; [|split]].
  - intros m. apply send_message_extends.
  - intros m E. unfold broadcast.
    set (ex := match E with Some (x :: e) => x :: e | _ => [] end).
    pose proof (broadcast_loop_spec m ex (agents (bus w)) 0 w) as H.
    destruct (broadcast_loop (agents (bus w)) m ex 0 w) as [c w1].
    simpl in H. destruct H as (_ & Hb & _).
    split; [exists [m] |]; simpl; now rewrite Hb.
  - apply sleep_tick_extends.
  - intros agent correlation timeout. apply wait_for_message_extends.
Qed.

(** ** The agent runtime: the dispatcher *)

Section Dispatcher.

Context {X : Type} {cls : AgentClass X}.

Lemma send_error_returns (m : Message) (e : string) (a : Agent X) (w : World) :
  BaseAgent._send_error m e (a, w)
  = (Returned tt, (a, after_send (error_message m (agent_id a) e w) w)).
Proof.
  unfold BaseAgent._send_error, after_send, error_message.
  unfold bind, self, on_world, lift, ret, new_Message. simpl.
  destruct (send_message _ _) as [b w2]. reflexivity.
Qed.

(** X8: no [Exception] leaves the dispatcher.  Whatever the message, and
    whatever [Exception] the subclass raises in [process_task] or
    [handle_message], [_handle_message] returns normally, and so does a
    round of the message loop, on an inbox with a message and on one that
    stays empty.  (A cancellation is no [Exception]; it is not caught by
    these handlers and not part of this statement.) *)
Theorem handle_message_never_raises :
  forall (m : Message) (s : Agent X * World),
    fst (BaseAgent._handle_message m s) = Returned tt
    /\ fst (BaseAgent._process_messages_step s) = Returned tt.
Proof.
  assert (H : forall m s, fst (BaseAgent._handle_message m s) = Returned tt).
  { intros m [a w]. unfold BaseAgent._handle_message.
    unfold bind at 1, on_self, modify, try_except. simpl.
    match goal with
    | |- fst (match ?body with _ => _ end) = _ => destruct body as [[[]|e] [a1 w1]]
    end; [reflexivity|].
    now rewrite send_error_returns. }
  intros m s. split; [apply H|].
  destruct s as [a w]. unfold BaseAgent._process_messages_step.
  destruct (running a); [|reflexivity].
  destruct (wait_inbox (inbox a) 5 w) as [[m0|] w']; [|reflexivity].
  unfold try_except. pose proof (H m0 (a, w')) as Hm.
  destruct (BaseAgent._handle_message m0 (a, w')) as [[[]|e] s1];
    [reflexivity | discriminate Hm].
Qed.

(** X9: a REQUEST whose payload is a mapping with the action "status" is
    answered with one STATUS message to the sender, correlated to the
    request, that carries the state, the current task, the capabilities and
    the workload (0.5 when busy, else 0.0) of the agent; the agent itself is
    as before, but for the note of the message. *)
Theorem status_request_answered :
  forall (me : Agent X) (m : Message) (w : World) (d : list (string * PyVal)),
    message_type m = REQUEST ->
    content m = PDict d ->
    Dict.get "action" d = Some (PStr "status") ->
    BaseAgent._handle_message m (me, w)
    = (Returned tt,
       (noted m me, after_send (status_message m (noted m me) w) w)).
Proof.
  intros me m w d Ht Hc Ha.
  unfold BaseAgent._handle_message. rewrite Ht.
  unfold BaseAgent._handle_request_message, BaseAgent.get_status, after_send,
    status_message, noted.
  unfold bind, try_except, on_self, on_world, modify, lift, of_outcome, self, ret,
    new_Message, py_get, py_get_default.
  rewrite Hc. simpl. rewrite Ha. simpl.
  destruct (send_message _ _) as [b w2]. reflexivity.
Qed.

(** X10: messages of the kinds STATUS, BROADCAST, RESULT, RESPONSE and
    ERROR, and a REQUEST whose payload is a mapping with another action
    than "status", go to the hook [handle_message]; a REQUEST whose payload
    is no mapping is answered with an ERROR message.  An agent whose hook
    does nothing, as the default one, is left as it was but for the note of
    the message, and sends nothing. *)
Theorem other_messages_go_to_hook :
  forall (me : Agent X) (m : Message) (w : World),
    (message_type m <> TASK -> message_type m <> REQUEST ->
       BaseAgent._handle_message m (me, w) = hook_dispatch m (me, w))
    /\ (forall d, message_type m = REQUEST -> content m = PDict d ->
          Dict.get "action" d <> Some (PStr "status") ->
          BaseAgent._handle_message m (me, w) = hook_dispatch m (me, w))
    /\ (message_type m = REQUEST -> (forall d, content m <> PDict d) ->
          BaseAgent._handle_message m (me, w)
          = (Returned tt,
             (noted m me,
              after_send (error_message m (agent_id me)
                            (attribute_error (content m) "get") w) w)))
    /\ ((forall m0 s, handle_message m0 s = (Returned tt, s)) ->
          hook_dispatch m (me, w) = (Returned tt, (noted m me, w))).
Proof.
  intros me m w. split; [|split; [|split]].
  - intros H1 H2. unfold BaseAgent._handle_message, hook_dispatch,
      BaseAgent._handle_status_message, BaseAgent._handle_broadcast_message.
    unfold bind at 1, on_self, modify, try_except. simpl. fold (noted m me).
    destruct (message_type m); try congruence;
      destruct (handle_message m (noted m me, w)) as [[[]|e] [a1 w1]];
      try reflexivity; apply send_error_returns.
  - intros d Ht Hc Ha. unfold BaseAgent._handle_message, hook_dispatch.
    rewrite Ht. unfold BaseAgent._handle_request_message.
    unfold bind, on_self, modify, try_except, of_outcome, py_get, py_get_default.
    rewrite Hc. simpl. fold (noted m me).
    assert (Hs : BaseAgent.is_str
                   match Dict.get "action" d with Some x => x | None => PNone end
                   "status" = false).
    { destruct (Dict.get "action" d) as [[| | | |s| |]|]; try reflexivity.
      simpl. destruct (String.eqb_spec s "status") as [->|]; [congruence | reflexivity]. }
    rewrite Hs.
    destruct (handle_message m (noted m me, w)) as [[[]|e] [a1 w1]];
      [reflexivity | apply send_error_returns].
  - intros Ht Hc. unfold BaseAgent._handle_message. rewrite Ht.
    unfold BaseAgent._handle_request_message.
    unfold bind, on_self, modify, try_except, of_outcome, py_get, py_get_default.
    simpl. fold (noted m me).
    destruct (content m) eqn:E; simpl;
      try (rewrite send_error_returns; reflexivity).
    exfalso. eapply Hc. reflexivity.
  - intros Hh. unfold hook_dispatch. simpl. now rewrite Hh.
Qed.

End Dispatcher.

Lemma status_request_answered_witness :
  message_type sample_status_request = REQUEST
  /\ map message_type
       (queues (snd (snd (BaseAgent._handle_message (cls := echo_class)
                            sample_status_request
                            (sample_agent, sample_inbox_world sample_bad_task)))) 2)
     = [STATUS].
Proof.
  split; [reflexivity|].
  rewrite (status_request_answered (cls := echo_class) sample_agent sample_status_request
             (sample_inbox_world sample_bad_task) eq_refl eq_refl eq_refl).
  reflexivity.
Defined.

(** The payload of [Protocol.status_request] names the action
    "status_request": an agent with the default hook does not answer it. *)
Lemma other_messages_go_to_hook_witness :
  message_type sample_protocol_request = REQUEST
  /\ BaseAgent._handle_message (cls := echo_class) sample_protocol_request
       (sample_agent, sample_world)
     = (Returned tt, (noted sample_protocol_request sample_agent, sample_world)).
Proof.
  split; [reflexivity|].
  destruct (other_messages_go_to_hook (cls := echo_class) sample_agent
              sample_protocol_request sample_world) as (_ & H & _ & Hd).
  rewrite (H _ eq_refl eq_refl); [|discriminate].
  apply Hd. reflexivity.
Defined.

(** ** The agent runtime: life cycle *)

(** X11: [start] registers the agent's inbox under its id and sets it
    running; [stop] after it clears the flag and takes the id out again, so
    that, for an id that was not registered before, the registry, the
    history and the queues are as before the start, a message to the agent is
    refused, and a round of the message loop does nothing. *)
Theorem start_stop_round_trip :
  forall (X : Type) (cls : AgentClass X) (me : Agent X) (w : World),
    Dict.get (agent_id me) (agents (bus w)) = None ->
    let s1 := snd (BaseAgent.start (me, w)) in
    let s2 := snd (BaseAgent.stop s1) in
    fst (BaseAgent.start (me, w)) = Returned tt
    /\ running (fst s1) = true
    /\ Dict.get (agent_id me) (agents (bus (snd s1))) = Some (inbox me)
    /\ fst (BaseAgent.stop s1) = Returned tt
    /\ running (fst s2) = false
    /\ agents (bus (snd s2)) = agents (bus w)
    /\ message_history (bus (snd s2)) = message_history (bus w)
    /\ queues (snd s2) = queues w
    /\ (forall m, to m = agent_id me -> fst (send_message m (snd s2)) = false)
    /\ BaseAgent._process_messages_step s2 = (Returned tt, s2).
Proof.
  intros X cls me w Hg s1 s2. subst s1 s2.
  unfold BaseAgent.start, BaseAgent.stop.
  unfold bind, self, on_self, on_world, modify, lift, ret. simpl.
  unfold unregister_agent, register_agent, Dict.mem. simpl.
  rewrite dict_get_set_same. simpl.
  rewrite (dict_del_set_fresh (agent_id me) (inbox me) _ Hg).
  split; [reflexivity|]. split; [reflexivity|].
  split; [reflexivity|].
  split; [reflexivity|]. split; [reflexivity|]. split; [reflexivity|].
  split; [reflexivity|]. split; [reflexivity|].
  split; [|reflexivity].
  intros m Hm. unfold send_message. simpl. now rewrite Hm, Hg.
Qed.

Lemma start_stop_round_trip_witness :
  Dict.get (agent_id sample_manager) (agents (bus sample_world)) = None
  /\ agents (bus (snd (snd (BaseAgent.stop
                              (snd (BaseAgent.start (sample_manager, sample_world)))))))
     = agents (bus sample_world).
Proof.
  split; [reflexivity|].
  exact (proj1 (proj2 (proj2 (proj2 (proj2 (proj2
           (start_stop_round_trip (manager_class (fun _ => "")) sample_manager
                                  sample_world eq_refl))))))).
Defined.

(** ** The agent runtime: where the reply goes *)

Section Replies.

Context {X : Type} {cls : AgentClass X}.

(** X12: the reply to a task message (payload a mapping) is handed to the
    bus and the answer of the bus is not looked at.  If the sender of the
    task is registered when [process_task] is over, one message is added to
    its inbox and to the history: a RESULT if [process_task] returned, an
    ERROR if it raised, correlated to the task message.  If the sender is
    not registered, the reply is lost: no queue and no history entry
    changes, and the agent is idle all the same. *)
Theorem task_reply_delivered_or_lost :
  forall (me : Agent X) (m : Message) (w : World) (d : list (string * PyVal))
         (o : Outcome PyVal) (a1 : Agent X) (w1 : World),
    content m = PDict d ->
    process_task (PDict d) (set_current_task (task_id_of d) (set_state "busy" me), w)
    = (o, (a1, w1)) ->
    let a' := fst (snd (BaseAgent._handle_task_message m (me, w))) in
    let w' := snd (snd (BaseAgent._handle_task_message m (me, w))) in
    state a' = "idle"
    /\ (Dict.get (from_ m) (agents (bus w1)) = None ->
          queues w' = queues w1 /\ bus w' = bus w1)
    /\ (forall i, Dict.get (from_ m) (agents (bus w1)) = Some i ->
          exists answer,
            queues w' i = queues w1 i ++ [answer]
            /\ message_history (bus w') = message_history (bus w1) ++ [answer]
            /\ message_type answer
               = match o with Returned _ => RESULT | Raised _ => ERROR end
            /\ to answer = from_ m
            /\ from_ answer = agent_id a1
            /\ correlation_id answer = Some (message_id m)).
Proof.
  intros me m w d o a1 w1 Hc Hp a' w'. subst a' w'.
  rewrite (handle_task_message_protocol me m w Hc). cbv zeta. rewrite Hp.
  unfold after_send, send_message.
  destruct o as [r|e]; simpl.
  - split; [reflexivity|]. split.
    + intros Hg. rewrite Hg. split; reflexivity.
    + intros i Hg. rewrite Hg. simpl. rewrite Nat.eqb_refl.
      eexists. repeat split.
  - split; [reflexivity|]. split.
    + intros Hg. rewrite Hg. split; reflexivity.
    + intros i Hg. rewrite Hg. simpl. rewrite Nat.eqb_refl.
      eexists. repeat split.
Qed.

End Replies.

Lemma task_reply_delivered_or_lost_witness :
  content (sample_message "research_agent" "coordinator" TASK
             (PDict [("task_id", PStr "t0")]) "m0")
  = PDict [("task_id", PStr "t0")]
  /\ bus (snd (snd (BaseAgent._handle_task_message (cls := echo_class)
                      (sample_message "research_agent" "coordinator" TASK
                         (PDict [("task_id", PStr "t0")]) "m0")
                      (sample_agent, sample_world))))
     = bus sample_world.
Proof.
  split; [reflexivity|].
  exact (proj2 (proj1 (proj2
           (task_reply_delivered_or_lost (cls := echo_class) sample_agent
              (sample_message "research_agent" "coordinator" TASK
                 (PDict [("task_id", PStr "t0")]) "m0")
              sample_world eq_refl eq_refl)) eq_refl)).
Defined.

(** ** The manager: routing *)

Lemma decompose_subtasks (d : string) (p : PyVal) :
  Forall is_subtask (ManagerAgent._decompose d p)
  /\ (1 <= List.length (ManagerAgent._decompose d p) <= 3)%nat.
Proof.
  unfold ManagerAgent._decompose.
  destruct (ManagerAgent.any_keyword ManagerAgent.research_keywords d),
           (ManagerAgent.any_keyword ManagerAgent.analysis_keywords d),
           (ManagerAgent.any_keyword ManagerAgent.writing_keywords d);
    simpl; (split; [repeat constructor; eexists; eexists; eexists; reflexivity | lia]).
Qed.

Lemma select_agent_subtask (t desc : string) (p : PyVal) :
  ManagerAgent._select_agent (ManagerAgent.subtask t desc p)
  = Returned (match Dict.get t [("research", "research_agent");
                                ("analysis", "analyzer_agent");
                                ("writing", "writer_agent");
                                ("general", "research_agent")] with
              | Some a => a
              | None => "research_agent"
              end).
Proof. reflexivity. Qed.

(** X13: [_decompose] gives between one and three subtasks, and
    [_select_agent] routes each of them, without raising, to one of the
    three specialists; a subtask of a type that is not in the table goes to
    the research agent, and a value without a "type" raises a [KeyError]. *)
Theorem subtasks_are_routed :
  forall (d : string) (p : PyVal),
    (1 <= List.length (ManagerAgent._decompose d p) <= 3)%nat
    /\ Forall (fun st => exists a, ManagerAgent._select_agent st = Returned a
                                   /\ In a specialists)
              (ManagerAgent._decompose d p)
    /\ (forall t desc,
          ~ In t ["research"; "analysis"; "writing"; "general"] ->
          ManagerAgent._select_agent (ManagerAgent.subtask t desc p)
          = Returned "research_agent")
    /\ ManagerAgent._select_agent (PDict [("description", PStr d); ("parameters", p)])
       = Raised "'type'".
Proof.
  intros d p. split; [apply decompose_subtasks|]. split; [|split].
  - unfold ManagerAgent._decompose, specialists.
    destruct (ManagerAgent.any_keyword ManagerAgent.research_keywords d),
             (ManagerAgent.any_keyword ManagerAgent.analysis_keywords d),
             (ManagerAgent.any_keyword ManagerAgent.writing_keywords d);
      simpl; repeat constructor; eexists; (split; [reflexivity | simpl; tauto]).
  - intros t desc Hn. rewrite select_agent_subtask. simpl.
    destruct (String.eqb_spec t "research"); [subst; simpl in Hn; tauto|].
    destruct (String.eqb_spec t "analysis"); [subst; simpl in Hn; tauto|].
    destruct (String.eqb_spec t "writing"); [subst; simpl in Hn; tauto|].
    destruct (String.eqb_spec t "general"); [subst; simpl in Hn; tauto|].
    reflexivity.
  - reflexivity.
Qed.

(** ** The manager: dispatch *)

Lemma dict_get_set_keeps {V} (k k0 : string) (v : V) (d : list (string * V)) :
  Dict.get k0 d = Some v -> Dict.get k0 (Dict.set k v d) = Some v.
Proof.
  intros H. destruct (String.eqb_spec k0 k) as [->|Hne].
  - apply dict_get_set_same.
  - now rewrite dict_get_set_other.
Qed.

Lemma subtask_ids_from_S (w : World) (d n : nat) :
  subtask_ids_from w d (S n) = uuid4 w d :: subtask_ids_from w (d + 2) n.
Proof.
  unfold subtask_ids_from. cbn [seq map]. rewrite Nat.mul_0_r, Nat.add_0_r.
  f_equal. rewrite <- seq_shift, map_map.
  apply map_ext. intros k. f_equal. lia.
Qed.

(** The TASK message for a subtask with the id [id] *)
Lemma dispatch_subtasks_cons (task_id0 : PyVal) (t desc : string) (p : PyVal)
    (rest : list PyVal) (ids0 : list string) (me : Agent ManagerState) (w : World) :
  ManagerAgent.dispatch_subtasks task_id0 (ManagerAgent.subtask t desc p :: rest) ids0
    (me, w)
  = let id := uuid4 w (draws w) in
    let msg :=
      mkMessage (match Dict.get t [("research", "research_agent");
                                   ("analysis", "analyzer_agent");
                                   ("writing", "writer_agent");
                                   ("general", "research_agent")] with
                 | Some a => a
                 | None => "research_agent"
                 end)
                (agent_id me) TASK
                (PDict [("task_id", PStr id); ("description", PStr desc);
                        ("task_type", PStr t); ("parameters", p)])
                (uuid4 w (S (draws w))) None (datetime_now w (S (draws w))) [] in
    ManagerAgent.dispatch_subtasks task_id0 rest (ids0 ++ [id])
      (set_ext (mkManagerState (pending_results (ext me))
                               (Dict.set id task_id0 (subtask_mapping (ext me)))) me,
       snd (send_message msg (set_draws (S (S (draws w))) w))).
Proof.
  cbn [ManagerAgent.dispatch_subtasks].
  unfold bind at 1, of_outcome. rewrite select_agent_subtask.
  unfold BaseAgent.send_message.
  unfold bind, of_outcome, on_world, on_self, modify, lift, self, fresh_uuid, new_Message.
  simpl.
  destruct (send_message _ _) as [b w1]. reflexivity.
Qed.

Lemma dispatch_subtasks_spec (task_id0 : PyVal) :
  forall (subtasks : list PyVal),
    Forall is_subtask subtasks ->
    forall (ids0 : list string) (me : Agent ManagerState) (w : World),
      exists me' w',
        ManagerAgent.dispatch_subtasks task_id0 subtasks ids0 (me, w)
        = (Returned (ids0 ++ subtask_ids_from w (draws w) (List.length subtasks)),
           (me', w'))
        /\ draws w' = (draws w + 2 * List.length subtasks)%nat
        /\ uuid4 w' = uuid4 w
        /\ set_ext (ext me) me' = me
        /\ pending_results (ext me') = pending_results (ext me)
        /\ (forall id, Dict.get id (subtask_mapping (ext me)) = Some task_id0 ->
                       Dict.get id (subtask_mapping (ext me')) = Some task_id0)
        /\ (forall id, In id (subtask_ids_from w (draws w) (List.length subtasks)) ->
                       Dict.get id (subtask_mapping (ext me')) = Some task_id0)
        /\ history_extends w w'
        /\ agents (bus w') = agents (bus w).
Proof.
  induction subtasks as [|st subtasks IH]; intros Hall ids0 me w.
  - exists me, w. simpl. unfold ret. rewrite app_nil_r, Nat.add_0_r.
    split; [reflexivity|]. split; [reflexivity|]. split; [reflexivity|].
    split; [destruct me; reflexivity|]. split; [reflexivity|].
    split; [intros id Hg; exact Hg|]. split; [intros id []|].
    split; [apply history_extends_refl | reflexivity].
  - inversion Hall as [|? ? (t & desc & p & ->) Hrest]; subst.
    rewrite dispatch_subtasks_cons. cbv zeta.
    set (msg := mkMessage _ (agent_id me) TASK _ _ None _ []).
    set (me1 := set_ext _ me).
    pose proof (send_message_extends msg (set_draws (S (S (draws w))) w)) as [Hext Hag].
    assert (Hd1 : draws (snd (send_message msg (set_draws (S (S (draws w))) w)))
                  = S (S (draws w))
                  /\ uuid4 (snd (send_message msg (set_draws (S (S (draws w))) w)))
                     = uuid4 w).
    { unfold send_message. destruct (Dict.get (to msg) _); split; reflexivity. }
    destruct Hd1 as [Hd1 Hu1].
    set (w1 := snd (send_message msg (set_draws (S (S (draws w))) w))) in *.
    destruct (IH Hrest (ids0 ++ [uuid4 w (draws w)]) me1 w1)
      as (me' & w' & Heq & Hd & Hu & Hme & Hpend & Hkeep & Hnew & Hh & Ha).
    exists me', w'.
    rewrite Heq. cbn [List.length]. rewrite subtask_ids_from_S.
    assert (Hids : subtask_ids_from w1 (draws w1) (List.length subtasks)
                   = subtask_ids_from w (draws w + 2) (List.length subtasks)).
    { unfold subtask_ids_from. rewrite Hu1, Hd1.
      apply map_ext. intros k. f_equal. lia. }
    rewrite Hids in *.
    split; [now rewrite <- app_assoc|].
    split; [rewrite Hd, Hd1; lia|].
    split; [congruence|].
    split.
    { clear - Hme. subst me1. destruct me, me'. unfold set_ext in *. cbn in *.
      injection Hme as -> -> -> -> -> -> ->. reflexivity. }
    split; [rewrite Hpend; reflexivity|].
    split.
    { intros id Hg. apply Hkeep. subst me1. cbn. now apply dict_get_set_keeps. }
    split.
    { intros id [<-|Hin]; [|now apply Hnew].
      apply Hkeep. subst me1. cbn. apply dict_get_set_same. }
    split.
    { eapply history_extends_trans; [|exact Hh].
      destruct Hext as [added Hadd]. exists added. exact Hadd. }
    rewrite Ha, Hag. reflexivity.
Qed.

Lemma subtask_messages_ext (sender : string) (w w1 : World) :
  uuid4 w1 = uuid4 w -> datetime_now w1 = datetime_now w ->
  forall (subtasks : list PyVal) (d : nat),
    subtask_messages sender w1 d subtasks = subtask_messages sender w d subtasks.
Proof.
  intros Hu Ht. induction subtasks as [|st subtasks IH]; intros d; simpl; [reflexivity|].
  rewrite IH. unfold subtask_message. now rewrite Hu, Ht.
Qed.

(** What the dispatch hands to the bus, and where it ends up *)
Lemma dispatch_subtasks_sends (task_id0 : PyVal) :
  forall (subtasks : list PyVal),
    Forall is_subtask subtasks ->
    forall (ids0 : list string) (me : Agent ManagerState) (w : World) r me' w',
      ManagerAgent.dispatch_subtasks task_id0 subtasks ids0 (me, w) = (r, (me', w')) ->
      let msgs := subtask_messages (agent_id me) w (draws w) subtasks in
      message_history (bus w')
      = message_history (bus w) ++ filter (to_registered (agents (bus w))) msgs
      /\ forall q, queues w' q
                   = queues w q ++ filter (to_inbox (agents (bus w)) q) msgs.
Proof.
  induction subtasks as [|st subtasks IH]; intros Hall ids0 me w r me' w' H.
  - simpl in H. unfold ret in H. injection H as <- <- <-. simpl.
    split; [now rewrite app_nil_r | intros q; now rewrite app_nil_r].
  - inversion Hall as [|? ? (t & desc & p & ->) Hrest]; subst.
    rewrite dispatch_subtasks_cons in H. cbv zeta in H.
    change (mkMessage _ (agent_id me) TASK _ _ None _ [])
      with (subtask_message (agent_id me) w (draws w) (ManagerAgent.subtask t desc p)) in H.
    set (msg := subtask_message (agent_id me) w (draws w) (ManagerAgent.subtask t desc p))
      in *.
    set (w0 := set_draws (S (S (draws w))) w) in *.
    assert (Hsend : agents (bus (snd (send_message msg w0))) = agents (bus w)
                    /\ uuid4 (snd (send_message msg w0)) = uuid4 w
                    /\ datetime_now (snd (send_message msg w0)) = datetime_now w
                    /\ draws (snd (send_message msg w0)) = (draws w + 2)%nat
                    /\ message_history (bus (snd (send_message msg w0)))
                       = message_history (bus w)
                         ++ filter (to_registered (agents (bus w))) [msg]
                    /\ forall q, queues (snd (send_message msg w0)) q
                                 = queues w q ++ filter (to_inbox (agents (bus w)) q) [msg]).
    { unfold send_message, to_registered, to_inbox. cbn [filter].
      change (agents (bus w0)) with (agents (bus w)).
      destruct (Dict.get (to msg) (agents (bus w))) as [q0|]; simpl.
      - repeat split; try lia. intros q. rewrite Nat.eqb_sym.
        destruct (q0 =? q)%nat; [reflexivity | now rewrite app_nil_r].
      - repeat split; try lia; [now rewrite app_nil_r|].
        intros q. now rewrite app_nil_r. }
    destruct Hsend as (Ha & Hu & Ht & Hd & Hh & Hq).
    set (w1 := snd (send_message msg w0)) in *.
    destruct (IH Hrest _ _ w1 _ _ _ H) as [Hh' Hq'].
    cbn [agent_id set_ext] in Hh', Hq'.
    rewrite (@subtask_messages_ext (agent_id me) w w1 Hu Ht), Hd, Ha in Hh', Hq'.
    cbn [subtask_messages]. fold msg. split.
    + rewrite Hh', Hh, <- app_assoc, <- filter_app. reflexivity.
    + intros q. rewrite Hq', Hq, <- app_assoc, <- filter_app. reflexivity.
Qed.

Lemma subtask_messages_ids (sender : string) (w : World) :
  forall (subtasks : list PyVal) (d : nat),
    map (fun m => py_item (content m) "task_id") (subtask_messages sender w d subtasks)
    = map (fun id => Returned (PStr id)) (subtask_ids_from w d (List.length subtasks)).
Proof.
  induction subtasks as [|st subtasks IH]; intros d; [reflexivity|].
  cbn [subtask_messages List.length map]. rewrite subtask_ids_from_S.
  cbn [map]. rewrite IH. reflexivity.
Qed.

(** X14: the manager gives every subtask that [_decompose] built an id of
    its own (the subtask takes two draws of the identifier source: its id
    and the id of its message) and hands one TASK message for it to the bus:
    from the manager, to the agent [_select_agent] chooses, which is one of
    the specialists, with the id, the description, the type and the
    parameters of the subtask as payload.  The answer of the bus is not
    looked at: the messages to registered agents, and only they, are added
    to the history and to the inboxes of these agents, in the order of the
    subtasks; the id of a subtask is returned and recorded under the id of
    the parent task also when its agent is not registered.  The registry
    stays as it is. *)
Theorem dispatch_gives_every_subtask_an_id :
  forall (task_id0 : PyVal) (d : string) (p : PyVal) (me : Agent ManagerState) (w : World),
    let subtasks := ManagerAgent._decompose d p in
    let ids := subtask_ids_from w (draws w) (List.length subtasks) in
    let msgs := subtask_messages (agent_id me) w (draws w) subtasks in
    exists me' w',
      ManagerAgent.dispatch_subtasks task_id0 subtasks [] (me, w)
      = (Returned ids, (me', w'))
      /\ List.length ids = List.length subtasks
      /\ draws w' = (draws w + 2 * List.length subtasks)%nat
      /\ (forall id, In id ids ->
                     Dict.get id (subtask_mapping (ext me')) = Some task_id0)
      /\ set_ext (ext me) me' = me
      /\ history_extends w w'
      /\ agents (bus w') = agents (bus w)
      /\ message_history (bus w')
         = message_history (bus w) ++ filter (to_registered (agents (bus w))) msgs
      /\ (forall q, queues w' q
                    = queues w q ++ filter (to_inbox (agents (bus w)) q) msgs)
      /\ Forall (fun m => message_type m = TASK /\ from_ m = agent_id me
                          /\ In (to m) specialists) msgs
      /\ map (fun m => py_item (content m) "task_id") msgs
         = map (fun id => Returned (PStr id)) ids.
Proof.
  intros task_id0 d p me w subtasks ids msgs.
  destruct (dispatch_subtasks_spec task_id0 (proj1 (decompose_subtasks d p)) [] me w)
    as (me' & w' & Heq & Hd & _ & Hme & _ & _ & Hnew & Hh & Ha).
  destruct (@dispatch_subtasks_sends task_id0 _ (proj1 (decompose_subtasks d p))
              [] me w _ me' w' Heq) as [Hhist Hq].
  exists me', w'. subst subtasks ids msgs.
  split; [exact Heq|].
  split; [unfold subtask_ids_from; now rewrite length_map, length_seq|].
  split; [exact Hd|]. split; [exact Hnew|]. split; [exact Hme|].
  split; [exact Hh|]. split; [exact Ha|]. split; [exact Hhist|]. split; [exact Hq|].
  split; [|apply subtask_messages_ids].
  assert (Hall : forall (l : list PyVal) (n : nat),
             Forall is_subtask l ->
             Forall (fun m => message_type m = TASK /\ from_ m = agent_id me
                              /\ In (to m) specialists)
                    (subtask_messages (agent_id me) w n l)).
  { induction l as [|st l IH]; intros n Hl; cbn [subtask_messages]; constructor.
    - inversion Hl as [|? ? (t & desc & p0 & ->) _]; subst.
      split; [reflexivity|]. split; [reflexivity|].
      unfold subtask_message. cbn [to]. rewrite select_agent_subtask.
      unfold specialists.
      destruct (Dict.get t _) as [a|] eqn:E; [|simpl; tauto].
      simpl in E.
      repeat match type of E with
             | (if ?c then _ else _) = _ => destruct c
             end;
        try discriminate; injection E as <-; simpl; tauto.
    - apply IH. now inversion Hl. }
  apply Hall. apply decompose_subtasks.
Qed.

(** With no agent registered at all the two subtasks of the sample
    description still get their ids, and nothing reaches the history. *)
Example dispatch_without_agents :
  let w0 := mkWorld sample_uuid4 (fun n => Z.of_nat n) (fun _ => []) 0 0 (fun _ => [])
                    (mkBus [] []) in
  let r := ManagerAgent.dispatch_subtasks (PStr "t")
             (ManagerAgent._decompose "Research and write a report" (PDict []))
             [] (sample_manager, w0) in
  fst r = Returned ["uuid-0"; "uuid-2"]
  /\ message_history (bus (snd (snd r))) = [].
Proof. split; reflexivity. Qed.

(** ** The manager: what the gather loop records *)

Lemma set_remove_not_in (x : string) (s : list string) : ~ In x (set_remove x s).
Proof.
  unfold set_remove. intros H. apply filter_In in H. destruct H as [_ H].
  now rewrite String.eqb_refl in H.
Qed.

Lemma str_in_In (x : string) (xs : list string) : str_in x xs = true <-> In x xs.
Proof.
  unfold str_in. rewrite existsb_exists. split.
  - intros (y & Hy & He). apply String.eqb_eq in He. now subst.
  - intros H. exists x. split; [exact H | apply String.eqb_refl].
Qed.

(** X15: a RESULT message at the head of the inbox whose payload is a
    mapping with the id of a remaining subtask is recorded: its "result"
    (or [None], when the key is missing) is stored under the id, the id is
    no longer waited for, and the round sleeps one tick; a second RESULT for
    the same id would be dropped, the first answer stays. *)
Theorem gather_step_records :
  forall (me : Agent ManagerState) (w : World) (m : Message) (rest : list Message)
         (remaining : list string) (results : list (string * PyVal))
         (d : list (string * PyVal)) (id : string),
    queues w (inbox me) = m :: rest ->
    message_type m = RESULT ->
    content m = PDict d ->
    task_id_of d = PStr id ->
    In id remaining ->
    ManagerAgent.gather_step remaining results (me, w)
    = (Returned (set_remove id remaining,
                 Dict.set id (match Dict.get "result" d with
                              | Some v => v
                              | None => PNone
                              end) results),
       (me, sleep_tick (inbox_popped me w)))
    /\ ~ In id (set_remove id remaining)
    /\ dropped (set_remove id remaining) m.
Proof.
  intros me w m rest remaining results d id Hq Ht Hc Hid Hin.
  split; [|split].
  - unfold ManagerAgent.gather_step, inbox_popped.
    unfold bind, self, get_state, on_world, lift, ret, of_outcome. simpl.
    rewrite Hq, Ht, Hc. simpl. unfold py_get, py_get_default.
    fold (task_id_of d). rewrite Hid. simpl.
    apply str_in_In in Hin. rewrite Hin. reflexivity.
  - apply set_remove_not_in.
  - right. exists d. split; [exact Hc|]. rewrite Hid. simpl.
    destruct (str_in id (set_remove id remaining)) eqn:E; [|reflexivity].
    apply str_in_In in E. now apply set_remove_not_in in E.
Qed.

Lemma gather_step_records_witness :
  queues (sample_manager_world (sample_result "s1" (PInt 42))) (inbox sample_manager)
  = [sample_result "s1" (PInt 42)]
  /\ fst (ManagerAgent.gather_step ["s1"; "s2"] []
            (sample_manager, sample_manager_world (sample_result "s1" (PInt 42))))
     = Returned (["s2"], [("s1", PInt 42)]).
Proof.
  split; [reflexivity|].
  rewrite (proj1 (gather_step_records sample_manager
                    (sample_manager_world (sample_result "s1" (PInt 42)))
                    ["s1"; "s2"] [] eq_refl eq_refl eq_refl eq_refl
                    (or_introl eq_refl))).
  reflexivity.
Defined.

Lemma send_message_queue_grows (m : Message) (w : World) (q : nat) :
  (List.length (queues w q) <= List.length (queues (snd (send_message m w)) q))%nat.
Proof.
  unfold send_message. destruct (Dict.get (to m) (agents (bus w))) as [i|]; simpl;
    [|apply Nat.le_refl].
  destruct (q =? i)%nat; [rewrite length_app; lia | apply Nat.le_refl].
Qed.

Lemma sleep_tick_queue_grows (w : World) (q : nat) :
  (List.length (queues w q) <= List.length (queues (sleep_tick w) q))%nat.
Proof.
  unfold sleep_tick. simpl.
  generalize (others w (clock w)). intros msgs. revert w.
  induction msgs as [|m msgs IH]; intros w; simpl; [apply Nat.le_refl|].
  etransitivity; [apply (send_message_queue_grows m w q) | apply IH].
Qed.

Lemma dict_keys_set_incl {V} (k : string) (v : V) (d : list (string * V)) :
  incl (Dict.keys (Dict.set k v d)) (k :: Dict.keys d).
Proof.
  rewrite dict_keys_set. destruct (Dict.mem k d).
  - apply incl_tl, incl_refl.
  - intros x Hx. apply in_app_or in Hx. destruct Hx as [Hx|[<-|[]]];
      [now right | now left].
Qed.

(** What one round of the gather loop may do *)
Lemma gather_step_inv (me : Agent ManagerState) (w : World)
    (remaining : list string) (results : list (string * PyVal)) r s' :
  ManagerAgent.gather_step remaining results (me, w) = (r, s') ->
  fst s' = me
  /\ match r with
     | Returned (remaining', results') =>
         incl remaining' remaining
         /\ incl (Dict.keys results') (Dict.keys results ++ remaining)
         /\ clock (snd s') = S (clock w)
         /\ (List.length (queues w (inbox me))
             <= S (List.length (queues (snd s') (inbox me))))%nat
     | Raised _ => True
     end.
Proof.
  unfold ManagerAgent.gather_step.
  unfold bind, self, get_state, on_world, lift, ret, of_outcome. simpl.
  destruct (queues w (inbox me)) as [|m rest] eqn:Hq; simpl.
  - intros [= <- <-]. simpl. split; [reflexivity|].
    split; [apply incl_refl|]. split; [apply incl_appl, incl_refl|].
    split; [apply clock_sleep_tick|].
    pose proof (sleep_tick_queue_grows w (inbox me)). rewrite Hq in H. simpl in H. lia.
  - set (wp := set_queues _ w).
    assert (Hlen : (List.length (m :: rest)
                    <= S (List.length (queues (sleep_tick wp) (inbox me))))%nat).
    { pose proof (sleep_tick_queue_grows wp (inbox me)) as H.
      subst wp. simpl in H. rewrite Nat.eqb_refl in H. simpl. lia. }
    assert (Hkeep : forall rem res,
               incl rem remaining ->
               incl (Dict.keys res) (Dict.keys results ++ remaining) ->
               (Returned (rem, res), (me, sleep_tick wp)) = (r, s') ->
               fst s' = me
               /\ match r with
                  | Returned (remaining', results') =>
                      incl remaining' remaining
                      /\ incl (Dict.keys results') (Dict.keys results ++ remaining)
                      /\ clock (snd s') = S (clock w)
                      /\ (List.length (m :: rest)
                          <= S (List.length (queues (snd s') (inbox me))))%nat
                  | Raised _ => True
                  end).
    { intros rem res H1 H2 [= <- <-]. simpl. split; [reflexivity|].
      split; [exact H1|]. split; [exact H2|]. split; [reflexivity | exact Hlen]. }
    destruct (message_type m);
      try (apply Hkeep; [apply incl_refl | apply incl_appl, incl_refl]).
    destruct (py_get (content m) "task_id") as [tid|e]; simpl;
      [|intros [= <- <-]; split; [reflexivity | exact I]].
    destruct (py_in_strs tid remaining) as [[id|]|e] eqn:Hin; simpl;
      [| apply Hkeep; [apply incl_refl | apply incl_appl, incl_refl]
       | intros [= <- <-]; split; [reflexivity | exact I]].
    destruct (py_get (content m) "result") as [v|e]; simpl;
      [|intros [= <- <-]; split; [reflexivity | exact I]].
    apply Hkeep; [apply set_remove_incl|].
    assert (Hid : In id remaining).
    { destruct tid; simpl in Hin; try discriminate.
      destruct (str_in s remaining) eqn:E; [|discriminate].
      injection Hin as <-. now apply str_in_In. }
    intros x Hx. apply dict_keys_set_incl in Hx.
    apply in_or_app. destruct Hx as [<-|Hx]; [now right | now left].
Qed.

Lemma gather_loop_inv (me : Agent ManagerState) :
  forall (left : nat) (remaining : list string) (results : list (string * PyVal))
         (w : World) res s',
    ManagerAgent.gather_loop left remaining results (me, w) = (Returned res, s') ->
    fst s' = me
    /\ incl (Dict.keys res) (Dict.keys results ++ remaining)
    /\ (clock (snd s') <= clock w + left)%nat
    /\ (List.length (queues w (inbox me))
        <= List.length (queues (snd s') (inbox me)) + left)%nat.
Proof.
  induction left as [|left IH]; intros remaining results w res s' H; simpl in H.
  - unfold ret in H. injection H as <- <-. simpl.
    split; [reflexivity|]. split; [apply incl_appl, incl_refl|]. lia.
  - destruct remaining as [|id0 remaining0].
    { unfold ret in H. injection H as <- <-. simpl.
      split; [reflexivity|]. split; [apply incl_appl, incl_refl|]. lia. }
    unfold bind in H.
    destruct (ManagerAgent.gather_step (id0 :: remaining0) results (me, w))
      as [[[rem1 res1]|e] [a1 w1]] eqn:Hs; [|discriminate].
    destruct (gather_step_inv _ _ _ _ Hs) as (Hme & Hrem & Hkeys & Hclock & Hlen).
    simpl in *. subst a1.
    destruct (IH _ _ _ _ _ H) as (Hme' & Hkeys' & Hclock' & Hlen').
    split; [exact Hme'|]. split; [|lia].
    intros x Hx. apply Hkeys' in Hx. apply in_app_or in Hx.
    destruct Hx as [Hx|Hx]; [now apply Hkeys | apply in_or_app; right; now apply Hrem].
Qed.

(** X16: with no ids to wait for, or a timeout of zero, [_gather_results]
    returns the empty dict at once, whatever lies in the inbox.  And
    whenever it returns, every key of the result is one of the subtask ids
    it was asked to wait for, the agent is as before and at most [timeout]
    ticks have passed; if the message loop of the agent is not running, so
    that the gather loop is the only reader of the inbox, at most [timeout]
    messages have been taken off the inbox: the loop takes one message per
    tick, and what still lies in the inbox at the deadline is left there. *)
Theorem gather_results_bounds :
  forall (me : Agent ManagerState) (w : World) (subtask_ids : list string) (timeout : nat),
    ManagerAgent._gather_results [] timeout (me, w) = (Returned [], (me, w))
    /\ ManagerAgent._gather_results subtask_ids 0 (me, w) = (Returned [], (me, w))
    /\ forall (res : list (string * PyVal)) (s' : Agent ManagerState * World),
         ManagerAgent._gather_results subtask_ids timeout (me, w) = (Returned res, s') ->
         fst s' = me
         /\ incl (Dict.keys res) subtask_ids
         /\ (clock (snd s') <= clock w + timeout)%nat
         /\ (running me = false ->
             (List.length (queues w (inbox me))
              <= List.length (queues (snd s') (inbox me)) + timeout)%nat).
Proof.
  intros me w subtask_ids timeout.
  split; [destruct timeout; reflexivity|]. split; [reflexivity|].
  intros res s' H.
  unfold ManagerAgent._gather_results in *.
  destruct (gather_loop_inv _ _ _ _ _ H) as (Hme & Hkeys & Hclock & Hlen).
  split; [exact Hme|]. split.
  - intros x Hx. apply Hkeys in Hx. simpl in Hx. now apply set_of_In.
  - split; [exact Hclock | intros _; exact Hlen].
Qed.

Lemma gather_results_bounds_witness :
  ManagerAgent._gather_results ["s1"] 1
    (sample_manager, sample_manager_world (sample_result "s1" (PInt 42)))
  = (Returned [("s1", PInt 42)],
     (sample_manager,
      sleep_tick (inbox_popped sample_manager
                    (sample_manager_world (sample_result "s1" (PInt 42))))))
  /\ incl (Dict.keys [("s1", PInt 42)]) ["s1"]
  /\ running sample_manager = false.
Proof.
  assert (H : ManagerAgent._gather_results ["s1"] 1
                (sample_manager, sample_manager_world (sample_result "s1" (PInt 42)))
              = (Returned [("s1", PInt 42)],
                 (sample_manager,
                  sleep_tick (inbox_popped sample_manager
                                (sample_manager_world (sample_result "s1" (PInt 42)))))))
    by reflexivity.
  split; [exact H|]. split; [|reflexivity].
  exact (proj1 (proj2 (proj2 (proj2 (@gather_results_bounds
                                       sample_manager
                                       (sample_manager_world (sample_result "s1" (PInt 42)))
                                       ["s1"] 1%nat)) _ _ H))).
Defined.

(** Two results wait in the inbox and the time is one tick: only the
    first one is taken. *)
Example gather_takes_one_message_per_tick :
  let w0 := mkWorld sample_uuid4 (fun n => Z.of_nat n) (fun _ => []) 0 0
              (fun q => if (q =? 2)%nat
                        then [sample_result "s1" (PInt 1); sample_result "s2" (PInt 2)]
                        else [])
              (mkBus [("manager", 2%nat)] []) in
  fst (ManagerAgent._gather_results ["s1"; "s2"] 1 (sample_manager, w0))
  = Returned [("s1", PInt 1)]
  /\ fst (ManagerAgent._gather_results ["s1"; "s2"] 2 (sample_manager, w0))
     = Returned [("s1", PInt 1); ("s2", PInt 2)].
Proof. split; reflexivity. Qed.

(** ** The manager: synthesis *)

Lemma filter_filter_and {A} (f g : A -> bool) (l : list A) :
  filter f (filter g l) = filter (fun x => g x && f x) l.
Proof.
  induction l as [|x l IH]; simpl; [reflexivity|].
  destruct (g x); simpl; [destruct (f x); now rewrite IH | exact IH].
Qed.

(** X17: [_synthesize] counts all results and hands them on as they
    are, and it lists every result that is a dict in one bucket at most, the
    first of "research", "analysis" and "content" whose word (for
    "analysis" also "insights") occurs in the printed result, case ignored;
    a bucket that would be empty is not in the output at all, and results
    that are no dicts are in no bucket. *)
Theorem synthesize_buckets :
  forall (py_str : PyVal -> string) (results : list (string * PyVal)),
    let out := ManagerAgent._synthesize py_str results in
    py_item out "subtask_count" = Returned (PInt (Z.of_nat (List.length results)))
    /\ py_item out "subtask_results" = Returned (PDict results)
    /\ py_item out "status" = Returned (PStr "completed")
    /\ forall key, In key ["research"; "analysis"; "content"] ->
         py_item out key
         = match bucket_members py_str key results with
           | [] => Raised ("'" ++ key ++ "'")%string
           | members => Returned (PList members)
           end.
Proof.
  intros py_str results out. subst out. unfold ManagerAgent._synthesize. cbv zeta.
  match goal with
  | |- context [match ?l with [] => [] | _ :: _ => [("research", _)] end] =>
      assert (H1 : l = bucket_members py_str "research" results)
  end.
  { unfold bucket_members. rewrite ?filter_filter_and. apply filter_ext.
    intros r. unfold bucket. destruct r; try reflexivity. simpl.
    destruct (str_contains "research" _); [reflexivity|].
    destruct (str_contains "analysis" _ || str_contains "insights" _); [reflexivity|].
    destruct (str_contains "content" _); reflexivity. }
  match goal with
  | |- context [match ?l with [] => [] | _ :: _ => [("analysis", _)] end] =>
      assert (H2 : l = bucket_members py_str "analysis" results)
  end.
  { unfold bucket_members. rewrite ?filter_filter_and. apply filter_ext.
    intros r. unfold bucket. destruct r; try reflexivity. simpl.
    destruct (str_contains "research" _); [reflexivity|].
    destruct (str_contains "analysis" _ || str_contains "insights" _); [reflexivity|].
    destruct (str_contains "content" _); reflexivity. }
  match goal with
  | |- context [match ?l with [] => [] | _ :: _ => [("content", _)] end] =>
      assert (H3 : l = bucket_members py_str "content" results)
  end.
  { unfold bucket_members. rewrite ?filter_filter_and. apply filter_ext.
    intros r. unfold bucket. destruct r; try reflexivity. simpl.
    destruct (str_contains "research" _); [reflexivity|].
    destruct (str_contains "analysis" _ || str_contains "insights" _); [reflexivity|].
    destruct (str_contains "content" _); reflexivity. }
  rewrite H1, H2, H3.
  split; [reflexivity|]. split; [reflexivity|]. split; [reflexivity|].
  intros key [<-|[<-|[<-|[]]]];
    destruct (bucket_members py_str "research" results),
             (bucket_members py_str "analysis" results),
             (bucket_members py_str "content" results);
    reflexivity.
Qed.

(** ** The manager: tasks as a whole *)

(** X18: [ManagerAgent.process_task] raises, and sends nothing, when the
    task data is no mapping (nothing at all has happened then) or when its
    description is no string (only the default task id has been drawn). *)
Theorem manager_rejects_malformed_task :
  forall (py_str : PyVal -> string) (task_data : PyVal)
         (me : Agent ManagerState) (w : World),
    ((forall d, task_data <> PDict d) ->
       ManagerAgent.process_task py_str task_data (me, w)
       = (Raised (attribute_error task_data "get"), (me, w)))
    /\ (forall d desc,
          task_data = PDict d ->
          Dict.get "description" d = Some desc ->
          (forall s, desc <> PStr s) ->
          ManagerAgent.process_task py_str task_data (me, w)
          = (Raised (attribute_error desc "lower"), (me, set_draws (S (draws w)) w))).
Proof.
  intros py_str task_data me w. split.
  - intros Hn. unfold ManagerAgent.process_task, bind, raise.
    destruct task_data; try reflexivity. exfalso. eapply Hn. reflexivity.
  - intros d desc -> Hd Hs.
    unfold ManagerAgent.process_task.
    unfold bind, raise, on_world, lift, of_outcome, fresh_uuid, py_get_default.
    simpl. rewrite Hd.
    destruct desc; try reflexivity. exfalso. eapply Hs. reflexivity.
Qed.

Lemma manager_rejects_malformed_task_witness :
  (forall d, PInt 3 <> PDict d)
  /\ fst (ManagerAgent.process_task (fun _ => "") (PInt 3) (sample_manager, sample_world))
     = Raised "'int' object has no attribute 'get'".
Proof.
  assert (Hn : forall d, PInt 3 <> PDict d) by discriminate.
  split; [exact Hn|].
  rewrite (proj1 (manager_rejects_malformed_task (fun _ => "") (PInt 3)
                    sample_manager sample_world) Hn).
  reflexivity.
Defined.




(** ** The research agent: the knowledge base *)

Lemma prefix_refl (s : string) : String.prefix s s = true.
Proof.
  induction s as [|c s IH]; simpl; [reflexivity|].
  destruct (ascii_dec c c); [exact IH | contradiction].
Qed.

Lemma str_contains_refl (s : string) : str_contains s s = true.
Proof.
  destruct s as [|c s]; [reflexivity|].
  cbn [str_contains]. now rewrite prefix_refl.
Qed.

Lemma dict_get_In {V} (k : string) (v : V) (d : list (string * V)) :
  Dict.get k d = Some v -> In (k, v) d.
Proof.
  induction d as [|[k' v'] d IH]; simpl; [discriminate|].
  destruct (String.eqb_spec k k') as [->|Hne].
  - intros [= ->]. now left.
  - intros H. right. now apply IH.
Qed.

Lemma find_first {A} (f : A -> bool) (l : list A) (x : A) :
  In x l -> f x = true -> exists y, find f l = Some y /\ In y l /\ f y = true.
Proof.
  intros Hin Hf. destruct (find f l) as [y|] eqn:E.
  - exists y. split; [reflexivity|]. now apply find_some in E.
  - exfalso. pose proof (find_none f l E x Hin) as Hx. congruence.
Qed.

(** X20: after [add_to_knowledge_base(key, data)] the knowledge base
    holds [data] under [key] (one entry per key), and a search for the key,
    in any case of letters, finds an entry: it returns the value of an entry
    of the knowledge base, which is [data] itself when the knowledge base
    was empty before.  The search does not tell queries apart that differ in
    case only, and adding does not touch the bus. *)
Theorem knowledge_base_add_then_search :
  forall (key : string) (data : PyVal) (me : Agent ResearchAgent.KnowledgeBase)
         (w : World) (q : string),
    let s' := snd (ResearchAgent.add_to_knowledge_base key data (me, w)) in
    let kb := ext (fst s') in
    snd s' = w
    /\ Dict.get key kb = Some data
    /\ (lower q = lower key ->
          exists k v, In (k, v) kb
                      /\ ResearchAgent._search_knowledge_base kb (PStr q) = Returned v)
    /\ (lower q = lower key -> ext me = [] ->
          ResearchAgent._search_knowledge_base kb (PStr q) = Returned data)
    /\ (forall q', lower q' = lower q ->
          ResearchAgent._search_knowledge_base kb (PStr q')
          = ResearchAgent._search_knowledge_base kb (PStr q)).
Proof.
  intros key data me w q s' kb. subst s' kb.
  unfold ResearchAgent.KnowledgeBase in *.
  unfold ResearchAgent.add_to_knowledge_base, on_self, modify. cbn [fst snd ext set_ext].
  split; [reflexivity|]. split; [apply dict_get_set_same|]. split; [|split].
  - intros Hq. unfold ResearchAgent._search_knowledge_base. cbv zeta.
    match goal with
    | |- context [find ?f ?l] => destruct (find f l) as [[k v]|] eqn:E
    end.
    + exists k, v. split; [|reflexivity]. now apply find_some in E.
    + exfalso.
      pose proof (find_none _ _ E (key, data)
                    (dict_get_In _ _ (dict_get_set_same key data (ext me)))) as Hx.
      simpl in Hx. rewrite Hq, str_contains_refl in Hx. discriminate.
  - intros Hq He. rewrite He. unfold ResearchAgent._search_knowledge_base. simpl.
    rewrite Hq, str_contains_refl. reflexivity.
  - intros q' Hq'. unfold ResearchAgent._search_knowledge_base. now rewrite Hq'.
Qed.

(** A query that is no string has no [lower]; an empty knowledge base
    answers [None]. *)
Example search_knowledge_base_edges :
  ResearchAgent._search_knowledge_base [] (PStr "climate") = Returned PNone
  /\ ResearchAgent._search_knowledge_base [("climate", PInt 1)] (PInt 7)
     = Raised "'int' object has no attribute 'lower'"
  /\ ResearchAgent._search_knowledge_base [("climate", PInt 1)] (PStr "CLIMATE change")
     = Returned (PInt 1).
Proof. repeat split. Qed.

(** ** The research agent: searching and verifying *)

(** The answer of the knowledge base to a claim or query *)
Lemma search_returns (kb : ResearchAgent.KnowledgeBase) (q : string) :
  exists hit, ResearchAgent._search_knowledge_base kb (PStr q) = Returned hit.
Proof. unfold ResearchAgent._search_knowledge_base. eexists. reflexivity. Qed.








(** ** The research agent: cross-checking *)

Lemma cross_check_loop_inv :
  forall (results : list PyVal) (total : float) (all_data : list PyVal)
         (total' : float) (all_data' : list PyVal),
    ResearchAgent.cross_check_loop results total all_data = Returned (total', all_data') ->
    List.length all_data' = (List.length all_data + List.length results)%nat
    /\ Forall (fun r => exists d, r = PDict d) results.
Proof.
  induction results as [|r results IH]; intros total all_data total' all_data' H;
    simpl in H.
  - injection H as <- <-. split; [simpl; lia | constructor].
  - destruct (py_get r "source") as [src|e] eqn:Hsrc; [|discriminate].
    destruct (py_get_default r "data" (PDict [])) as [data|e]; [|discriminate].
    destruct (py_get_default r "reliability" (PFloat 0.5)) as [rel|e]; [|discriminate].
    destruct (as_float rel (iadd_error rel)) as [x|e]; [|discriminate].
    apply IH in H. destruct H as [Hlen Hall].
    rewrite length_app in Hlen. simpl in *. split; [lia|].
    constructor; [|exact Hall].
    destruct r; try discriminate. eexists. reflexivity.
Qed.

(** X23: [_cross_check] returns only when every source result is a
    mapping; it then reports as many sources as it was given and
    consolidates as many entries.  On no results at all it does not divide by zero: the score is
    0.0, and the confidence computed from it is 0.0 too.  A source result
    that is no mapping makes it raise. *)
Theorem cross_check_counts :
  forall (results : list PyVal),
    match ResearchAgent._cross_check results with
    | Returned verified =>
        py_item verified "sources_checked"
        = Returned (PInt (Z.of_nat (List.length results)))
        /\ (exists data, py_item verified "consolidated_data" = Returned (PList data)
                         /\ List.length data = List.length results)
        /\ (exists score, py_item verified "reliability_score" = Returned (PFloat score)
                          /\ (results = [] -> score = 0.0%float))
        /\ Forall (fun r => exists d, r = PDict d) results
    | Raised _ => results <> []
    end
    /\ ResearchAgent._calculate_confidence
         (match ResearchAgent._cross_check [] with Returned v => v | Raised _ => PNone end)
       = Returned (PFloat 0.0).
Proof.
  intros results. split; [|vm_compute; reflexivity].
  unfold ResearchAgent._cross_check.
  destruct (ResearchAgent.cross_check_loop results 0 []) as [[total all_data]|e] eqn:H.
  - apply cross_check_loop_inv in H. destruct H as [Hlen Hall].
    split; [reflexivity|]. split; [exists all_data; split; [reflexivity | exact Hlen]|].
    split; [|exact Hall].
    eexists. split; [reflexivity|]. now intros ->.
  - intros ->. discriminate H.
Qed.

(** ** The coordinator: waiting, cancelling and the queries *)








(** X25: [cancel_task] on a recorded id answers True and sets the
    status of the task object to CANCELLED, whatever it was: afterwards
    [get_task_status] gives CANCELLED for the id and for every other id
    recorded for the same task object, the task is no longer among
    [get_active_tasks], and no task has become active.  The maps of the
    coordinator are as before: the task stays recorded. *)
Theorem cancel_task_then_queries :
  forall (task_id0 : string) (task : nat) (cs : CoordState),
    Dict.get task_id0 (active_tasks (coordinator cs)) = Some task ->
    let cs' := snd (Coordinator.cancel_task task_id0 cs) in
    fst (Coordinator.cancel_task task_id0 cs) = true
    /\ coordinator cs' = coordinator cs
    /\ (forall id, Dict.get id (active_tasks (coordinator cs)) = Some task ->
                   Coordinator.get_task_status id cs' = Some CANCELLED)
    /\ (forall id, Coordinator.get_task_status id cs' = None
                   <-> Coordinator.get_task_status id cs = None)
    /\ ~ In task (Coordinator.get_active_tasks cs')
    /\ (forall t, In t (Coordinator.get_active_tasks cs') ->
                  In t (Coordinator.get_active_tasks cs)).
Proof.
  intros task_id0 task cs Hget. unfold Coordinator.cancel_task. rewrite Hget. simpl.
  split; [reflexivity|]. split; [reflexivity|]. split; [|split; [|split]].
  - intros id Hid. unfold Coordinator.get_task_status. simpl. rewrite Hid.
    now rewrite Nat.eqb_refl.
  - intros id. unfold Coordinator.get_task_status. simpl.
    destruct (Dict.get id (active_tasks (coordinator cs))); split; congruence.
  - unfold Coordinator.get_active_tasks. simpl. intros Hin.
    apply filter_In in Hin. destruct Hin as [_ Hs].
    rewrite Nat.eqb_refl in Hs. discriminate Hs.
  - unfold Coordinator.get_active_tasks. simpl. intros t Hin.
    apply filter_In in Hin. destruct Hin as [Hv Hs].
    apply filter_In. split; [exact Hv|].
    destruct (t =? task)%nat; [discriminate Hs | exact Hs].
Qed.

Lemma cancel_task_then_queries_witness :
  Dict.get "t1" (active_tasks (coordinator sample_coord_state_shared)) = Some 1%nat
  /\ Coordinator.get_task_status "t1-again"
       (snd (Coordinator.cancel_task "t1" sample_coord_state_shared)) = Some CANCELLED.
Proof.
  split; [reflexivity|].
  apply (@cancel_task_then_queries "t1" 1%nat sample_coord_state_shared eq_refl).
  reflexivity.
Defined.

(** ** The coordinator: replies it cannot hear *)

Lemma send_unheard (ids : list string) (m : Message) (w : World) :
  unheard ids w ->
  (In (from_ m) ids -> to m = "coordinator") ->
  unheard ids (snd (send_message m w)).
Proof.
  intros (Hc & Ho & Hh) Hm. unfold send_message.
  destruct (Dict.get (to m) (agents (bus w))) as [inbox0|] eqn:E; simpl.
  - split; [exact Hc|]. split; [exact Ho|].
    intros m' Hin. apply in_app_or in Hin. destruct Hin as [Hin|[<-|[]]].
    + now apply Hh.
    + intros Hf. apply Hm in Hf. rewrite Hf in E. congruence.
  - split; [exact Hc|]. split; [exact Ho | exact Hh].
Qed.

Lemma deliveries_unheard (ids : list string) :
  forall (msgs : list Message) (w : World),
    unheard ids w ->
    (forall m, In m msgs -> In (from_ m) ids -> to m = "coordinator") ->
    unheard ids (fold_left (fun w0 m => snd (send_message m w0)) msgs w).
Proof.
  induction msgs as [|m msgs IH]; intros w Hu Hm; simpl; [exact Hu|].
  apply IH.
  - apply send_unheard; [exact Hu|]. apply Hm. now left.
  - intros m' Hin. apply Hm. now right.
Qed.

Lemma sleep_tick_unheard (ids : list string) (w : World) :
  unheard ids w -> unheard ids (sleep_tick w).
Proof.
  intros Hu. unfold sleep_tick.
  assert (H : unheard ids (fold_left (fun w0 m => snd (send_message m w0))
                                     (others w (clock w)) w)).
  { apply deliveries_unheard; [exact Hu|]. intros m. apply (proj1 (proj2 Hu)). }
  destruct H as (Hc & Ho & Hh). split; [exact Hc|]. split; [exact Ho | exact Hh].
Qed.

Lemma sleep_ticks_unheard (ids : list string) :
  forall (n : nat) (w : World),
    unheard ids w ->
    unheard ids (sleep_ticks n w) /\ clock (sleep_ticks n w) = (clock w + n)%nat.
Proof.
  induction n as [|n IH]; intros w Hu.
  - change (sleep_ticks 0 w) with w. split; [exact Hu | lia].
  - change (sleep_ticks (S n) w) with (sleep_ticks n (sleep_tick w)).
    destruct (IH (sleep_tick w) (sleep_tick_unheard Hu)) as [Hu' Hc].
    split; [exact Hu'|]. rewrite Hc, clock_sleep_tick. lia.
Qed.

Lemma find_none {A} (f : A -> bool) :
  forall (l : list A), (forall x, In x l -> f x = false) -> find f l = None.
Proof.
  induction l as [|x l IH]; intros H; simpl; [reflexivity|].
  rewrite (H x (or_introl eq_refl)). apply IH. intros y Hy. apply H. now right.
Qed.

Lemma wait_for_message_unheard (ids : list string) (agent : string)
    (correlation : option string) :
  In agent ids ->
  forall (left : nat) (w : World),
    unheard ids w ->
    exists w', wait_for_message agent correlation left w = (None, w')
               /\ unheard ids w'
               /\ clock w' = (clock w + left)%nat.
Proof.
  intros Hin. induction left as [|left IH]; intros w Hu.
  - exists w. split; [reflexivity|]. split; [exact Hu | lia].
  - rewrite wait_for_message_S.
    assert (Hscan : scan_history agent correlation (message_history (bus w)) = None).
    { unfold scan_history. apply find_none. intros m Hm.
      apply in_rev in Hm. apply (proj2 (proj2 Hu)) in Hm.
      destruct (from_ m =? agent) eqn:E; [|reflexivity].
      apply String.eqb_eq in E. now subst agent. }
    rewrite Hscan.
    destruct (IH (sleep_tick w) (sleep_tick_unheard Hu)) as (w' & Hw & Hu' & Hc).
    exists w'. split; [exact Hw|]. split; [exact Hu'|].
    rewrite Hc, clock_sleep_tick. lia.
Qed.

Lemma request_status_unheard (ids : list string) :
  ~ In "coordinator" ids ->
  forall (agent_ids : list string) (cs : CoordState),
    unheard ids (world cs) ->
    exists cs', Coordinator.request_status agent_ids cs = (Returned tt, cs')
                /\ coordinator cs' = coordinator cs
                /\ unheard ids (world cs')
                /\ clock (world cs') = clock (world cs).
Proof.
  intros Hco. induction agent_ids as [|a agent_ids IH]; intros cs Hu.
  - exists cs. split; [reflexivity|]. split; [reflexivity|].
    split; [exact Hu | reflexivity].
  - simpl. unfold bind at 1, in_world at 1, lift. simpl.
    unfold bind at 1, in_world at 1, lift. simpl.
    match goal with
    | |- context [send_message ?m ?w] =>
        pose proof (@send_unheard ids m w) as Hs;
        pose proof (clock_send_message m w) as Hk;
        destruct (send_message m w) as [ok w1]
    end.
    simpl in Hs, Hk.
    assert (Hu1 : unheard ids w1).
    { apply Hs.
      - destruct Hu as (Hc & Ho & Hh). split; [exact Hc|]. split; [exact Ho | exact Hh].
      - intros Hf. now destruct Hco. }
    destruct (IH (mkCoordState (coordinator cs) (task_store cs) w1) Hu1)
      as (cs' & Hr & Hc' & Hu' & Hk').
    exists cs'. split; [exact Hr|]. split; [exact Hc'|]. split; [exact Hu'|].
    rewrite Hk'. exact Hk.
Qed.

Lemma collect_status_unheard (ids : list string) :
  forall (agent_ids : list string) (sd : list (string * AgentStatus.t)) (cs : CoordState),
    incl agent_ids ids ->
    unheard ids (world cs) ->
    exists cs', Coordinator.collect_status agent_ids sd cs = (Returned sd, cs')
                /\ coordinator cs' = coordinator cs
                /\ clock (world cs') = (clock (world cs) + 10 * List.length agent_ids)%nat.
Proof.
  induction agent_ids as [|a agent_ids IH]; intros sd cs Hincl Hu.
  - exists cs. split; [reflexivity|]. split; [reflexivity | simpl; lia].
  - simpl Coordinator.collect_status. unfold bind at 1, in_world at 1, lift.
    assert (Ha : In a ids) by (apply Hincl; now left).
    destruct (@wait_for_message_unheard ids a None Ha 10 (world cs) Hu)
      as (w' & Hw & Hu' & Hc).
    simpl. rewrite Hw.
    assert (Hincl' : incl agent_ids ids) by (intros x Hx; apply Hincl; now right).
    destruct (IH sd (mkCoordState (coordinator cs) (task_store cs) w') Hincl' Hu')
      as (cs' & Hr & Hc' & Hk).
    exists cs'. split; [exact Hr|]. split; [exact Hc'|].
    rewrite Hk. simpl. lia.
Qed.

(** X26: the coordinator has no inbox of its own, so what is sent to
    "coordinator" is not delivered and leaves no trace in the history; and
    the history is where [gather_agent_status] looks for the answers.  If no
    agent is registered as "coordinator", the agents asked send only to
    "coordinator", and the history holds nothing from them yet, then
    [gather_agent_status] returns the empty dictionary, with [agent_status]
    as before, after the half second of sleep and a full second of waiting
    for each agent asked. *)
Theorem gather_agent_status_hears_nothing :
  forall (agent_ids : option (list string)) (cs : CoordState),
    let ids := match agent_ids with
               | Some l => l
               | None => get_registered_agents (bus (world cs))
               end in
    Dict.get "coordinator" (agents (bus (world cs))) = None ->
    ~ In "coordinator" ids ->
    (forall t m, In m (others (world cs) t) -> In (from_ m) ids -> to m = "coordinator") ->
    (forall m, In m (message_history (bus (world cs))) -> ~ In (from_ m) ids) ->
    exists cs',
      Coordinator.gather_agent_status agent_ids cs = (Returned [], cs')
      /\ coordinator cs' = coordinator cs
      /\ clock (world cs') = (clock (world cs) + 5 + 10 * List.length ids)%nat.
Proof.
  intros agent_ids cs ids Hc Hco Ho Hh.
  assert (Hu : unheard ids (world cs)) by (split; [exact Hc | split; [exact Ho | exact Hh]]).
  unfold Coordinator.gather_agent_status. unfold bind at 1, get_state. simpl.
  fold ids. unfold bind at 1.
  destruct (@request_status_unheard ids Hco ids cs Hu) as (cs1 & Hr & Hc1 & Hu1 & Hk1).
  rewrite Hr. unfold bind at 1, in_world at 1, lift. simpl.
  destruct (@sleep_ticks_unheard ids 5 (world cs1) Hu1) as [Hu2 Hk2].
  destruct (@collect_status_unheard ids ids []
              (mkCoordState (coordinator cs1) (task_store cs1) (sleep_ticks 5 (world cs1)))
              (incl_refl ids) Hu2) as (cs' & Hr' & Hc' & Hk').
  cbn [world coordinator] in Hk', Hc'.
  exists cs'. split; [exact Hr'|]. split; [now rewrite Hc'|].
  rewrite Hk', Hk2, Hk1. lia.
Qed.

(** The research agent answers at tick 1; the answer is lost. *)
Lemma gather_agent_status_hears_nothing_witness :
  exists cs',
    Coordinator.gather_agent_status (Some ["research_agent"])
      (mkCoordState Coordinator.init sample_task sample_reply_world)
    = (Returned [], cs')
    /\ coordinator cs' = Coordinator.init
    /\ clock (world cs') = 15%nat.
Proof.
  apply (@gather_agent_status_hears_nothing (Some ["research_agent"])
           (mkCoordState Coordinator.init sample_task sample_reply_world)).
  - reflexivity.
  - simpl. intros [H|[]]. discriminate H.
  - intros [|[|t]] m; simpl; try tauto.
    intros [<-|[<-|[]]]; simpl; [reflexivity|].
    intros [H|[]]. discriminate H.
  - simpl. tauto.
Defined.

(** ** The writer: waiting for the answer to a request *)

Lemma send_message_queue_app (m : Message) (w : World) (q : nat) :
  exists l, queues (snd (send_message m w)) q = queues w q ++ l.
Proof.
  unfold send_message.
  destruct (Dict.get (to m) (agents (bus w))) as [inbox0|]; simpl.
  - destruct (q =? inbox0)%nat; [now exists [m] | exists []; now rewrite app_nil_r].
  - exists []. now rewrite app_nil_r.
Qed.

Lemma deliveries_queue_app (q : nat) :
  forall (msgs : list Message) (w : World),
    exists l, queues (fold_left (fun w0 m => snd (send_message m w0)) msgs w) q
              = queues w q ++ l.
Proof.
  induction msgs as [|m msgs IH]; intros w; simpl.
  - exists []. now rewrite app_nil_r.
  - destruct (IH (snd (send_message m w))) as [l Hl].
    destruct (send_message_queue_app m w q) as [l0 Hl0].
    exists (l0 ++ l). now rewrite Hl, Hl0, app_assoc.
Qed.

Lemma sleep_tick_queue_app (w : World) (q : nat) :
  exists l, queues (sleep_tick w) q = queues w q ++ l.
Proof. unfold sleep_tick. simpl. apply deliveries_queue_app. Qed.

Lemma sleep_tick_agents (w : World) : agents (bus (sleep_tick w)) = agents (bus w).
Proof.
  unfold sleep_tick. simpl.
  apply (deliveries_extend (others w (clock w)) w).
Qed.

Lemma writer_wait_step_spec (request_id : string)
    (me : Agent WriterAgent.ContentCache) (w : World) :
  forall r me' w',
    WriterAgent.wait_step request_id (me, w) = (r, (me', w')) ->
    me' = me
    /\ agents (bus w') = agents (bus w)
    /\ (forall m, In m (queues w (inbox me)) -> message_type m <> RESULT ->
                  In m (queues w' (inbox me)))
    /\ match r with
       | Returned (Some m) =>
           message_type m = RESULT
           /\ py_get (content m) "task_id" = Returned (PStr request_id)
           /\ clock w' = clock w
       | Returned None => clock w' = S (clock w)
       | Raised _ => clock w' = clock w
       end.
Proof.
  intros r me' w' H.
  unfold WriterAgent.wait_step in H.
  unfold bind at 1, self in H. simpl in H.
  unfold bind at 1, get_state in H. simpl in H.
  destruct (queues w (inbox me)) as [|message rest] eqn:Hq.
  - unfold bind, ret, on_world, lift in H. simpl in H.
    injection H as <- <- <-.
    split; [reflexivity|]. split; [rewrite sleep_tick_agents; reflexivity|].
    split; [intros m []|]. rewrite clock_sleep_tick; reflexivity.
  - unfold bind at 1 in H. unfold bind at 1, on_world at 1, lift in H. simpl in H.
    set (w1 := set_queues (fun q => if (q =? inbox me)%nat then rest else queues w q) w)
      in *.
    assert (Hq1 : queues w1 (inbox me) = rest) by (simpl; now rewrite Nat.eqb_refl).
    assert (Hrest : forall (w2 : World) m,
               (forall x, In x rest -> In x (queues w2 (inbox me))) ->
               In m (message :: rest) -> message_type m <> RESULT ->
               message_type message = RESULT ->
               In m (queues w2 (inbox me))).
    { intros w2 m Hw2 [<-|Hin] Hne Hty; [contradiction | now apply Hw2]. }
    assert (Hsleep : forall (w2 : World) x, In x (queues w2 (inbox me)) ->
                                            In x (queues (sleep_tick w2) (inbox me))).
    { intros w2 x Hx. destruct (sleep_tick_queue_app w2 (inbox me)) as [l ->].
      apply in_or_app. now left. }
    destruct (message_type message) eqn:Hty;
      try (unfold bind, ret, on_world, lift in H; simpl in H;
           injection H as <- <- <-;
           split; [reflexivity|]; split; [rewrite sleep_tick_agents; reflexivity|];
           split; [|rewrite clock_sleep_tick; reflexivity];
           intros m Hin _; apply Hsleep; simpl; rewrite Nat.eqb_refl;
           apply in_or_app; destruct Hin as [<-|Hin]; [right; now left | now left]).
    unfold bind at 1, of_outcome in H.
    destruct (py_get (content message) "task_id") as [tid|e] eqn:Htid.
    + destruct (BaseAgent.is_str tid request_id) eqn:Hid.
      * unfold bind, ret in H. simpl in H. injection H as <- <- <-.
        split; [reflexivity|]. split; [reflexivity|]. split.
        -- intros m Hin Hne. apply (Hrest w1 m); try assumption; try reflexivity.
           intros x Hx. now rewrite Hq1.
        -- split; [exact Hty|]. split; [|reflexivity].
           destruct tid; try discriminate Hid. simpl in Hid.
           apply String.eqb_eq in Hid. rewrite <- Hid. exact Htid.
      * unfold bind, ret, on_world, lift in H. simpl in H. injection H as <- <- <-.
        split; [reflexivity|]. split; [rewrite sleep_tick_agents; reflexivity|].
        split; [|rewrite clock_sleep_tick; reflexivity].
        intros m Hin Hne. apply Hsleep. apply (Hrest w1 m); try assumption; try reflexivity.
        intros x Hx. now rewrite Hq1.
    + simpl in H. injection H as <- <- <-.
      split; [reflexivity|]. split; [reflexivity|]. split; [|reflexivity].
      intros m Hin Hne. apply (Hrest w1 m); try assumption; try reflexivity.
      intros x Hx. now rewrite Hq1.
Qed.

Lemma writer_wait_loop_spec (request_id : string) (me : Agent WriterAgent.ContentCache) :
  forall (left : nat) (w : World) r me' w',
    WriterAgent.wait_loop left request_id (me, w) = (r, (me', w')) ->
    me' = me
    /\ agents (bus w') = agents (bus w)
    /\ (forall m, In m (queues w (inbox me)) -> message_type m <> RESULT ->
                  In m (queues w' (inbox me)))
    /\ match r with
       | Returned (Some m) =>
           message_type m = RESULT
           /\ py_get (content m) "task_id" = Returned (PStr request_id)
           /\ (clock w <= clock w' < clock w + left)%nat
       | Returned None => clock w' = (clock w + left)%nat
       | Raised _ => (clock w <= clock w' < clock w + left)%nat
       end.
Proof.
  induction left as [|left IH]; intros w r me' w' H.
  - simpl in H. unfold ret in H. injection H as <- <- <-.
    split; [reflexivity|]. split; [reflexivity|]. split; [auto | lia].
  - simpl in H. unfold bind at 1 in H.
    destruct (WriterAgent.wait_step request_id (me, w)) as [r1 [me1 w1]] eqn:E.
    destruct (@writer_wait_step_spec request_id me w _ _ _ E) as (-> & Ha & Hk & Hr).
    destruct r1 as [[m|]|e].
    + unfold ret in H. injection H as <- <- <-.
      split; [reflexivity|]. split; [exact Ha|]. split; [exact Hk|].
      destruct Hr as (Ht & Hi & Hc). split; [exact Ht|]. split; [exact Hi | lia].
    + destruct (IH w1 _ _ _ H) as (-> & Ha' & Hk' & Hr').
      split; [reflexivity|]. split; [now rewrite Ha'|].
      split; [intros m Hin Hne; apply Hk'; [now apply Hk | exact Hne]|].
      destruct r as [[m|]|e]; [|lia|lia].
      destruct Hr' as (Ht & Hi & Hc). split; [exact Ht|]. split; [exact Hi | lia].
    + injection H as <- <- <-.
      split; [reflexivity|]. split; [exact Ha|]. split; [exact Hk | lia].
Qed.

(** X27: [WriterAgent._wait_for_response] changes nothing of the agent
    and loses no message that is not a RESULT: what it takes off the inbox
    and does not await, it puts back (at the end of the queue), so every
    such message of the inbox is still there afterwards.  A message it
    returns is a RESULT with the awaited task id, returned before the time
    is up; when it returns None, exactly the timeout has passed. *)
Theorem wait_for_response_keeps_other_messages :
  forall (request_id : string) (timeout : nat)
         (me : Agent WriterAgent.ContentCache) (w : World),
    match WriterAgent._wait_for_response request_id timeout (me, w) with
    | (r, (me', w')) =>
        me' = me
        /\ agents (bus w') = agents (bus w)
        /\ (forall m, In m (queues w (inbox me)) -> message_type m <> RESULT ->
                      In m (queues w' (inbox me)))
        /\ match r with
           | Returned (Some m) =>
               message_type m = RESULT
               /\ py_get (content m) "task_id" = Returned (PStr request_id)
               /\ (clock w <= clock w' < clock w + timeout)%nat
           | Returned None => clock w' = (clock w + timeout)%nat
           | Raised _ => (clock w <= clock w' < clock w + timeout)%nat
           end
    end.
Proof.
  intros request_id timeout me w. unfold WriterAgent._wait_for_response.
  destruct (WriterAgent.wait_loop timeout request_id (me, w)) as [r [me' w']] eqn:E.
  exact (@writer_wait_loop_spec request_id me timeout w r me' w' E).
Qed.

Lemma writer_wait_loop_S (left : nat) (request_id : string)
    (s : Agent WriterAgent.ContentCache * World) :
  WriterAgent.wait_loop (S left) request_id s
  = match WriterAgent.wait_step request_id s with
    | (Returned (Some m), s') => (Returned (Some m), s')
    | (Returned None, s') => WriterAgent.wait_loop left request_id s'
    | (Raised e, s') => (Raised e, s')
    end.
Proof.
  change (WriterAgent.wait_loop (S left) request_id s)
    with (bind (WriterAgent.wait_step request_id)
               (fun found => match found with
                             | Some message => ret (Some message)
                             | None => WriterAgent.wait_loop left request_id
                             end) s).
  unfold bind.
  destruct (WriterAgent.wait_step request_id s) as [[[m|]|e] s']; reflexivity.
Qed.

Lemma writer_wait_step_empty (request_id : string)
    (me : Agent WriterAgent.ContentCache) (w : World) :
  queues w (inbox me) = [] ->
  WriterAgent.wait_step request_id (me, w) = (Returned None, (me, sleep_tick w)).
Proof.
  intros Hq. unfold WriterAgent.wait_step.
  unfold bind at 1, self. simpl. unfold bind at 1, get_state. simpl.
  rewrite Hq. reflexivity.
Qed.

Lemma writer_wait_step_hit (request_id : string)
    (me : Agent WriterAgent.ContentCache) (w : World)
    (m : Message) (rest : list Message) (d : list (string * PyVal)) :
  queues w (inbox me) = m :: rest ->
  message_type m = RESULT ->
  content m = PDict d ->
  Dict.get "task_id" d = Some (PStr request_id) ->
  WriterAgent.wait_step request_id (me, w)
  = (Returned (Some m), (me, inbox_popped me w)).
Proof.
  intros Hq Hty Hc Hid. unfold WriterAgent.wait_step.
  unfold bind at 1, self. simpl. unfold bind at 1, get_state. simpl.
  rewrite Hq, Hty, Hc. unfold inbox_popped. rewrite Hq.
  unfold bind, on_world, lift, of_outcome, ret. simpl. rewrite Hid. simpl.
  rewrite String.eqb_refl. reflexivity.
Qed.

(** In a world where the other coroutines are silent for [t] ticks and then
    deliver the awaited RESULT, the wait returns it a tick later. *)
Lemma writer_wait_loop_answer (request_id : string)
    (me : Agent WriterAgent.ContentCache) (reply : Message) (d : list (string * PyVal)) :
  message_type reply = RESULT ->
  content reply = PDict d ->
  Dict.get "task_id" d = Some (PStr request_id) ->
  forall (t left : nat) (w : World),
    (t + 2 <= left)%nat ->
    queues w (inbox me) = [] ->
    (forall n, (clock w <= n < clock w + t)%nat -> others w n = []) ->
    others w (clock w + t) = [reply] ->
    Dict.get (to reply) (agents (bus w)) = Some (inbox me) ->
    exists w',
      WriterAgent.wait_loop left request_id (me, w) = (Returned (Some reply), (me, w'))
      /\ clock w' = (clock w + t + 1)%nat
      /\ queues w' (inbox me) = [].
Proof.
  intros Hty Hc Hid. induction t as [|t IH]; intros left w Hleft Hq Hsilent Hreply Hto.
  - destruct left as [|[|left]]; try lia.
    rewrite writer_wait_loop_S, (writer_wait_step_empty request_id me w Hq).
    rewrite Nat.add_0_r in Hreply.
    assert (Hq1 : queues (sleep_tick w) (inbox me) = [reply]).
    { unfold sleep_tick. rewrite Hreply. simpl. unfold send_message. rewrite Hto.
      simpl. now rewrite Nat.eqb_refl, Hq. }
    rewrite writer_wait_loop_S.
    rewrite (@writer_wait_step_hit request_id me (sleep_tick w) reply [] d Hq1 Hty Hc Hid).
    eexists. split; [reflexivity|]. split.
    + unfold inbox_popped. simpl. lia.
    + unfold inbox_popped, set_queues. cbn [queues].
      now rewrite Nat.eqb_refl, Hq1.
  - destruct left as [|left]; try lia.
    rewrite writer_wait_loop_S, (writer_wait_step_empty request_id me w Hq).
    assert (H0 : others w (clock w) = []) by (apply Hsilent; lia).
    assert (Hw : sleep_tick w = set_clock (S (clock w)) w).
    { unfold sleep_tick. now rewrite H0. }
    rewrite Hw.
    destruct (IH left (set_clock (S (clock w)) w)) as (w' & Hr & Hk & Hq').
    + lia.
    + exact Hq.
    + intros n Hn. simpl in *. apply Hsilent. lia.
    + simpl. rewrite <- Hreply. f_equal. lia.
    + exact Hto.
    + exists w'. split; [exact Hr|]. split; [simpl in Hk; lia | exact Hq'].
Qed.

(** X28: the round trip of [WriterAgent._request_research] on a writer
    whose message loop is not running, so that the request is the only
    reader of the writer's inbox (a started writer's own loop would take
    the answer first).  The writer draws a request id, sends the TASK to
    "research_agent" and polls its inbox.  If the inbox is empty, the bus is
    silent for [t] ticks and then delivers to the writer's inbox a RESULT
    whose payload carries that id (as the reply of
    [BaseAgent._handle_task_message] does), then [_request_research] returns
    the "result" of that payload one tick after the delivery, and leaves the
    inbox empty. *)
Theorem request_research_round_trip :
  forall (topic : string) (me : Agent WriterAgent.ContentCache) (w : World)
         (t : nat) (reply : Message) (d : list (string * PyVal)),
    running me = false ->
    queues w (inbox me) = [] ->
    Dict.get "research_agent" (agents (bus w)) <> Some (inbox me) ->
    (t < 99)%nat ->
    (forall n, (clock w <= n < clock w + t)%nat -> others w n = []) ->
    others w (clock w + t) = [reply] ->
    Dict.get (to reply) (agents (bus w)) = Some (inbox me) ->
    message_type reply = RESULT ->
    content reply = PDict d ->
    Dict.get "task_id" d = Some (PStr (uuid4 w (draws w))) ->
    exists w',
      WriterAgent._request_research topic (me, w)
      = (Returned (match Dict.get "result" d with Some r => r | None => PNone end),
         (me, w'))
      /\ clock w' = (clock w + t + 1)%nat
      /\ queues w' (inbox me) = [].
Proof.
  intros topic me w t reply d _ Hq Hra Ht Hsilent Hreply Hto Hty Hc Hid.
  unfold WriterAgent._request_research.
  unfold bind at 1, on_world at 1, lift, fresh_uuid. simpl.
  unfold bind at 1, BaseAgent.send_message.
  unfold bind at 1, self. simpl. unfold bind at 1, on_world at 1, lift. simpl.
  unfold on_world at 1, lift. simpl.
  match goal with
  | |- context [send_message ?m ?w0] =>
      set (request := m); set (w1 := w0);
      assert (Hsent : queues (snd (send_message request w1)) (inbox me) = []
                      /\ others (snd (send_message request w1)) = others w
                      /\ clock (snd (send_message request w1)) = clock w
                      /\ agents (bus (snd (send_message request w1))) = agents (bus w))
  end.
  { unfold send_message. simpl.
    destruct (Dict.get "research_agent" (agents (bus w))) as [q|] eqn:E; simpl.
    - destruct (inbox me =? q)%nat eqn:Eq.
      + apply Nat.eqb_eq in Eq. subst q. now destruct Hra.
      + repeat split; assumption.
    - repeat split; assumption. }
  destruct (send_message request w1) as [ok w2]. simpl in Hsent.
  destruct Hsent as (Hq2 & Ho2 & Hk2 & Ha2).
  unfold WriterAgent._wait_for_response. unfold bind.
  destruct (@writer_wait_loop_answer (uuid4 w (draws w)) me reply d Hty Hc Hid t 100 w2)
    as (w' & Hr & Hk & Hq').
  - lia.
  - exact Hq2.
  - intros n Hn. rewrite Ho2. apply Hsilent. lia.
  - now rewrite Ho2, Hk2.
  - now rewrite Ha2.
  - rewrite Hr. exists w'. unfold of_outcome. rewrite Hc. simpl.
    split; [reflexivity|]. split; [lia | exact Hq'].
Qed.

(** The writer has not been started and its inbox is registered; the
    research agent answers at tick 2, the writer has the answer at tick 3. *)
Lemma request_research_round_trip_witness :
  exists w',
    WriterAgent._request_research "Climate" (sample_writer, sample_writer_world)
    = (Returned (PStr "facts"), (sample_writer, w'))
    /\ clock w' = 3%nat
    /\ queues w' 1 = [].
Proof.
  apply (@request_research_round_trip "Climate" sample_writer sample_writer_world 2
           sample_research_reply
           [("task_id", PStr "uuid-0"); ("result", PStr "facts");
            ("status", PStr "completed")]).
  - reflexivity.
  - reflexivity.
  - discriminate.
  - lia.
  - intros [|[|n]] Hn; [reflexivity | reflexivity | simpl in Hn; lia].
  - reflexivity.
  - reflexivity.
  - reflexivity.
  - reflexivity.
  - reflexivity.
Defined.

(** ** The analyzer: counting data items *)

Lemma PyVal_nested_ind (P : PyVal -> Prop) :
  P PNone ->
  (forall b, P (PBool b)) ->
  (forall n, P (PInt n)) ->
  (forall x, P (PFloat x)) ->
  (forall s, P (PStr s)) ->
  (forall l, Forall P l -> P (PList l)) ->
  (forall d, Forall (fun kv => P (snd kv)) d -> P (PDict d)) ->
  forall v, P v.
Proof.
  intros HNone HBool HInt HFloat HStr HList HDict.
  fix IH 1. intros [| b | n | x | s | l | d].
  - exact HNone.
  - apply HBool.
  - apply HInt.
  - apply HFloat.
  - apply HStr.
  - apply HList. induction l as [|v l IHl]; constructor; [apply IH | exact IHl].
  - apply HDict. induction d as [|[k v] d IHd]; constructor; [apply IH | exact IHd].
Qed.

(** X29: [AnalyzerAgent._count_data_items] depends on [depth] and
    [max_depth] through the number of levels left only; it is never
    negative; a larger [max_depth] never gives a smaller count; and a dict
    or list at a depth within [max_depth] counts for at least its length,
    exactly its length when it sits at [max_depth]. *)
Theorem count_data_items_levels :
  forall (data : PyVal) (depth max_depth extra : nat),
    AnalyzerAgent._count_data_items data (depth + extra) (max_depth + extra)
    = AnalyzerAgent._count_data_items data depth max_depth
    /\ (0 <= AnalyzerAgent._count_data_items data depth max_depth
        <= AnalyzerAgent._count_data_items data depth (max_depth + extra))%Z
    /\ match data with
       | PDict d =>
           ((depth <= max_depth)%nat ->
            (Z.of_nat (List.length d)
             <= AnalyzerAgent._count_data_items data depth max_depth)%Z)
           /\ AnalyzerAgent._count_data_items data max_depth max_depth
              = Z.of_nat (List.length d)
       | PList l =>
           ((depth <= max_depth)%nat ->
            (Z.of_nat (List.length l)
             <= AnalyzerAgent._count_data_items data depth max_depth)%Z)
           /\ AnalyzerAgent._count_data_items data max_depth max_depth
              = Z.of_nat (List.length l)
       | _ => AnalyzerAgent._count_data_items data depth max_depth = 0%Z
       end.
Proof.
  induction data as [| b | n | x | s | l IHl | d IHd] using PyVal_nested_ind;
    intros depth max_depth extra;
    try (simpl; repeat rewrite Tauto.if_same; repeat split; lia).
  - (* a list *)
    assert (Hsum : forall (depth max_depth extra : nat),
      let items md dp :=
        (fix items (l : list PyVal) : Z :=
           match l with
           | [] => 0%Z
           | item :: rest =>
               (AnalyzerAgent._count_data_items item dp md + items rest)%Z
           end) l in
      items (max_depth + extra)%nat (S (depth + extra))
      = items max_depth (S depth)
      /\ (0 <= items max_depth (S depth) <= items (max_depth + extra)%nat (S depth))%Z
      /\ items max_depth (S max_depth) = 0%Z).
    { intros dp md ex. induction IHl as [|v l Hv _ IH]; simpl; [repeat split; lia|].
      destruct IH as (IH1 & IH2 & IH3).
      destruct (Hv (S dp) md ex) as (Hv1 & Hv2 & _).
      destruct (Hv (S md) md 0%nat) as (_ & _ & Hv3).
      assert (Hz : AnalyzerAgent._count_data_items v (S md) md = 0%Z).
      { destruct v; simpl; rewrite ?Hv3; try reflexivity;
          (replace (md <? S md)%nat with true
             by (symmetry; apply Nat.ltb_lt; lia)); reflexivity. }
      simpl in Hv1. rewrite Hv1, IH1, Hz, IH3. repeat split; lia. }
    destruct (Hsum depth max_depth extra) as (H1 & H2 & H3). clear Hsum.
    simpl in H1, H2, H3. simpl.
    replace (max_depth + extra <? depth + extra)%nat with (max_depth <? depth)%nat
      by (destruct (Nat.ltb_spec max_depth depth);
          symmetry; [apply Nat.ltb_lt | apply Nat.ltb_ge]; lia).
    rewrite Nat.ltb_irrefl, H3.
    destruct (Nat.ltb_spec max_depth depth) as [Hlt|Hle].
    + split; [reflexivity|]. split.
      * split; [lia|].
        destruct (max_depth + extra <? depth)%nat; lia.
      * split; [lia | lia].
    + rewrite H1. split; [reflexivity|].
      replace (max_depth + extra <? depth)%nat with false
        by (symmetry; apply Nat.ltb_ge; lia).
      split; [lia|]. split; [lia | lia].
  - (* a dict *)
    assert (Hsum : forall (depth max_depth extra : nat),
      let values md dp :=
        (fix values (l : list (string * PyVal)) : Z :=
           match l with
           | [] => 0%Z
           | (_, value) :: rest =>
               (AnalyzerAgent._count_data_items value dp md + values rest)%Z
           end) d in
      values (max_depth + extra)%nat (S (depth + extra))
      = values max_depth (S depth)
      /\ (0 <= values max_depth (S depth) <= values (max_depth + extra)%nat (S depth))%Z
      /\ values max_depth (S max_depth) = 0%Z).
    { intros dp md ex. induction IHd as [|[k v] d Hv _ IH]; simpl; [repeat split; lia|].
      destruct IH as (IH1 & IH2 & IH3). simpl in Hv.
      destruct (Hv (S dp) md ex) as (Hv1 & Hv2 & _).
      destruct (Hv (S md) md 0%nat) as (_ & _ & Hv3).
      assert (Hz : AnalyzerAgent._count_data_items v (S md) md = 0%Z).
      { destruct v; simpl; rewrite ?Hv3; try reflexivity;
          (replace (md <? S md)%nat with true
             by (symmetry; apply Nat.ltb_lt; lia)); reflexivity. }
      simpl in Hv1. rewrite Hv1, IH1, Hz, IH3. repeat split; lia. }
    destruct (Hsum depth max_depth extra) as (H1 & H2 & H3). clear Hsum.
    simpl in H1, H2, H3. simpl.
    replace (max_depth + extra <? depth + extra)%nat with (max_depth <? depth)%nat
      by (destruct (Nat.ltb_spec max_depth depth);
          symmetry; [apply Nat.ltb_lt | apply Nat.ltb_ge]; lia).
    rewrite Nat.ltb_irrefl, H3.
    destruct (Nat.ltb_spec max_depth depth) as [Hlt|Hle].
    + split; [reflexivity|]. split.
      * split; [lia|].
        destruct (max_depth + extra <? depth)%nat; lia.
      * split; [lia | lia].
    + rewrite H1. split; [reflexivity|].
      replace (max_depth + extra <? depth)%nat with false
        by (symmetry; apply Nat.ltb_ge; lia).
      split; [lia|]. split; [lia | lia].
Qed.
